(** * Authentication core of the remote proxy: scope resolution, credential
      store, lock validation and authorization-code coordination.

    The development embeds the TypeScript sources
    [src/lib/node-oauth-client-provider.ts] and [src/lib/coordination.ts]
    shallowly: pure helpers are functions, methods that touch the file store,
    the network, the clock or the process table are computations of a small
    state-and-exception monad over an explicit world state. *)

From Stdlib Require Import ZArith NArith List Lia Bool String Ascii DecimalString Floats.
From stdpp Require Import base option list strings gmap.

(** ** JavaScript values the code manipulates *)

Module JS.

(** A JavaScript string is a sequence of UTF-16 code units. *)
Abbreviation jsstring := (list N).

(** A source-level string literal (ASCII) as a JavaScript string. *)
Definition js (s : string) : jsstring := N_of_ascii <$> list_ascii_of_string s.
Arguments js : simpl never.

(** The double-quote character, as a one-unit string. *)
Definition dquote : jsstring := [34%N].

(** ECMAScript [WhiteSpace] and [LineTerminator] code units, the ones
    [String.prototype.trim] strips. *)
Definition isWhiteSpace (c : N) : bool :=
  ((c =? 9) || (c =? 10) || (c =? 11) || (c =? 12) || (c =? 13) || (c =? 32)
   || (c =? 160) || (c =? 5760) || ((8192 <=? c) && (c <=? 8202))
   || (c =? 8232) || (c =? 8233) || (c =? 8239) || (c =? 8287)
   || (c =? 12288) || (c =? 65279))%N.

Fixpoint trimStart (s : jsstring) : jsstring :=
  match s with
  | c :: s' => if isWhiteSpace c then trimStart s' else s
  | [] => []
  end.

Definition trimEnd (s : jsstring) : jsstring := rev (trimStart (rev s)).

(** [s.trim()] *)
Definition trim (s : jsstring) : jsstring := trimEnd (trimStart s).

(** Truthiness of a string: the empty string is the only falsy one. *)
Definition truthy_string (s : jsstring) : bool :=
  match s with [] => false | _ => true end.

(** [a || d] where [a] is an optional string. *)
Definition or_string (a : option jsstring) (d : jsstring) : jsstring :=
  match a with
  | Some s => if truthy_string s then s else d
  | None => d
  end.

(** [arr.join(sep)] on an array of strings. *)
Fixpoint join (sep : jsstring) (arr : list jsstring) : jsstring :=
  match arr with
  | [] => []
  | [x] => x
  | x :: rest => x ++ sep ++ join sep rest
  end.

(** Template-literal conversion of an integral number: decimal digits with a
    leading minus sign for negatives (the form [Number::toString] gives every
    integer below 10^21 in magnitude). *)
Definition show_Z (z : Z) : jsstring := js (NilZero.string_of_int (Z.to_int z)).
Arguments show_Z : simpl never.

(** [s.startsWith(p)] *)
Fixpoint startsWith (p s : jsstring) : bool :=
  match p, s with
  | [], _ => true
  | a :: p', b :: s' => (a =? b)%N && startsWith p' s'
  | _ :: _, [] => false
  end.

(** [s.replaceAll(pat, rep)] for a non-empty literal pattern: a left-to-right
    scan; [skip] counts the units of a match still to be dropped. *)
Fixpoint replaceAll_from (skip : nat) (pat rep s : jsstring) : jsstring :=
  match s with
  | [] => []
  | c :: s' =>
      match skip with
      | S k => replaceAll_from k pat rep s'
      | O =>
          if startsWith pat s
          then rep ++ replaceAll_from (length pat - 1) pat rep s'
          else c :: replaceAll_from 0 pat rep s'
      end
  end.

Definition replaceAll (pat rep s : jsstring) : jsstring := replaceAll_from 0 pat rep s.

(** An [Error] object; only its message is observed. *)
Record Error := mkError { message : jsstring }.

(** Values produced by [JSON.parse]. Numbers are IEEE doubles. *)
#[warnings="-register-all"]
Inductive json :=
| JNull
| JBool (b : bool)
| JNumber (x : float)
| JString (s : jsstring)
| JArray (items : list json)
| JObject (fields : gmap jsstring json).

(** A value or [undefined]. *)
Abbreviation jsvalue := (option json).

(** Truthiness (ToBoolean). *)
Definition truthy (v : jsvalue) : bool :=
  match v with
  | None => false
  | Some JNull => false
  | Some (JBool b) => b
  | Some (JNumber x) => negb (PrimFloat.eqb x 0%float) && negb (PrimFloat.is_nan x)
  | Some (JString s) => truthy_string s
  | Some (JArray _) => true
  | Some (JObject _) => true
  end.

(** [a || b] *)
Definition or_value (a b : jsvalue) : jsvalue := if truthy a then a else b.

(** [v.k] for a property name [k] that no built-in prototype defines (such as
    [code] and [authorization_code]): an own property of an object, [undefined]
    on any other value, and a [TypeError] ([inl]) on [null]. *)
Definition get_property (v : json) (k : jsstring) : Error + jsvalue :=
  match v with
  | JNull => inl (mkError (js "Cannot read properties of null"))
  | JObject fields => inr (fields !! k)
  | _ => inr None
  end.

End JS.

Export JS.

(** ** The computation monad: world state, exceptions, suspension *)

Module Run.

(** How an (async) call ends: it returns, it throws (a rejected promise), it
    awaits a promise that never settles, or the model ran out of fuel before
    the call ended (which says nothing about the call). *)
Inductive result (A : Type) :=
| Returns (a : A)
| Throws (e : Error)
| NeverSettles
| OutOfFuel.
Arguments Returns {A} a.
Arguments Throws {A} e.
Arguments NeverSettles {A}.
Arguments OutOfFuel {A}.

Definition M (St A : Type) : Type := St -> result A * St.

Definition ret {St A} (a : A) : M St A := fun s => (Returns a, s).

Definition bind {St A B} (m : M St A) (k : A -> M St B) : M St B :=
  fun s =>
    match m s with
    | (Returns a, s') => k a s'
    | (Throws e, s') => (Throws e, s')
    | (NeverSettles, s') => (NeverSettles, s')
    | (OutOfFuel, s') => (OutOfFuel, s')
    end.

(** [throw e] *)
Definition throw {St A} (e : Error) : M St A := fun s => (Throws e, s).

(** [try { m } catch (e) { h e }]: only a thrown error reaches the handler. *)
Definition try_catch {St A} (m : M St A) (h : Error -> M St A) : M St A :=
  fun s =>
    match m s with
    | (Throws e, s') => h e s'
    | r => r
    end.

Definition get {St} : M St St := fun s => (Returns s, s).
Definition modify {St} (f : St -> St) : M St unit := fun s => (Returns tt, f s).

End Run.

Export Run.

Declare Scope run_scope.
Delimit Scope run_scope with run.
Notation "x <- m ;; k" := (bind m (fun x => k))
  (at level 100, m at next level, right associativity) : run_scope.
Notation "m ;;; k" := (bind m (fun _ => k))
  (at level 100, right associativity) : run_scope.
Open Scope run_scope.

(** ** Types of the OAuth library the provider exchanges *)

Module Types.

(** The value shapes client metadata holds: strings and arrays of strings. *)
Inductive field :=
| VString (s : jsstring)
| VArray (items : list jsstring).

(** [OAuthClientMetadata]: an object, read as a finite map from property
    names to values. By its type, [scope] is a string when present. *)
Abbreviation OAuthClientMetadata := (gmap string field).

(** [OAuthClientInformationFull] *)
Record OAuthClientInformationFull := {
  client_id : jsstring;
  client_secret : option jsstring;
  redirect_uris : list jsstring;
  ci_scope : option jsstring;
}.

(** [OAuthTokens] *)
Record OAuthTokens := {
  access_token : jsstring;
  refresh_token : option jsstring;
  expires_in : option Z;
}.

(** [AuthorizationServerMetadata], as far as the provider reads it. *)
Record AuthorizationServerMetadata := {
  issuer : jsstring;
  as_scopes_supported : option (list jsstring);
}.

(** [ProtectedResourceMetadata], as far as the provider reads it. *)
Record ProtectedResourceMetadata := {
  resource : jsstring;
  prm_scopes_supported : option (list jsstring);
}.

Inductive AuthMode := local | bridge.

(** [OAuthProviderOptions] *)
Record OAuthProviderOptions := {
  opt_serverUrl : jsstring;
  opt_callbackPort : Z;
  opt_host : jsstring;
  opt_callbackPath : option jsstring;
  opt_clientName : option jsstring;
  opt_clientUri : option jsstring;
  opt_softwareId : option jsstring;
  opt_softwareVersion : option jsstring;
  opt_staticOAuthClientMetadata : option OAuthClientMetadata;
  opt_staticOAuthClientInfo : option OAuthClientInformationFull;
  opt_authorizeResource : option jsstring;
  opt_serverUrlHash : jsstring;
  opt_redirectUrl : option jsstring;
  opt_authMode : option AuthMode;
  opt_authBridgeNotifyUrl : option jsstring;
  opt_authSessionId : option jsstring;
  opt_authorizationServerMetadata : option AuthorizationServerMetadata;
  opt_protectedResourceMetadata : option ProtectedResourceMetadata;
  opt_wwwAuthenticateScope : option jsstring;
}.

End Types.

Export Types.

(** ** The persisted-file store ([./mcp-auth-config]) *)

Module ConfigStore.

(** Modelled from the spec: the module [mcp-auth-config] ([readJsonFile],
    [writeJsonFile], [readTextFile], [writeTextFile], [deleteConfigFile]) is
    not among the sources. The spec describes it as a per-server-identity
    file-backed key-value store that reads, writes and deletes JSON or text
    blobs and schema-validates on read, treating malformed content as absent.
    A file holds a blob; a schema accepts the blobs of its own shape. *)
Inductive blob :=
| ClientInfoJson (c : OAuthClientInformationFull)
| TokensJson (t : OAuthTokens)
| Text (s : jsstring)
| Malformed (raw : jsstring).

(** A file is named by the server identity and a file name. *)
Abbreviation path := (jsstring * jsstring)%type.

(** What was asked of the store, oldest first. *)
Inductive access :=
| ReadFile (p : path)
| WriteFile (p : path)
| DeleteFile (p : path).

Definition Schema (A : Type) : Type := blob -> option A.

Definition OAuthClientInformationFullSchema : Schema OAuthClientInformationFull :=
  fun b => match b with ClientInfoJson c => Some c | _ => None end.

Definition OAuthTokensSchema : Schema OAuthTokens :=
  fun b => match b with TokensJson t => Some t | _ => None end.

End ConfigStore.

Export ConfigStore.

(** ** [NodeOAuthClientProvider] *)

Module Provider.

(** The instance fields of the class. *)
Record NodeOAuthClientProvider := {
  options : OAuthProviderOptions;
  serverUrlHash : jsstring;
  callbackPath : jsstring;
  clientName : jsstring;
  clientUri : jsstring;
  softwareId : jsstring;
  softwareVersion : jsstring;
  staticOAuthClientMetadata : option OAuthClientMetadata;
  staticOAuthClientInfo : option OAuthClientInformationFull;
  authorizeResource : option jsstring;
  _state : jsstring;
  _clientInfo : option OAuthClientInformationFull;
  authorizationServerMetadata : option AuthorizationServerMetadata;
  protectedResourceMetadata : option ProtectedResourceMetadata;
  wwwAuthenticateScope : option jsstring;
}.

(** The world a method runs in: the instance and the persisted files. *)
Record World := {
  this : NodeOAuthClientProvider;
  files : gmap path blob;
  accesses : list access;
}.

Definition set_clientInfo (v : option OAuthClientInformationFull)
    (p : NodeOAuthClientProvider) : NodeOAuthClientProvider :=
  {| options := options p; serverUrlHash := serverUrlHash p;
     callbackPath := callbackPath p; clientName := clientName p;
     clientUri := clientUri p; softwareId := softwareId p;
     softwareVersion := softwareVersion p;
     staticOAuthClientMetadata := staticOAuthClientMetadata p;
     staticOAuthClientInfo := staticOAuthClientInfo p;
     authorizeResource := authorizeResource p; _state := _state p;
     _clientInfo := v;
     authorizationServerMetadata := authorizationServerMetadata p;
     protectedResourceMetadata := protectedResourceMetadata p;
     wwwAuthenticateScope := wwwAuthenticateScope p |}.

(** [this._clientInfo = v] *)
Definition assign_clientInfo (v : option OAuthClientInformationFull) : M World unit :=
  modify (fun w => {| this := set_clientInfo v (this w); files := files w;
                      accesses := accesses w |}).

Definition self : M World NodeOAuthClientProvider :=
  fun w => (Returns (this w), w).

(** Modelled from the spec: [readJsonFile] of the absent store module; a
    missing file and a file the schema rejects both read as [undefined]. *)
Definition readJsonFile {A} (hash name : jsstring) (schema : Schema A) : M World (option A) :=
  fun w =>
    (Returns (files w !! (hash, name) ≫= schema),
     {| this := this w; files := files w;
        accesses := accesses w ++ [ReadFile (hash, name)] |}).

(** Modelled from the spec: [writeJsonFile] of the absent store module; the
    file is overwritten. *)
Definition writeJsonFile (hash name : jsstring) (data : blob) : M World unit :=
  modify (fun w =>
    {| this := this w; files := <[(hash, name) := data]> (files w);
       accesses := accesses w ++ [WriteFile (hash, name)] |}).

(** Modelled from the spec: [readTextFile] of the absent store module; a
    missing text file surfaces as an error carrying the given message. *)
Definition readTextFile (hash name errorMessage : jsstring) : M World jsstring :=
  fun w =>
    let w' := {| this := this w; files := files w;
                 accesses := accesses w ++ [ReadFile (hash, name)] |} in
    match files w !! (hash, name) with
    | Some (Text s) => (Returns s, w')
    | _ => (Throws (mkError errorMessage), w')
    end.

(** Modelled from the spec: [writeTextFile] of the absent store module. *)
Definition writeTextFile (hash name text : jsstring) : M World unit :=
  writeJsonFile hash name (Text text).

(** Modelled from the spec: [deleteConfigFile] of the absent store module;
    deleting a missing file is not an error. *)
Definition deleteConfigFile (hash name : jsstring) : M World unit :=
  modify (fun w =>
    {| this := this w; files := delete (hash, name) (files w);
       accesses := accesses w ++ [DeleteFile (hash, name)] |}).

(** The constructor. [MCP_REMOTE_VERSION] is a constant of the absent
    [utils] module; [randomUUID] is the identifier the runtime would draw. *)
Definition new_NodeOAuthClientProvider (MCP_REMOTE_VERSION randomUUID : jsstring)
    (o : OAuthProviderOptions) : NodeOAuthClientProvider :=
  {| options := o;
     serverUrlHash := opt_serverUrlHash o;
     callbackPath := or_string (opt_callbackPath o) (js "/oauth/callback");
     clientName := or_string (opt_clientName o) (js "MCP CLI Client");
     clientUri := or_string (opt_clientUri o) (js "https://github.com/modelcontextprotocol/mcp-cli");
     softwareId := or_string (opt_softwareId o) (js "2e6dc280-f3c3-4e01-99a7-8181dbd1d23d");
     softwareVersion := or_string (opt_softwareVersion o) MCP_REMOTE_VERSION;
     staticOAuthClientMetadata := opt_staticOAuthClientMetadata o;
     staticOAuthClientInfo := opt_staticOAuthClientInfo o;
     authorizeResource := opt_authorizeResource o;
     _state := or_string (opt_authSessionId o) randomUUID;
     _clientInfo := None;
     authorizationServerMetadata := opt_authorizationServerMetadata o;
     protectedResourceMetadata := opt_protectedResourceMetadata o;
     wwwAuthenticateScope := opt_wwwAuthenticateScope o |}.

(** [get redirectUrl()] *)
Definition redirectUrl (p : NodeOAuthClientProvider) : jsstring :=
  match opt_redirectUrl (options p) with
  | Some u => if truthy_string u then u else
      js "http://" ++ opt_host (options p) ++ js ":"
        ++ show_Z (opt_callbackPort (options p)) ++ callbackPath p
  | None =>
      js "http://" ++ opt_host (options p) ++ js ":"
        ++ show_Z (opt_callbackPort (options p)) ++ callbackPath p
  end.

(** [m?.scope] on optional client metadata. *)
Definition metadata_scope (m : option OAuthClientMetadata) : option jsstring :=
  match m with
  | Some fields => match fields !! "scope" with Some (VString s) => Some s | _ => None end
  | None => None
  end.

(** The guard [x && x.trim().length > 0] on an optional string. *)
Definition present_and_nonblank (x : option jsstring) : bool :=
  match x with
  | Some s => truthy_string s && (0 <? length (trim s))%nat
  | None => false
  end.

(** The guard [m?.scopes_supported?.length] on an optional array. *)
Definition has_length (scopes : option (list jsstring)) : bool :=
  match scopes with
  | Some l => (0 <? length l)%nat
  | None => false
  end.

(** [private getEffectiveScope()] *)
Definition getEffectiveScope (p : NodeOAuthClientProvider) : jsstring :=
  (* Priority 1: user-provided scope from staticOAuthClientMetadata *)
  if present_and_nonblank (metadata_scope (staticOAuthClientMetadata p)) then
    default [] (metadata_scope (staticOAuthClientMetadata p))
  (* Priority 2: scope from the WWW-Authenticate header *)
  else if present_and_nonblank (wwwAuthenticateScope p) then
    default [] (wwwAuthenticateScope p)
  (* Priority 3: scopes from Protected Resource Metadata *)
  else if has_length (protectedResourceMetadata p ≫= prm_scopes_supported) then
    join (js " ") (default [] (protectedResourceMetadata p ≫= prm_scopes_supported))
  (* Priority 4: scope from the client registration response *)
  else if present_and_nonblank (_clientInfo p ≫= ci_scope) then
    default [] (_clientInfo p ≫= ci_scope)
  (* Priority 5: the authorization server's supported scopes *)
  else if has_length (authorizationServerMetadata p ≫= as_scopes_supported) then
    join (js " ") (default [] (authorizationServerMetadata p ≫= as_scopes_supported))
  (* Priority 6: hardcoded default *)
  else js "openid email profile".

(** [get clientMetadata()]: the fixed fields, then the spread of the static
    metadata (its properties win), then [scope]. *)
Definition clientMetadata (p : NodeOAuthClientProvider) : OAuthClientMetadata :=
  let effectiveScope := getEffectiveScope p in
  <["scope" := VString effectiveScope]>
    (default ∅ (staticOAuthClientMetadata p) ∪
       {[ "redirect_uris" := VArray [redirectUrl p];
          "token_endpoint_auth_method" := VString (js "none");
          "grant_types" := VArray [js "authorization_code"; js "refresh_token"];
          "response_types" := VArray [js "code"];
          "client_name" := VString (clientName p);
          "client_uri" := VString (clientUri p);
          "software_id" := VString (softwareId p);
          "software_version" := VString (softwareVersion p) ]}).

(** [state()] *)
Definition state (p : NodeOAuthClientProvider) : jsstring := _state p.

(** [async clientInformation()] *)
Definition clientInformation : M World (option OAuthClientInformationFull) :=
  p <- self ;;
  match staticOAuthClientInfo p with
  | Some static =>
      assign_clientInfo (Some static) ;;;
      ret (Some static)
  | None =>
      clientInfo <- readJsonFile (serverUrlHash p) (js "client_info.json")
                      OAuthClientInformationFullSchema ;;
      match clientInfo with
      | Some c => assign_clientInfo (Some c)
      | None => ret tt
      end ;;;
      ret clientInfo
  end.

(** [async saveClientInformation(clientInformation)] *)
Definition saveClientInformation (clientInformation : OAuthClientInformationFull) : M World unit :=
  p <- self ;;
  assign_clientInfo (Some clientInformation) ;;;
  writeJsonFile (serverUrlHash p) (js "client_info.json") (ClientInfoJson clientInformation).

(** [async tokens()]; the [expires_in] check only logs. *)
Definition tokens : M World (option OAuthTokens) :=
  p <- self ;;
  readJsonFile (serverUrlHash p) (js "tokens.json") OAuthTokensSchema.

(** [async saveTokens(tokens)]; the [expires_in] check only logs. *)
Definition saveTokens (t : OAuthTokens) : M World unit :=
  p <- self ;;
  writeJsonFile (serverUrlHash p) (js "tokens.json") (TokensJson t).

(** [async saveCodeVerifier(codeVerifier)] *)
Definition saveCodeVerifier (codeVerifier : jsstring) : M World unit :=
  p <- self ;;
  writeTextFile (serverUrlHash p) (js "code_verifier.txt") codeVerifier.

(** [async codeVerifier()] *)
Definition codeVerifier : M World jsstring :=
  p <- self ;;
  readTextFile (serverUrlHash p) (js "code_verifier.txt")
    (js "No code verifier saved for session").

(** [await Promise.all([a, b, c])] on three deletions: all three are started
    in order, then awaited. *)
Definition promise_all3 (a b c : M World unit) : M World unit := a ;;; b ;;; c.

(** [async invalidateCredentials(scope)]; the argument is whatever string the
    caller passes at run time. *)
Definition invalidateCredentials (scope : jsstring) : M World unit :=
  p <- self ;;
  if bool_decide (scope = js "all") then
    promise_all3
      (deleteConfigFile (serverUrlHash p) (js "client_info.json"))
      (deleteConfigFile (serverUrlHash p) (js "tokens.json"))
      (deleteConfigFile (serverUrlHash p) (js "code_verifier.txt")) ;;;
    assign_clientInfo None
  else if bool_decide (scope = js "client") then
    deleteConfigFile (serverUrlHash p) (js "client_info.json") ;;;
    assign_clientInfo None
  else if bool_decide (scope = js "tokens") then
    deleteConfigFile (serverUrlHash p) (js "tokens.json")
  else if bool_decide (scope = js "verifier") then
    deleteConfigFile (serverUrlHash p) (js "code_verifier.txt")
  else
    throw (mkError (js "Unknown credential scope: " ++ scope)).

End Provider.

(** ** Cross-process coordination ([coordination.ts]) *)

Module Coordination.

Local Open Scope Z_scope.

(** [LockfileData] *)
Record LockfileData := { pid : Z; port : Z; timestamp : Z }.

(** [AuthCoordinatorOptions] *)
Record AuthCoordinatorOptions := {
  callbackPort : Z;
  authTimeoutMs : Z;
  authMode : AuthMode;
  authBridgePollUrl : option jsstring;
  authBridgePollIntervalMs : option Z;
  authSessionId : option jsstring;
  authBridgeExitAfterAuthorizeUrl : option bool;
}.

(** A [Response], as far as the code reads it: the status, and the body text
    ([None] when reading the body fails). *)
Record Response := { status : Z; body : option jsstring }.

(** What the network does with one request: after [latency] milliseconds it
    either delivers a response or the request fails. *)
Inductive reply :=
| Responds (r : Response)
| Unreachable.

Record exchange := { latency : N; answer : reply }.

(** How a server asked to listen comes up. *)
Inductive listening :=
| Bound (actualPort : Z)       (* [address()] is available at once *)
| BoundLater (actualPort : Z)  (* [address()] is null until 'listening' *)
| NoAddress                    (* 'listening' fires, [address()] stays null *)
| NeverListening.              (* 'listening' never fires *)

Record Server := { requested_port : Z; comes_up : listening }.

(** Effects on the network, other processes, the timers, the lock store and
    the callback server, oldest first. Lines written by [log] and [debugLog]
    are not recorded. *)
Inductive event :=
| Fetch (url : jsstring)
| Kill (pid signal : Z)
| Sleep (ms : Z)
| CheckLockfile (hash : jsstring)
| CreateLockfile (hash : jsstring) (pid port : Z)
| DeleteLockfile (hash : jsstring)
| Listen (port : Z)
| Once (name : jsstring).

(** The mutable world of one process. *)
Record State := {
  clock : Z;                               (* [Date.now()] *)
  requests : nat;                          (* fetches issued so far *)
  timers : nat;                            (* timers awaited so far *)
  lockfiles : gmap jsstring LockfileData;  (* [lock.json] per server identity *)
  trace : list event;
  objects : nat;                           (* objects allocated so far *)
}.

(** [AuthCoordinatorState]. [identity] tells one allocated object from
    another; [waitForAuthCode] is the closure itself, with the fuel of the
    loop it may run. *)
Record AuthCoordinatorState := {
  identity : nat;
  server : option Server;
  waitForAuthCode : nat -> M State jsvalue;
  skipBrowserAuth : bool;
}.

(** Everything the process does not control: the operating system, the
    network, the timers, and the runtime's built-ins the code calls. *)
Record Env := {
  process_platform : jsstring;
  process_pid : Z;
  (* does [process.kill(pid, 0)] return normally *)
  signal_delivered : Z -> bool;
  (* the answer to the n-th fetch of this process, sent to the given URL *)
  network : nat -> jsstring -> exchange;
  (* how much later than asked the n-th timer is seen to fire on the clock
     of [Date.now()]; negative when it is seen to fire early *)
  timer_lag : nat -> Z;
  (* the port the system assigns to [listen(0)] *)
  ephemeral_port : Z;
  (* how the callback server comes up on the requested port *)
  callback_listen : Z -> listening;
  (* the [waitForAuthCode] of the callback server, for a given timeout *)
  callback_waitForAuthCode : Z -> nat -> M State jsvalue;
  (* [JSON.parse]; [None] is a thrown [SyntaxError] *)
  JSON_parse : jsstring -> option json;
  (* [encodeURIComponent]; [None] is a thrown [URIError] *)
  encodeURIComponent : jsstring -> option jsstring;
  (* [new URL(u)] with [searchParams.set] of the pairs, then [toString()];
     [None] is a thrown [TypeError] *)
  URL_with_searchParams : jsstring -> list (jsstring * jsstring) -> option jsstring;
}.

Definition tick (d : Z) (s : State) : State :=
  {| clock := clock s + d; requests := requests s; timers := timers s;
     lockfiles := lockfiles s; trace := trace s; objects := objects s |}.

Definition record (e : event) (s : State) : State :=
  {| clock := clock s; requests := requests s; timers := timers s;
     lockfiles := lockfiles s; trace := trace s ++ [e]; objects := objects s |}.

Definition set_lockfiles (l : gmap jsstring LockfileData) (s : State) : State :=
  {| clock := clock s; requests := requests s; timers := timers s;
     lockfiles := l; trace := trace s; objects := objects s |}.

(** [Date.now()] *)
Definition Date_now : M State Z := fun s => (Returns (clock s), s).

(** Allocation of a fresh object. *)
Definition new_object : M State nat :=
  fun s => (Returns (objects s),
            {| clock := clock s; requests := requests s; timers := timers s;
               lockfiles := lockfiles s; trace := trace s; objects := S (objects s) |}).

Definition next_request : M State nat :=
  fun s => (Returns (requests s),
            {| clock := clock s; requests := S (requests s); timers := timers s;
               lockfiles := lockfiles s; trace := trace s; objects := objects s |}).

Definition next_timer : M State nat :=
  fun s => (Returns (timers s),
            {| clock := clock s; requests := requests s; timers := S (timers s);
               lockfiles := lockfiles s; trace := trace s; objects := objects s |}).

(** The delay a timer really gets: the runtime replaces a delay below 1 or
    above 2^31 - 1 by 1. *)
Definition setTimeout_delay (ms : Z) : Z :=
  if (ms <? 1) || (2147483647 <? ms) then 1 else ms.

(** The abort signal handed to a fetch. *)
Inductive signal :=
| no_signal
| controller_abort_after (ms : Z)   (* [setTimeout(() => controller.abort(), ms)] *)
| AbortSignal_timeout (ms : Z).     (* [AbortSignal.timeout(ms)] *)

Definition abort_limit (sg : signal) : option Z :=
  match sg with
  | no_signal => None
  | controller_abort_after ms => Some (setTimeout_delay ms)
  | AbortSignal_timeout ms => Some ms
  end.

Definition abort_error (sg : signal) : Error :=
  match sg with
  | AbortSignal_timeout _ => mkError (js "The operation was aborted due to timeout")
  | _ => mkError (js "This operation was aborted")
  end.

Section WithEnv.

Variable env : Env.

(** [await new Promise((resolve) => setTimeout(resolve, ms))]. The runtime
    times the delay on the event loop's own clock, not on the clock of
    [Date.now()]: across the wait [Date.now()] moves by the delay plus a lag
    that the environment decides and that may be negative, so a timer can be
    seen to fire before its delay has passed, even with no time passed at
    all. The clock does not run backwards. *)
Definition sleep (ms : Z) : M State unit :=
  i <- next_timer ;;
  modify (record (Sleep ms)) ;;;
  modify (tick (Z.max 0 (setTimeout_delay ms + timer_lag env i))).

(** [await fetch(url, { signal })]: the response arrives after the latency
    of the exchange, unless the signal aborts the request first. *)
Definition fetch (url : jsstring) (sg : signal) : M State Response :=
  i <- next_request ;;
  modify (record (Fetch url)) ;;;
  let x := network env i url in
  match abort_limit sg with
  | Some limit =>
      if limit <=? Z.of_N (latency x) then
        modify (tick limit) ;;; throw (abort_error sg)
      else
        modify (tick (Z.of_N (latency x))) ;;;
        match answer x with
        | Responds r => ret r
        | Unreachable => throw (mkError (js "fetch failed"))
        end
  | None =>
      modify (tick (Z.of_N (latency x))) ;;;
      match answer x with
      | Responds r => ret r
      | Unreachable => throw (mkError (js "fetch failed"))
      end
  end.

(** [await response.text()] *)
Definition response_text (r : Response) : M State jsstring :=
  match body r with
  | Some t => ret t
  | None => throw (mkError (js "terminated"))
  end.

(** [process.kill(pid, sig)] *)
Definition process_kill (p sig : Z) : M State unit :=
  modify (record (Kill p sig)) ;;;
  if signal_delivered env p then ret tt else throw (mkError (js "kill ESRCH")).

(** Modelled from the spec: [checkLockfile] of the absent store module reads
    the lock record of a server identity; absent reads as [null]. *)
Definition checkLockfile (serverUrlHash : jsstring) : M State (option LockfileData) :=
  modify (record (CheckLockfile serverUrlHash)) ;;;
  s <- get ;;
  ret (lockfiles s !! serverUrlHash).

(** Modelled from the spec: [createLockfile] of the absent store module
    writes the record [{pid, port, timestamp}], stamped with the current
    time. *)
Definition createLockfile (serverUrlHash : jsstring) (p actualPort : Z) : M State unit :=
  modify (record (CreateLockfile serverUrlHash p actualPort)) ;;;
  now <- Date_now ;;
  modify (fun s => set_lockfiles
    (<[serverUrlHash := {| pid := p; port := actualPort; timestamp := now |}]> (lockfiles s)) s).

(** Modelled from the spec: [deleteLockfile] of the absent store module. *)
Definition deleteLockfile (serverUrlHash : jsstring) : M State unit :=
  modify (record (DeleteLockfile serverUrlHash)) ;;;
  modify (fun s => set_lockfiles (delete serverUrlHash (lockfiles s)) s).

(** [async isPidRunning(pid)] *)
Definition isPidRunning (p : Z) : M State bool :=
  try_catch
    (process_kill p 0 ;;; ret true)
    (fun _ => ret false).

Definition MAX_LOCK_AGE : Z := 30 * 60 * 1000.
Arguments MAX_LOCK_AGE : simpl never.

Definition probe_url (p : Z) : jsstring :=
  js "http://127.0.0.1:" ++ show_Z p ++ js "/wait-for-auth?poll=false".
Arguments probe_url : simpl never.

(** [async isLockValid(lockData)] *)
Definition isLockValid (lockData : LockfileData) : M State bool :=
  now <- Date_now ;;
  if MAX_LOCK_AGE <? now - timestamp lockData then
    ret false
  else
    running <- isPidRunning (pid lockData) ;;
    if negb running then
      ret false
    else
      try_catch
        (response <- fetch (probe_url (port lockData)) (controller_abort_after 1000) ;;
         let isValid := (status response =? 200) || (status response =? 202) in
         ret isValid)
        (fun _ => ret false).

Definition poll_url (p : Z) : jsstring :=
  js "http://127.0.0.1:" ++ show_Z p ++ js "/wait-for-auth".
Arguments poll_url : simpl never.

(** The [while (true)] loop of [waitForAuthentication]; each round yields
    [Some b] for [return b] and [None] to go round again. *)
Fixpoint waitForAuthentication_loop (fuel : nat) (p : Z) : M State bool :=
  match fuel with
  | O => fun s => (OutOfFuel, s)
  | S fuel' =>
      round <- try_catch
        (response <- fetch (poll_url p) no_signal ;;
         if status response =? 200 then
           ret (Some true)
         else if status response =? 202 then
           sleep 1000 ;;; ret None
         else
           ret (Some false))
        (fun _ => sleep 2000 ;;; ret None) ;;
      match round with
      | Some b => ret b
      | None => waitForAuthentication_loop fuel' p
      end
  end.

(** [async waitForAuthentication(port)] *)
Definition waitForAuthentication (fuel : nat) (p : Z) : M State bool :=
  try_catch (waitForAuthentication_loop fuel p) (fun _ => ret false).

(** [resolveBridgePollUrl(template, authSessionId, serverUrlHash)]. The
    replacement strings come from [encodeURIComponent], which escapes [$], so
    [replaceAll] inserts them literally. *)
Definition resolveBridgePollUrl (template authSessionId serverUrlHash : jsstring)
    : M State jsstring :=
  match encodeURIComponent env authSessionId, encodeURIComponent env serverUrlHash with
  | Some sid, Some hash =>
      let withPlaceholders :=
        replaceAll (js "{server_url_hash}") hash
          (replaceAll (js "{session_id}") sid template) in
      let hasPlaceholder := negb (bool_decide (withPlaceholders = template)) in
      if hasPlaceholder then ret withPlaceholders
      else
        match URL_with_searchParams env withPlaceholders
                [(js "session_id", authSessionId); (js "server_url_hash", serverUrlHash)] with
        | Some u => ret u
        | None => throw (mkError (js "Invalid URL"))
        end
  | _, _ => throw (mkError (js "URI malformed"))
  end.

(** [extractAuthCode(responseBody)] *)
Definition extractAuthCode (responseBody : jsstring) : jsvalue :=
  let trimmed := trim responseBody in
  if negb (truthy_string trimmed) then None
  else
    match JSON_parse env trimmed with
    | Some parsed =>
        match get_property parsed (js "code") with
        | inr code =>
            if truthy code then code
            else match get_property parsed (js "authorization_code") with
                 | inr authorization_code => authorization_code
                 | inl _ => None
                 end
        | inl _ => None
        end
    | None => None
    end.

Definition expired : jsstring := js "Auth bridge session expired".
Arguments expired : simpl never.

(** The [try]/[catch] block inside the loop of [waitForBridgeAuthCode]:
    [Some code] stands for [return code], [None] for falling out of the block. *)
Definition pollBridge (pollUrl : jsstring) : M State (option jsvalue) :=
  try_catch
    (response <- fetch pollUrl (AbortSignal_timeout 10000) ;;
     if status response =? 200 then
       text <- response_text response ;;
       let code := extractAuthCode text in
       if truthy code then ret (Some code) else ret None
     else if (status response =? 202) || (status response =? 204)
             || (status response =? 404) then
       ret None
     else if status response =? 410 then
       throw (mkError expired)
     else
       ret None)
    (fun error =>
       if bool_decide (message error = expired) then throw error else ret None).

Definition timed_out (timeoutMs : Z) : Error :=
  mkError (js "Timed out waiting for auth code from bridge after "
             ++ show_Z (timeoutMs / 1000) ++ js " seconds.").

(** The [while (Date.now() - startTime < timeoutMs)] loop and the [throw]
    after it. *)
Fixpoint waitForBridgeAuthCode_loop (fuel : nat) (pollUrl : jsstring)
    (pollIntervalMs timeoutMs startTime : Z) : M State jsvalue :=
  match fuel with
  | O => fun s => (OutOfFuel, s)
  | S fuel' =>
      now <- Date_now ;;
      if now - startTime <? timeoutMs then
        got <- pollBridge pollUrl ;;
        match got with
        | Some code => ret code
        | None =>
            sleep pollIntervalMs ;;;
            waitForBridgeAuthCode_loop fuel' pollUrl pollIntervalMs timeoutMs startTime
        end
      else
        throw (timed_out timeoutMs)
  end.

(** [async waitForBridgeAuthCode(pollUrl, pollIntervalMs, timeoutMs)] *)
Definition waitForBridgeAuthCode (fuel : nat) (pollUrl : jsstring)
    (pollIntervalMs timeoutMs : Z) : M State jsvalue :=
  startTime <- Date_now ;;
  waitForBridgeAuthCode_loop fuel pollUrl pollIntervalMs timeoutMs startTime.

(** [a || d] on an optional number: [undefined] and [0] give [d]. *)
Definition or_number (a : option Z) (d : Z) : Z :=
  match a with
  | Some n => if n =? 0 then d else n
  | None => d
  end.

(** [coordinateBridgeAuth(serverUrlHash, options)] *)
Definition coordinateBridgeAuth (serverUrlHash : jsstring) (options : AuthCoordinatorOptions)
    : M State AuthCoordinatorState :=
  match authBridgePollUrl options with
  | Some template =>
      if truthy_string template then
        let sessionId :=
          or_string (authSessionId options)
            (serverUrlHash ++ js "-" ++ show_Z (process_pid env)) in
        pollUrl <- resolveBridgePollUrl template sessionId serverUrlHash ;;
        let pollIntervalMs := or_number (authBridgePollIntervalMs options) 2000 in
        if default false (authBridgeExitAfterAuthorizeUrl options) then
          o <- new_object ;;
          ret {| identity := o; server := None;
                 waitForAuthCode := fun _ =>
                   throw (mkError (js "Bridge auth emit-only mode: authorization URL emitted."));
                 skipBrowserAuth := false |}
        else
          o <- new_object ;;
          ret {| identity := o; server := None;
                 waitForAuthCode := fun fuel =>
                   waitForBridgeAuthCode fuel pollUrl pollIntervalMs (authTimeoutMs options);
                 skipBrowserAuth := false |}
      else throw (mkError (js "authBridgePollUrl is required for bridge auth mode"))
  | None => throw (mkError (js "authBridgePollUrl is required for bridge auth mode"))
  end.

(** [express().listen(0)]: binding to port 0 is synchronous, the system
    assigns the port. *)
Definition express_listen_0 : M State Server :=
  modify (record (Listen 0)) ;;;
  ret {| requested_port := 0; comes_up := Bound (ephemeral_port env) |}.

(** [server.address()] before the 'listening' event. *)
Definition address_now (sv : Server) : option Z :=
  match comes_up sv with
  | Bound p => Some p
  | _ => None
  end.

(** [await new Promise((resolve) => server.once('listening', resolve))] *)
Definition await_listening (sv : Server) : M State unit :=
  match comes_up sv with
  | NeverListening => fun s => (NeverSettles, s)
  | _ => ret tt
  end.

(** [server.address()] after the 'listening' event. *)
Definition address_after (sv : Server) : option Z :=
  match comes_up sv with
  | Bound p | BoundLater p => Some p
  | _ => None
  end.

(** Modelled from the spec: [setupOAuthCallbackServerWithLongPoll] of the
    absent [utils] module starts a local long-poll endpoint on the configured
    port and path and hands back the server and a [waitForAuthCode] that
    resolves with the redirected code or rejects once the timeout elapses. *)
Definition setupOAuthCallbackServerWithLongPoll (p : Z) (path : jsstring) (events : nat)
    (timeoutMs : Z) : M State (Server * (nat -> M State jsvalue)) :=
  modify (record (Listen p)) ;;;
  ret ({| requested_port := p; comes_up := callback_listen env p |},
       callback_waitForAuthCode env timeoutMs).

(** [process.once(name, handler)] *)
Definition process_once (name : jsstring) : M State unit :=
  modify (record (Once name)).

(** The [waitForAuthCode] of a secondary instance:
    [() => new Promise<string>(() => {})]. *)
Definition dummyWaitForAuthCode : nat -> M State jsvalue :=
  fun _ s => (NeverSettles, s).

(** The tail of [coordinateAuth]: this process becomes the primary. *)
Definition becomePrimary (serverUrlHash : jsstring) (callbackPort : Z) (events : nat)
    (authTimeoutMs : Z) : M State AuthCoordinatorState :=
  setup <- setupOAuthCallbackServerWithLongPoll callbackPort (js "/oauth/callback")
             events authTimeoutMs ;;
  let sv := fst setup in
  address <- match address_now sv with
             | Some a => ret (Some a)
             | None => await_listening sv ;;; ret (address_after sv)
             end ;;
  match address with
  | None => throw (mkError (js "Failed to get server address after listening event"))
  | Some actualPort =>
      createLockfile serverUrlHash (process_pid env) actualPort ;;;
      process_once (js "exit") ;;;
      process_once (js "SIGINT") ;;;
      o <- new_object ;;
      ret {| identity := o; server := Some sv; waitForAuthCode := snd setup;
             skipBrowserAuth := false |}
  end.

(** [async coordinateAuth(serverUrlHash, callbackPort, events, authTimeoutMs)] *)
Definition coordinateAuth (fuel : nat) (serverUrlHash : jsstring) (callbackPort : Z)
    (events : nat) (authTimeoutMs : Z) : M State AuthCoordinatorState :=
  lockData <- (if bool_decide (process_platform env = js "win32") then ret None
               else checkLockfile serverUrlHash) ;;
  valid <- match lockData with
           | Some l => isLockValid l
           | None => ret false
           end ;;
  adopted <-
    match lockData with
    | Some l =>
        if valid then
          outcome <- try_catch
            (authCompleted <- waitForAuthentication fuel (port l) ;;
             if authCompleted then
               dummyServer <- express_listen_0 ;;
               o <- new_object ;;
               ret (Some {| identity := o; server := Some dummyServer;
                            waitForAuthCode := dummyWaitForAuthCode;
                            skipBrowserAuth := true |})
             else ret None)
            (fun _ => ret None) ;;
          match outcome with
          | Some st => ret (Some st)
          | None => deleteLockfile serverUrlHash ;;; ret None
          end
        else
          deleteLockfile serverUrlHash ;;; ret None
    | None => ret None
    end ;;
  match adopted with
  | Some st => ret st
  | None => becomePrimary serverUrlHash callbackPort events authTimeoutMs
  end.

(** The closure [createLazyAuthCoordinator] returns: its captured arguments
    and the variable [authState]. *)
Record AuthCoordinator := {
  co_serverUrlHash : jsstring;
  co_events : nat;
  co_options : AuthCoordinatorOptions;
  authState : option AuthCoordinatorState;
}.

(** [createLazyAuthCoordinator(serverUrlHash, events, options)] *)
Definition createLazyAuthCoordinator (serverUrlHash : jsstring) (events : nat)
    (options : AuthCoordinatorOptions) : AuthCoordinator :=
  {| co_serverUrlHash := serverUrlHash; co_events := events; co_options := options;
     authState := None |}.

(** [initializeAuth()]: the state it returns, and the closure afterwards. *)
Definition initializeAuth (fuel : nat) (c : AuthCoordinator)
    : M State (AuthCoordinatorState * AuthCoordinator) :=
  match authState c with
  | Some st => ret (st, c)
  | None =>
      st <- match authMode (co_options c) with
            | bridge => coordinateBridgeAuth (co_serverUrlHash c) (co_options c)
            | local =>
                coordinateAuth fuel (co_serverUrlHash c) (callbackPort (co_options c))
                  (co_events c) (authTimeoutMs (co_options c))
            end ;;
      ret (st, {| co_serverUrlHash := co_serverUrlHash c; co_events := co_events c;
                  co_options := co_options c; authState := Some st |})
  end.

End WithEnv.

End Coordination.

(** ** The authorization redirect and metadata discovery of the provider *)

Module Authorization.

Import Provider.

Local Open Scope Z_scope.

(** A [URL] object, as far as the provider touches it: everything before the
    query, kept as given, and the list behind [searchParams]. *)
Record URL := { location : jsstring; searchParams : list (jsstring * jsstring) }.

(** [searchParams.get(name)]: the value of the first pair of that name. *)
Fixpoint searchParams_get (name : jsstring) (params : list (jsstring * jsstring))
    : option jsstring :=
  match params with
  | [] => None
  | (k, v) :: rest => if bool_decide (k = name) then Some v else searchParams_get name rest
  end.

(** The pairs whose name is not [name]. *)
Fixpoint without_name (name : jsstring) (params : list (jsstring * jsstring))
    : list (jsstring * jsstring) :=
  match params with
  | [] => []
  | (k, v) :: rest =>
      if bool_decide (k = name) then without_name name rest
      else (k, v) :: without_name name rest
  end.

(** [searchParams.set(name, value)]: the first pair of that name takes the
    value and the others of that name go; with no such pair one is appended. *)
Fixpoint searchParams_set (name value : jsstring) (params : list (jsstring * jsstring))
    : list (jsstring * jsstring) :=
  match params with
  | [] => [(name, value)]
  | (k, v) :: rest =>
      if bool_decide (k = name) then (name, value) :: without_name name rest
      else (k, v) :: searchParams_set name value rest
  end.

(** The object announced in bridge mode. *)
Record AuthUrlEvent := {
  ev_type : jsstring;
  ev_session_id : jsstring;
  ev_state : jsstring;
  ev_authorization_url : jsstring;
  ev_redirect_url : jsstring;
}.

(** How the notify endpoint answers the POST: a response with a status, or a
    rejected fetch (no connection, or the 10 s timeout) with its message. *)
Inductive notified :=
| NotifyResponds (status : Z)
| NotifyRejects (reason : jsstring).

(** What the provider does to the outside, oldest first. *)
Inductive effect :=
| Logged (line : jsstring)
| Posted (url body : jsstring)
| Opened (url : jsstring)
| MetadataRequested (serverUrl : jsstring).

(** What the provider does not control. *)
Record Outside := {
  (* [fetchAuthorizationServerMetadata(serverUrl)] of the absent module:
     rejects, or resolves with metadata or [undefined] *)
  metadata_answer : jsstring -> Error + option AuthorizationServerMetadata;
  (* the answer to the POST of a body to the notify URL *)
  notify_answer : jsstring -> jsstring -> notified;
  (* [sanitizeUrl]; [inl] is a thrown error *)
  sanitizeUrl : jsstring -> Error + jsstring;
  (* [open(url)]: [Some e] is a rejection *)
  open_answer : jsstring -> option Error;
  (* [url.toString()] *)
  URL_toString : URL -> jsstring;
  (* [JSON.stringify(event)] *)
  JSON_stringify : AuthUrlEvent -> jsstring;
}.

(** The world of these methods: the instance, the URL object handed in, and
    the effects so far. *)
Record Desk := {
  instance : NodeOAuthClientProvider;
  authorizationUrl : URL;
  effects : list effect;
}.

Definition set_authorizationServerMetadata (m : option AuthorizationServerMetadata)
    (p : NodeOAuthClientProvider) : NodeOAuthClientProvider :=
  {| options := options p; serverUrlHash := serverUrlHash p;
     callbackPath := callbackPath p; clientName := clientName p;
     clientUri := clientUri p; softwareId := softwareId p;
     softwareVersion := softwareVersion p;
     staticOAuthClientMetadata := staticOAuthClientMetadata p;
     staticOAuthClientInfo := staticOAuthClientInfo p;
     authorizeResource := authorizeResource p; _state := _state p;
     _clientInfo := _clientInfo p;
     authorizationServerMetadata := m;
     protectedResourceMetadata := protectedResourceMetadata p;
     wwwAuthenticateScope := wwwAuthenticateScope p |}.

Definition perform (e : effect) : M Desk unit :=
  modify (fun d => {| instance := instance d; authorizationUrl := authorizationUrl d;
                      effects := effects d ++ [e] |}).

(** [log(line)] *)
Definition log (line : jsstring) : M Desk unit := perform (Logged line).

(** [authorizationUrl.searchParams.set(name, value)] *)
Definition set_searchParam (name value : jsstring) : M Desk unit :=
  modify (fun d =>
    {| instance := instance d;
       authorizationUrl :=
         {| location := location (authorizationUrl d);
            searchParams := searchParams_set name value (searchParams (authorizationUrl d)) |};
       effects := effects d |}).

(** [response.ok] *)
Definition response_ok (status : Z) : bool := (200 <=? status) && (status <=? 299).

Definition newline : jsstring := [10%N].

Section WithOutside.

Variable outside : Outside.

(** [await fetchAuthorizationServerMetadata(serverUrl)], a function of the
    absent [authorization-server-metadata] module: the call is recorded and
    its outcome (metadata, [undefined] or a rejection) is whatever the
    environment answers. *)
Definition fetchAuthorizationServerMetadata (serverUrl : jsstring)
    : M Desk (option AuthorizationServerMetadata) :=
  perform (MetadataRequested serverUrl) ;;;
  match metadata_answer outside serverUrl with
  | inr m => ret m
  | inl e => throw e
  end.

(** [async getAuthorizationServerMetadata()], awaited by its caller. *)
Definition getAuthorizationServerMetadata : M Desk (option AuthorizationServerMetadata) :=
  d <- get ;;
  match authorizationServerMetadata (instance d) with
  | Some m => ret (Some m)
  | None =>
      try_catch
        (m <- fetchAuthorizationServerMetadata (opt_serverUrl (options (instance d))) ;;
         modify (fun d' =>
           {| instance := set_authorizationServerMetadata m (instance d');
              authorizationUrl := authorizationUrl d'; effects := effects d' |}) ;;;
         ret m)
        (fun _ => ret None)
  end.

(** [this.getAuthorizationServerMetadata().catch(() => {})], not awaited:
    the call runs up to its first [await], which sends the request when no
    metadata is held. What the request brings is stored when it settles, at
    a later [await] of the caller or after its return; the caller computes
    the scope before its first [await] and reads no metadata afterwards, so
    that store is left out here and the instance is carried through as it
    was. *)
Definition getAuthorizationServerMetadata_detached : M Desk unit :=
  d <- get ;;
  match authorizationServerMetadata (instance d) with
  | Some _ => ret tt
  | None => perform (MetadataRequested (opt_serverUrl (options (instance d))))
  end.

(** [await fetch(url, { method: 'POST', body, signal: AbortSignal.timeout(10000) })] *)
Definition post (url body : jsstring) : M Desk Z :=
  perform (Posted url body) ;;;
  match notify_answer outside url body with
  | NotifyResponds status => ret status
  | NotifyRejects reason => throw (mkError reason)
  end.

(** [await open(sanitizeUrl(url))] *)
Definition open_sanitized (url : jsstring) : M Desk unit :=
  match sanitizeUrl outside url with
  | inl e => throw e
  | inr clean =>
      perform (Opened clean) ;;;
      match open_answer outside clean with
      | Some e => throw e
      | None => ret tt
      end
  end.

(** The [event] object of bridge mode, for the URL as it stands. *)
Definition auth_url_event (p : NodeOAuthClientProvider) (u : URL) : AuthUrlEvent :=
  {| ev_type := js "mcp-remote-auth-url";
     ev_session_id := or_string (opt_authSessionId (options p)) (_state p);
     ev_state := _state p;
     ev_authorization_url := URL_toString outside u;
     ev_redirect_url := redirectUrl p |}.

Definition is_bridge (p : NodeOAuthClientProvider) : bool :=
  match opt_authMode (options p) with
  | Some bridge => true
  | _ => false
  end.

(** [async redirectToAuthorization(authorizationUrl)] *)
Definition redirectToAuthorization : M Desk unit :=
  getAuthorizationServerMetadata_detached ;;;
  d0 <- get ;;
  let p := instance d0 in
  match authorizeResource p with
  | Some r => if truthy_string r then set_searchParam (js "resource") r else ret tt
  | None => ret tt
  end ;;;
  let effectiveScope := getEffectiveScope p in
  set_searchParam (js "scope") effectiveScope ;;;
  d <- get ;;
  let url_text := URL_toString outside (authorizationUrl d) in
  (if is_bridge p then
     let event := auth_url_event p (authorizationUrl d) in
     log (js "MCP_REMOTE_AUTH_URL " ++ JSON_stringify outside event) ;;;
     match opt_authBridgeNotifyUrl (options p) with
     | Some notifyUrl =>
         if truthy_string notifyUrl then
           try_catch
             (status <- post notifyUrl (JSON_stringify outside event) ;;
              if negb (response_ok status) then
                log (js "Failed to notify auth bridge endpoint: HTTP " ++ show_Z status)
              else ret tt)
             (fun error =>
                log (js "Failed to notify auth bridge endpoint: " ++ message error))
         else ret tt
     | None => ret tt
     end
   else ret tt) ;;;
  log (newline ++ js "Please authorize this client by visiting:" ++ newline
         ++ url_text ++ newline) ;;;
  if is_bridge p then
    log (js "Bridge mode enabled, skipping automatic browser launch.")
  else
    try_catch
      (open_sanitized url_text ;;;
       log (js "Browser opened automatically."))
      (fun _ =>
         log (js "Could not open browser automatically. Please copy and paste the URL above into your browser.")).

End WithOutside.

End Authorization.

(** ** The auth initializer of the proxy ([proxy.ts]) *)

Module Proxy.

Import Coordination.

Local Open Scope Z_scope.

(** What [authInitializer] hands to the transport. *)
Record AuthHandlers := {
  h_waitForAuthCode : nat -> M State jsvalue;
  h_skipBrowserAuth : bool;
}.

(** The variables [runProxy] closes over: the coordinator and [server]. *)
Record ProxyScope := {
  authCoordinator : AuthCoordinator;
  server_var : option Server;
}.

(** [authInitializer()] of [runProxy]: its result and the variables after. *)
Definition authInitializer (env : Env) (fuel : nat) (scope : ProxyScope)
    : M State (AuthHandlers * ProxyScope) :=
  r <- initializeAuth env fuel (authCoordinator scope) ;;
  let authState := fst r in
  (if skipBrowserAuth authState then sleep env 1000 else ret tt) ;;;
  ret ({| h_waitForAuthCode := waitForAuthCode authState;
          h_skipBrowserAuth := skipBrowserAuth authState |},
       {| authCoordinator := snd r; server_var := server authState |}).

End Proxy.

(** * Specification vocabulary

    The predicates and expected values the properties below are stated
    with. *)

(** ** The scope resolver, as specified *)

Module ScopeResolver.

Import Provider.

Definition default_scope : jsstring := js "openid email profile".

(** The first value present in a list of optional values. *)
Fixpoint first_present {A} (l : list (option A)) : option A :=
  match l with
  | Some a :: _ => Some a
  | None :: rest => first_present rest
  | [] => None
  end.

(** A string source counts when it is non-empty after trimming. *)
Definition nonblank (x : option jsstring) : option jsstring :=
  x ≫= fun s => if bool_decide (trim s ≠ []) then Some s else None.

(** The five configurable sources in priority order, the two metadata
    sources space-joined. *)
Definition joined_sources (p : NodeOAuthClientProvider) : list (option jsstring) :=
  [ metadata_scope (staticOAuthClientMetadata p);
    wwwAuthenticateScope p;
    join (js " ") <$> (protectedResourceMetadata p ≫= prm_scopes_supported);
    _clientInfo p ≫= ci_scope;
    join (js " ") <$> (authorizationServerMetadata p ≫= as_scopes_supported) ].

(** The resolver in the words of the specification: the first source that
    is non-empty after trimming, the fixed default when there is none. *)
Definition first_nonblank_source (p : NodeOAuthClientProvider) : jsstring :=
  default default_scope (first_present (nonblank <$> joined_sources p)).

(** A metadata source counts when its array has at least one entry. *)
Definition nonempty_joined (x : option (list jsstring)) : option jsstring :=
  x ≫= fun l => if bool_decide (l ≠ []) then Some (join (js " ") l) else None.

(** The tiers with the guard each one has in the code. *)
Definition guarded_tiers (p : NodeOAuthClientProvider) : list (option jsstring) :=
  [ nonblank (metadata_scope (staticOAuthClientMetadata p));
    nonblank (wwwAuthenticateScope p);
    nonempty_joined (protectedResourceMetadata p ≫= prm_scopes_supported);
    nonblank (_clientInfo p ≫= ci_scope);
    nonempty_joined (authorizationServerMetadata p ≫= as_scopes_supported) ].

Definition first_guarded_tier (p : NodeOAuthClientProvider) : jsstring :=
  default default_scope (first_present (guarded_tiers p)).

(** The provider with its static metadata's [scope] property set to [x], or
    removed when [x] is [None]. *)
Definition with_static_scope (x : option jsstring) (p : NodeOAuthClientProvider)
    : NodeOAuthClientProvider :=
  let fields := default ∅ (staticOAuthClientMetadata p) in
  {| options := options p; serverUrlHash := serverUrlHash p;
     callbackPath := callbackPath p; clientName := clientName p;
     clientUri := clientUri p; softwareId := softwareId p;
     softwareVersion := softwareVersion p;
     staticOAuthClientMetadata :=
       Some (match x with
             | Some s => <["scope" := VString s]> fields
             | None => delete "scope" fields
             end);
     staticOAuthClientInfo := staticOAuthClientInfo p;
     authorizeResource := authorizeResource p; _state := _state p;
     _clientInfo := _clientInfo p;
     authorizationServerMetadata := authorizationServerMetadata p;
     protectedResourceMetadata := protectedResourceMetadata p;
     wwwAuthenticateScope := wwwAuthenticateScope p |}.

End ScopeResolver.

(** ** Credential invalidation *)

Module CredentialSpec.

Import Provider ScopeResolver.

(** The files a call of [invalidateCredentials] names, by argument. *)
Definition named_files (scope : jsstring) : list jsstring :=
  if bool_decide (scope = js "all") then
    [js "client_info.json"; js "tokens.json"; js "code_verifier.txt"]
  else if bool_decide (scope = js "client") then [js "client_info.json"]
  else if bool_decide (scope = js "tokens") then [js "tokens.json"]
  else if bool_decide (scope = js "verifier") then [js "code_verifier.txt"]
  else [].

Definition known_scopes : list jsstring :=
  [js "all"; js "client"; js "tokens"; js "verifier"].

Definition client_file (w : World) : path := (serverUrlHash (this w), js "client_info.json").

(** No scope source but the cached registration. *)
Definition only_registration_scope (p : NodeOAuthClientProvider) : Prop :=
  nonblank (metadata_scope (staticOAuthClientMetadata p)) = None
  /\ nonblank (wwwAuthenticateScope p) = None
  /\ nonempty_joined (protectedResourceMetadata p ≫= prm_scopes_supported) = None
  /\ nonempty_joined (authorizationServerMetadata p ≫= as_scopes_supported) = None.

End CredentialSpec.

(** ** Lock validity, polling and primaries *)

Module CoordinationSpec.

Import Coordination.

Local Open Scope Z_scope.

(** The state right after a request was issued. *)
Definition requested (url : jsstring) (s : State) : State :=
  {| clock := clock s; requests := S (requests s); timers := timers s;
     lockfiles := lockfiles s; trace := trace s ++ [Fetch url]; objects := objects s |}.

(** The state right after a timer of [ms] milliseconds was awaited. *)
Definition slept (env : Env) (ms : Z) (s : State) : State :=
  {| clock := clock s + Z.max 0 (setTimeout_delay ms + timer_lag env (timers s));
     requests := requests s; timers := S (timers s);
     lockfiles := lockfiles s; trace := trace s ++ [Sleep ms]; objects := objects s |}.

Definition settled (x : exchange) : result Response :=
  match answer x with
  | Responds r => Returns r
  | Unreachable => Throws (mkError (js "fetch failed"))
  end.

(** The three checks, on the world the call starts in. *)
Definition fresh_enough (s : State) (l : LockfileData) : Prop :=
  clock s - timestamp l <= 1800000.

Definition owner_alive (env : Env) (l : LockfileData) : Prop :=
  signal_delivered env (pid l) = true.

(** The probe is the next request of the process, a GET of
    [http://127.0.0.1:{port}/wait-for-auth?poll=false]. *)
Definition probe_exchange (env : Env) (s : State) (l : LockfileData) : exchange :=
  network env (requests s)
    (js "http://127.0.0.1:" ++ show_Z (port l) ++ js "/wait-for-auth?poll=false").

(** A response of status 200 or 202 arrives in less than a second. *)
Definition probe_answers (env : Env) (s : State) (l : LockfileData) : Prop :=
  exists r, answer (probe_exchange env s l) = Responds r
            /\ (status r = 200 \/ status r = 202)
            /\ Z.of_N (latency (probe_exchange env s l)) < 1000.

Definition valid_lock (env : Env) (s : State) (l : LockfileData) : Prop :=
  fresh_enough s l /\ owner_alive env l /\ probe_answers env s l.

Definition probe_status_ok (x : exchange) : bool :=
  match answer x with
  | Responds r => (status r =? 200) || (status r =? 202)
  | Unreachable => false
  end.

(** The value of property [k] of a parsed body as [extractAuthCode] sees it:
    [undefined] when the property is absent or the value has no such
    property. *)
Definition field_of (parsed : json) (k : jsstring) : jsvalue :=
  match parsed with
  | JObject fields => fields !! k
  | _ => None
  end.

(** A field that is absent or the empty string. *)
Definition absent_or_empty (v : jsvalue) : Prop :=
  v = None \/ v = Some (JString []).

(** How one round of the loop ends, by the exchange it gets. *)
Definition poll_verdict (env : Env) (x : exchange) : result (option jsvalue) :=
  if 10000 <=? Z.of_N (latency x) then Returns None
  else
    match answer x with
    | Unreachable => Returns None
    | Responds r =>
        if status r =? 200 then
          match body r with
          | Some t =>
              if truthy (extractAuthCode env t)
              then Returns (Some (extractAuthCode env t)) else Returns None
          | None => Returns None
          end
        else if (status r =? 202) || (status r =? 204) || (status r =? 404) then Returns None
        else if status r =? 410 then Throws (mkError expired)
        else Returns None
    end.

(** How long one request of the loop takes: the latency of the exchange,
    cut at the 10 s per-request timeout. *)
Definition poll_duration (x : exchange) : Z :=
  if 10000 <=? Z.of_N (latency x) then 10000 else Z.of_N (latency x).

(** The world after one round of the bridge loop that goes on polling: the
    request, then the wait. *)
Definition after_round (env : Env) (url : jsstring) (interval : Z) (s : State) : State :=
  slept env interval
    (tick (poll_duration (network env (requests s) url)) (requested url s)).

(** The world after [k] such rounds. *)
Fixpoint after_rounds (env : Env) (url : jsstring) (interval : Z) (k : nat) (s : State)
    : State :=
  match k with
  | O => s
  | S k' => after_rounds env url interval k' (after_round env url interval s)
  end.

(** The keep-polling class: the request times out or fails, the status is
    neither 200 nor 410, or it is 200 and the body cannot be read or yields no
    truthy code. *)
Definition keeps_polling (env : Env) (x : exchange) : bool :=
  (10000 <=? Z.of_N (latency x))
  || match answer x with
     | Unreachable => true
     | Responds r =>
         if status r =? 200 then
           match body r with
           | Some t => negb (truthy (extractAuthCode env t))
           | None => true
           end
         else negb (status r =? 410)
     end.

(** The first [k] answers to the long poll ask to retry (202, or no
    connection), the next one is a 200. *)
Definition asks_to_retry (x : exchange) : bool :=
  match answer x with
  | Responds r => status r =? 202
  | Unreachable => true
  end.

Definition says_done (x : exchange) : bool :=
  match answer x with
  | Responds r => status r =? 200
  | Unreachable => false
  end.

(** The handlers a primary instance returns. *)
Definition primary_handlers (env : Env) (callbackPort timeoutMs : Z) (o : nat)
    : AuthCoordinatorState :=
  {| identity := o;
     server := Some {| requested_port := callbackPort;
                       comes_up := callback_listen env callbackPort |};
     waitForAuthCode := callback_waitForAuthCode env timeoutMs;
     skipBrowserAuth := false |}.

(** The world after this process became primary on [actualPort]. *)
Definition primary_state (env : Env) (hash : jsstring) (callbackPort actualPort : Z)
    (s : State) : State :=
  {| clock := clock s; requests := requests s; timers := timers s;
     lockfiles := <[hash := {| pid := process_pid env; port := actualPort;
                               timestamp := clock s |}]> (lockfiles s);
     trace := trace s ++ [Listen callbackPort;
                          CreateLockfile hash (process_pid env) actualPort;
                          Once (js "exit"); Once (js "SIGINT")];
     objects := S (objects s) |}.

(** The handlers a secondary instance returns after adoption. *)
Definition secondary_handlers (env : Env) (o : nat) : AuthCoordinatorState :=
  {| identity := o;
     server := Some {| requested_port := 0; comes_up := Bound (ephemeral_port env) |};
     waitForAuthCode := dummyWaitForAuthCode;
     skipBrowserAuth := true |}.

(** Events that read, validate or remove a lock record. *)
Definition touches_lock (e : event) : bool :=
  match e with
  | CheckLockfile _ | Kill _ _ | Fetch _ | DeleteLockfile _ => true
  | _ => false
  end.

(** The long poll of the other instance completes: its first [k] answers
    ask to retry, the next one is a 200. *)
Definition long_poll_completes (env : Env) (p : Z) (first k : nat) : Prop :=
  (forall j, (j < k)%nat ->
     asks_to_retry (network env (first + j) (poll_url p)) = true)
  /\ says_done (network env (first + k) (poll_url p)) = true.

End CoordinationSpec.

(** * Sample configurations *)

Module Samples.

Import Provider.

Definition sample_options : OAuthProviderOptions :=
  {| opt_serverUrl := js "https://example.com";
     opt_callbackPort := 8080;
     opt_host := js "localhost";
     opt_callbackPath := None; opt_clientName := None; opt_clientUri := None;
     opt_softwareId := None; opt_softwareVersion := None;
     opt_staticOAuthClientMetadata := None;
     opt_staticOAuthClientInfo := None;
     opt_authorizeResource := None;
     opt_serverUrlHash := js "test-hash";
     opt_redirectUrl := None; opt_authMode := None;
     opt_authBridgeNotifyUrl := None; opt_authSessionId := None;
     opt_authorizationServerMetadata := None;
     opt_protectedResourceMetadata := None;
     opt_wwwAuthenticateScope := None |}.

(** A provider built from the default options. *)
Definition plain_provider : NodeOAuthClientProvider :=
  new_NodeOAuthClientProvider (js "1.0.0") (js "state-1") sample_options.

(** The same provider after discovery returned protected-resource metadata
    whose only advertised scope is the empty string. *)
Definition blank_prm_provider : NodeOAuthClientProvider :=
  {| options := options plain_provider; serverUrlHash := serverUrlHash plain_provider;
     callbackPath := callbackPath plain_provider; clientName := clientName plain_provider;
     clientUri := clientUri plain_provider; softwareId := softwareId plain_provider;
     softwareVersion := softwareVersion plain_provider;
     staticOAuthClientMetadata := None;
     staticOAuthClientInfo := None;
     authorizeResource := None; _state := _state plain_provider;
     _clientInfo := None;
     authorizationServerMetadata := None;
     protectedResourceMetadata :=
       Some {| resource := js "https://example.com"; prm_scopes_supported := Some [[]] |};
     wwwAuthenticateScope := None |}.

Definition sample_client : OAuthClientInformationFull :=
  {| client_id := js "test-client"; client_secret := None;
     redirect_uris := [js "http://localhost:8080/oauth/callback"];
     ci_scope := Some (js "extracted custom scopes") |}.

Definition static_client : OAuthClientInformationFull :=
  {| client_id := js "static-client"; client_secret := None;
     redirect_uris := [js "http://localhost:8080/oauth/callback"];
     ci_scope := None |}.

(** A provider configured with a static client-information override. *)
Definition override_provider : NodeOAuthClientProvider :=
  {| options := options plain_provider; serverUrlHash := serverUrlHash plain_provider;
     callbackPath := callbackPath plain_provider; clientName := clientName plain_provider;
     clientUri := clientUri plain_provider; softwareId := softwareId plain_provider;
     softwareVersion := softwareVersion plain_provider;
     staticOAuthClientMetadata := None;
     staticOAuthClientInfo := Some static_client;
     authorizeResource := None; _state := _state plain_provider;
     _clientInfo := None;
     authorizationServerMetadata := None;
     protectedResourceMetadata := None;
     wwwAuthenticateScope := None |}.

Definition empty_world (p : NodeOAuthClientProvider) : World :=
  {| this := p; files := ∅; accesses := [] |}.

(** A world whose cached registration carries a scope and whose three
    credential files exist. *)
Definition registered_world : World :=
  {| this := set_clientInfo (Some sample_client) plain_provider;
     files := {[ (js "test-hash", js "client_info.json") := ClientInfoJson sample_client;
                 (js "test-hash", js "tokens.json") :=
                   TokensJson {| access_token := js "t"; refresh_token := None;
                                 expires_in := Some 3600%Z |};
                 (js "test-hash", js "code_verifier.txt") := Text (js "v") ]};
     accesses := [] |}.

End Samples.

(** ** Sample environments *)

Module CoordinationSamples.

Import Coordination.

Local Open Scope Z_scope.

(** The body [{"code":"auth-code-1","authorization_code":"auth-code-2"}]. *)
Definition both_codes_body : jsstring :=
  js "{" ++ dquote ++ js "code" ++ dquote ++ js ":" ++ dquote ++ js "auth-code-1" ++ dquote
    ++ js "," ++ dquote ++ js "authorization_code" ++ dquote ++ js ":" ++ dquote
    ++ js "auth-code-2" ++ dquote ++ js "}".

(** The body [{"authorization_code":"auth-code-2"}]. *)
Definition authorization_code_body : jsstring :=
  js "{" ++ dquote ++ js "authorization_code" ++ dquote ++ js ":" ++ dquote
    ++ js "auth-code-2" ++ dquote ++ js "}".

(** The body [{}]. *)
Definition empty_object_body : jsstring := js "{}".

(** [JSON.parse] on the sample bodies; anything else is taken not to parse. *)
Definition sample_JSON_parse (t : jsstring) : option json :=
  if bool_decide (t = both_codes_body) then
    Some (JObject {[ js "code" := JString (js "auth-code-1");
                     js "authorization_code" := JString (js "auth-code-2") ]})
  else if bool_decide (t = authorization_code_body) then
    Some (JObject {[ js "authorization_code" := JString (js "auth-code-2") ]})
  else if bool_decide (t = empty_object_body) then
    Some (JObject ∅)
  else None.

(** [searchParams.set] on a URL that has no query yet. *)
Definition append_searchParams (u : jsstring) (params : list (jsstring * jsstring))
    : option jsstring :=
  Some (u ++ js "?" ++ join (js "&") ((fun kv => kv.1 ++ js "=" ++ kv.2) <$> params)).

(** An environment on the given platform whose network answers as [net]
    says; every signalled process exists, timers fire on time, servers come
    up on the port they ask for. *)
Definition sample_env (platform : jsstring) (net : nat -> jsstring -> exchange) : Env :=
  {| process_platform := platform;
     process_pid := 4242;
     signal_delivered := fun _ => true;
     network := net;
     timer_lag := fun _ => 0%Z;
     ephemeral_port := 50000;
     callback_listen := fun p => BoundLater (if p =? 0 then 50001 else p);
     callback_waitForAuthCode := fun _ _ => ret (Some (JString (js "callback-code")));
     JSON_parse := sample_JSON_parse;
     encodeURIComponent := Some;
     URL_with_searchParams := append_searchParams |}.

(** A network that answers every request with the given status and body
    after five milliseconds. *)
Definition always (st : Z) (text : jsstring) : nat -> jsstring -> exchange :=
  fun _ _ => {| latency := 5; answer := Responds {| status := st; body := Some text |} |}.

(** A network that answers 202 to the first [k] requests after the probe
    and 200 from then on. *)
Definition pending_then_done (k : nat) : nat -> jsstring -> exchange :=
  fun n _ =>
    {| latency := 5;
       answer := Responds {| status := if (n <=? k)%nat then 202 else 200;
                             body := Some [] |} |}.

Definition start_state : State :=
  {| clock := 1700000000000; requests := 0; timers := 0; lockfiles := ∅;
     trace := []; objects := 0 |}.

Definition sample_lock : LockfileData :=
  {| pid := 777; port := 3334; timestamp := 1700000000000 - 60000 |}.

(** A state in which another process holds a one-minute-old lock. *)
Definition locked_state : State :=
  {| clock := 1700000000000; requests := 0; timers := 0;
     lockfiles := {[ js "server-hash" := sample_lock ]};
     trace := []; objects := 0 |}.

Definition bridge_options : AuthCoordinatorOptions :=
  {| callbackPort := 3333; authTimeoutMs := 40; authMode := bridge;
     authBridgePollUrl := Some (js "https://bridge.example.com/poll");
     authBridgePollIntervalMs := Some 1;
     authSessionId := None;
     authBridgeExitAfterAuthorizeUrl := None |}.

(** A lock two hours old, held by a live process whose probe would answer. *)
Definition stale_lock : LockfileData :=
  {| pid := 777; port := 3334; timestamp := 1700000000000 - 7200000 |}.

(** The state a bridge coordinator with the sample options settles on. *)
Definition sample_bridge_state : AuthCoordinatorState :=
  {| identity := 0; server := None;
     waitForAuthCode := fun fuel =>
       waitForBridgeAuthCode (sample_env (js "linux") (always 202 [])) fuel
         (js "https://bridge.example.com/poll?session_id=server-hash-4242&server_url_hash=server-hash")
         1 40;
     skipBrowserAuth := false |}.

Definition sample_memo : AuthCoordinator :=
  {| co_serverUrlHash := js "server-hash"; co_events := 0; co_options := bridge_options;
     authState := Some sample_bridge_state |}.

End CoordinationSamples.

(** ** Vocabulary for the further provider properties *)

Module ProviderSpec.

Import Provider ScopeResolver.

(** The fields [clientMetadata] fills in when the static metadata leaves
    them out. *)
Definition default_fields (p : NodeOAuthClientProvider) : list (string * field) :=
  [ ("redirect_uris", VArray [redirectUrl p]);
    ("token_endpoint_auth_method", VString (js "none"));
    ("grant_types", VArray [js "authorization_code"; js "refresh_token"]);
    ("response_types", VArray [js "code"]);
    ("client_name", VString (clientName p));
    ("client_uri", VString (clientUri p));
    ("software_id", VString (softwareId p));
    ("software_version", VString (softwareVersion p)) ].

(** The static metadata object, empty when none is configured. *)
Definition static_fields (p : NodeOAuthClientProvider) : gmap string field :=
  default ∅ (staticOAuthClientMetadata p).

(** No tier above the registration scope selects anything. *)
Definition no_tier_above_registration (p : NodeOAuthClientProvider) : Prop :=
  nonblank (metadata_scope (staticOAuthClientMetadata p)) = None
  /\ nonblank (wwwAuthenticateScope p) = None
  /\ nonempty_joined (protectedResourceMetadata p ≫= prm_scopes_supported) = None.

Definition token_file (w : World) : path := (serverUrlHash (this w), js "tokens.json").

Definition verifier_file (w : World) : path := (serverUrlHash (this w), js "code_verifier.txt").

Definition registration_file (w : World) : path :=
  (serverUrlHash (this w), js "client_info.json").

(** The world with one more access logged. *)
Definition accessed (a : access) (w : World) : World :=
  {| this := this w; files := files w; accesses := accesses w ++ [a] |}.

End ProviderSpec.

Module ProviderSamples.

Import Provider ScopeResolver ProviderSpec Samples.

(** Static metadata that names the client and asks for a scope. *)
Definition custom_metadata : OAuthClientMetadata :=
  {[ "scope" := VString (js "user:email repo");
     "client_name" := VString (js "My Custom Client") ]}.

Definition custom_provider : NodeOAuthClientProvider :=
  new_NodeOAuthClientProvider (js "1.0.0") (js "state-1")
    {| opt_serverUrl := js "https://example.com";
       opt_callbackPort := 8080;
       opt_host := js "localhost";
       opt_callbackPath := Some [];
       opt_clientName := None; opt_clientUri := None;
       opt_softwareId := None; opt_softwareVersion := None;
       opt_staticOAuthClientMetadata := Some custom_metadata;
       opt_staticOAuthClientInfo := None;
       opt_authorizeResource := None;
       opt_serverUrlHash := js "test-hash";
       opt_redirectUrl := None; opt_authMode := None;
       opt_authBridgeNotifyUrl := None; opt_authSessionId := None;
       opt_authorizationServerMetadata := None;
       opt_protectedResourceMetadata := None;
       opt_wwwAuthenticateScope := None |}.

(** Tokens whose [expires_in] is negative. *)
Definition odd_tokens : OAuthTokens :=
  {| access_token := js "a"; refresh_token := Some (js "r"); expires_in := Some (-5)%Z |}.

(** A world whose registration file holds something the schema rejects,
    while a registration is cached in memory. *)
Definition garbled_world : World :=
  {| this := set_clientInfo (Some sample_client) plain_provider;
     files := {[ (js "test-hash", js "client_info.json") := Malformed (js "{") ]};
     accesses := [] |}.

End ProviderSamples.

(** ** Vocabulary for the authorization redirect *)

Module AuthorizationSpec.

Import Provider Authorization.

Local Open Scope Z_scope.

(** The query after the redirect set its parameters. *)
Definition params_after (p : NodeOAuthClientProvider) (params : list (jsstring * jsstring))
    : list (jsstring * jsstring) :=
  searchParams_set (js "scope") (getEffectiveScope p)
    (match authorizeResource p with
     | Some r => if truthy_string r then searchParams_set (js "resource") r params else params
     | None => params
     end).

Definition url_after (p : NodeOAuthClientProvider) (u : URL) : URL :=
  {| location := location u; searchParams := params_after p (searchParams u) |}.

(** The effects of the detached metadata call. *)
Definition metadata_effects (p : NodeOAuthClientProvider) : list effect :=
  match authorizationServerMetadata p with
  | Some _ => []
  | None => [MetadataRequested (opt_serverUrl (options p))]
  end.

(** The effects of the notification, for the body sent. *)
Definition notify_effects (outside : Outside) (p : NodeOAuthClientProvider) (body : jsstring)
    : list effect :=
  match opt_authBridgeNotifyUrl (options p) with
  | Some notifyUrl =>
      if truthy_string notifyUrl then
        Posted notifyUrl body
        :: match notify_answer outside notifyUrl body with
           | NotifyResponds status =>
               if response_ok status then []
               else [Logged (js "Failed to notify auth bridge endpoint: HTTP " ++ show_Z status)]
           | NotifyRejects reason =>
               [Logged (js "Failed to notify auth bridge endpoint: " ++ reason)]
           end
      else []
  | None => []
  end.

(** The effects of the attempt to open the browser on the URL text. *)
Definition open_effects (outside : Outside) (url_text : jsstring) : list effect :=
  match sanitizeUrl outside url_text with
  | inl _ =>
      [Logged (js "Could not open browser automatically. Please copy and paste the URL above into your browser.")]
  | inr clean =>
      Opened clean
      :: match open_answer outside clean with
         | Some _ =>
             [Logged (js "Could not open browser automatically. Please copy and paste the URL above into your browser.")]
         | None => [Logged (js "Browser opened automatically.")]
         end
  end.

(** All the effects of one redirect, in order. *)
Definition redirect_effects (outside : Outside) (p : NodeOAuthClientProvider) (u : URL)
    : list effect :=
  let u' := url_after p u in
  let url_text := URL_toString outside u' in
  metadata_effects p
  ++ (if is_bridge p then
        Logged (js "MCP_REMOTE_AUTH_URL "
                  ++ JSON_stringify outside (auth_url_event outside p u'))
        :: notify_effects outside p (JSON_stringify outside (auth_url_event outside p u'))
      else [])
  ++ [Logged (newline ++ js "Please authorize this client by visiting:" ++ newline
                ++ url_text ++ newline)]
  ++ (if is_bridge p
      then [Logged (js "Bridge mode enabled, skipping automatic browser launch.")]
      else open_effects outside url_text).

Definition is_opened (e : effect) : bool :=
  match e with Opened _ => true | _ => false end.

Definition is_posted (e : effect) : bool :=
  match e with Posted _ _ => true | _ => false end.

Definition is_metadata_request (e : effect) : bool :=
  match e with MetadataRequested _ => true | _ => false end.

(** The number of pairs of a given name in a query. *)
Definition count_named (name : jsstring) (params : list (jsstring * jsstring)) : nat :=
  length (filter (fun kv => kv.1 = name) params).

End AuthorizationSpec.

Module AuthorizationSamples.

Import Provider Authorization Samples.

(** An outside where the notify endpoint is down, the sanitizer accepts
    every URL and the browser cannot be started. *)
Definition hostile_outside : Outside :=
  {| metadata_answer := fun _ => inl (mkError (js "fetch failed"));
     notify_answer := fun _ _ => NotifyRejects (js "fetch failed");
     sanitizeUrl := fun u => inr u;
     open_answer := fun _ => Some (mkError (js "spawn xdg-open ENOENT"));
     URL_toString := fun u => location u;
     JSON_stringify := fun e => ev_authorization_url e |}.

(** A bridge-mode provider with a notify URL and a resource. *)
Definition bridge_provider : NodeOAuthClientProvider :=
  new_NodeOAuthClientProvider (js "1.0.0") (js "state-1")
    {| opt_serverUrl := js "https://example.com";
       opt_callbackPort := 8080;
       opt_host := js "localhost";
       opt_callbackPath := None;
       opt_clientName := None; opt_clientUri := None;
       opt_softwareId := None; opt_softwareVersion := None;
       opt_staticOAuthClientMetadata := None;
       opt_staticOAuthClientInfo := None;
       opt_authorizeResource := Some (js "https://api.example.com");
       opt_serverUrlHash := js "test-hash";
       opt_redirectUrl := None; opt_authMode := Some bridge;
       opt_authBridgeNotifyUrl := Some (js "https://bridge.example.com/notify");
       opt_authSessionId := Some (js "session-9");
       opt_authorizationServerMetadata := None;
       opt_protectedResourceMetadata := None;
       opt_wwwAuthenticateScope := None |}.

(** An authorization URL that already carries a scope twice and a state. *)
Definition sample_url : URL :=
  {| location := js "https://auth.example.com/authorize";
     searchParams := [(js "scope", js "old"); (js "state", js "xyz"); (js "scope", js "older")] |}.

Definition desk_of (p : NodeOAuthClientProvider) : Desk :=
  {| instance := p; authorizationUrl := sample_url; effects := [] |}.

(** Metadata an authorization server advertises. *)
Definition advertised : AuthorizationServerMetadata :=
  {| issuer := js "https://example.com";
     as_scopes_supported := Some [js "openid"; js "email"] |}.

(** An outside whose metadata endpoint answers with [advertised]. *)
Definition discovering_outside : Outside :=
  {| metadata_answer := fun _ => inr (Some advertised);
     notify_answer := fun _ _ => NotifyResponds 200;
     sanitizeUrl := fun u => inr u;
     open_answer := fun _ => None;
     URL_toString := fun u => location u;
     JSON_stringify := fun e => ev_authorization_url e |}.

End AuthorizationSamples.

(** ** Vocabulary for the further coordination properties *)

Module TakeoverSpec.

Import Coordination CoordinationSpec.

Local Open Scope Z_scope.

(** Does the pattern occur somewhere in the string. *)
Fixpoint occurs (pat s : jsstring) : bool :=
  match s with
  | [] => startsWith pat []
  | _ :: s' => startsWith pat s || occurs pat s'
  end.

(** The requests that fit in the timeout when every wait takes its timer
    delay: one per timer delay, rounded up. *)
Definition request_budget (interval timeout : Z) : nat :=
  Z.to_nat ((timeout + setTimeout_delay interval - 1) / setTimeout_delay interval).

(** How a call of [waitForBridgeAuthCode] may end. *)
Definition bridge_outcome_ok (timeout : Z) (r : result jsvalue) : Prop :=
  match r with
  | Returns v => truthy v = true
  | Throws e => e = mkError expired \/ e = timed_out timeout
  | NeverSettles => False
  | OutOfFuel => True
  end.

(** The long poll gives up: its first [k] answers ask to retry, the next
    one has a status that is neither 200 nor 202. *)
Definition long_poll_gives_up (env : Env) (p : Z) (first k : nat) : Prop :=
  (forall j, (j < k)%nat ->
     asks_to_retry (network env (first + j) (poll_url p)) = true)
  /\ exists r, answer (network env (first + k) (poll_url p)) = Responds r
               /\ status r <> 200 /\ status r <> 202.

(** Between two worlds nothing was contacted: no request was sent, no timer
    awaited, no lock record read or changed, no process signalled and no
    server started. Log lines are no part of a world. *)
Definition nothing_contacted (s s' : State) : Prop :=
  requests s' = requests s
  /\ timers s' = timers s
  /\ lockfiles s' = lockfiles s
  /\ trace s' = trace s.

(** The lock record this process writes when it becomes primary. *)
Definition own_lock (env : Env) (actualPort now : Z) : LockfileData :=
  {| pid := process_pid env; port := actualPort; timestamp := now |}.

(** The world after a stale or abandoned lock was removed. *)
Definition lock_removed (hash : jsstring) (s : State) : State :=
  set_lockfiles (delete hash (lockfiles s)) (record (DeleteLockfile hash) s).

End TakeoverSpec.

Module TakeoverSamples.

Import Coordination CoordinationSpec TakeoverSpec CoordinationSamples.

Local Open Scope Z_scope.

(** Bridge options with no poll URL. *)
Definition urlless_options : AuthCoordinatorOptions :=
  {| callbackPort := 3333; authTimeoutMs := 40; authMode := bridge;
     authBridgePollUrl := None;
     authBridgePollIntervalMs := None;
     authSessionId := None;
     authBridgeExitAfterAuthorizeUrl := None |}.

(** Bridge options in emit-only mode. *)
Definition emit_only_options : AuthCoordinatorOptions :=
  {| callbackPort := 3333; authTimeoutMs := 40; authMode := bridge;
     authBridgePollUrl := Some (js "https://bridge.example.com/poll/{session_id}");
     authBridgePollIntervalMs := None;
     authSessionId := Some (js "s1");
     authBridgeExitAfterAuthorizeUrl := Some true |}.

(** The state emit-only coordination returns first. *)
Definition emit_only_state : AuthCoordinatorState :=
  {| identity := 0; server := None;
     waitForAuthCode := fun _ =>
       throw (mkError (js "Bridge auth emit-only mode: authorization URL emitted."));
     skipBrowserAuth := false |}.

(** A network that answers 202 to the first [k] requests and then a 200
    carrying both codes. *)
Definition pending_then_code (k : nat) : nat -> jsstring -> exchange :=
  fun n _ =>
    {| latency := 5;
       answer := Responds (if (n <? k)%nat
                           then {| status := 202; body := Some [] |}
                           else {| status := 200; body := Some both_codes_body |}) |}.

(** A network whose probe answers 202 and whose long poll then answers 500. *)
Definition probe_then_error : nat -> jsstring -> exchange :=
  fun n _ =>
    {| latency := 5;
       answer := Responds {| status := if (n =? 0)%nat then 202 else 500;
                             body := Some [] |} |}.

(** An environment whose bridge answers 202 at once and whose first timer is
    seen to fire a millisecond early: across the first wait of one
    millisecond the clock does not move. *)
Definition early_timer_env : Env :=
  {| process_platform := js "linux";
     process_pid := 4242;
     signal_delivered := fun _ => true;
     network := fun _ _ =>
       {| latency := 0; answer := Responds {| status := 202; body := Some [] |} |};
     timer_lag := fun i => if (i =? 0)%nat then -1 else 0;
     ephemeral_port := 50000;
     callback_listen := fun p => Bound p;
     callback_waitForAuthCode := fun _ _ => ret (Some (JString (js "callback-code")));
     JSON_parse := sample_JSON_parse;
     encodeURIComponent := Some;
     URL_with_searchParams := append_searchParams |}.

(** An environment in which no signalled process exists. *)
Definition lonely_env : Env :=
  {| process_platform := js "linux";
     process_pid := 4242;
     signal_delivered := fun _ => false;
     network := always 200 [];
     timer_lag := fun _ => 0%Z;
     ephemeral_port := 50000;
     callback_listen := fun p => Bound p;
     callback_waitForAuthCode := fun _ _ => ret (Some (JString (js "callback-code")));
     JSON_parse := sample_JSON_parse;
     encodeURIComponent := Some;
     URL_with_searchParams := append_searchParams |}.

End TakeoverSamples.

(** * Properties *)

(** ** Scope resolution and client metadata *)

Module ScopeFacts.

Import Provider ScopeResolver Samples.

Lemma length_positive {A} (l : list A) : (0 <? length l)%nat = bool_decide (l ≠ []).
Proof. destruct l; reflexivity. Qed.

(** The code's string guard is "present and non-empty after trimming". *)
Lemma nonblank_guard (x : option jsstring) :
  nonblank x = if present_and_nonblank x then x else None.
Proof.
  destruct x as [s|]; simpl; [|reflexivity].
  rewrite length_positive.
  destruct s as [|c s]; [reflexivity|].
  simpl. destruct (bool_decide _); reflexivity.
Qed.

(** The code's array guard is "present with at least one entry". *)
Lemma nonempty_joined_guard (x : option (list jsstring)) :
  nonempty_joined x = if has_length x then Some (join (js " ") (default [] x)) else None.
Proof.
  destruct x as [l|]; simpl; [|reflexivity].
  rewrite length_positive. destruct (bool_decide _); reflexivity.
Qed.

Lemma getEffectiveScope_tiers (p : NodeOAuthClientProvider) :
  getEffectiveScope p = first_guarded_tier p.
Proof.
  unfold getEffectiveScope, first_guarded_tier, guarded_tiers.
  rewrite !nonblank_guard, !nonempty_joined_guard.
  destruct (present_and_nonblank (metadata_scope _)) eqn:E1.
  { destruct (metadata_scope _); [reflexivity | discriminate]. }
  destruct (present_and_nonblank (wwwAuthenticateScope p)) eqn:E2.
  { destruct (wwwAuthenticateScope p); [reflexivity | discriminate]. }
  destruct (has_length (protectedResourceMetadata p ≫= _)); [reflexivity|].
  destruct (present_and_nonblank (_clientInfo p ≫= _)) eqn:E4.
  { destruct (_clientInfo p ≫= _); [reflexivity | discriminate]. }
  destruct (has_length (authorizationServerMetadata p ≫= _)); reflexivity.
Qed.

Lemma clientMetadata_scope (p : NodeOAuthClientProvider) :
  clientMetadata p !! "scope" = Some (VString (getEffectiveScope p)).
Proof. unfold clientMetadata. apply lookup_insert_eq. Qed.

(** C1, as worded, fails: protected-resource metadata advertising one scope,
    the empty string, is a source that is empty after joining, yet the code
    selects it (its guard looks at the array's length) and the scope exposed
    in the client metadata is the empty string, not the default the wording
    asks for. *)
Lemma blank_metadata_scope_is_selected :
  clientMetadata blank_prm_provider !! "scope" = Some (VString [])
  /\ first_nonblank_source blank_prm_provider = js "openid email profile"
  /\ getEffectiveScope blank_prm_provider <> first_nonblank_source blank_prm_provider.
Proof.
  split; [|split].
  - rewrite clientMetadata_scope. reflexivity.
  - vm_compute. reflexivity.
  - vm_compute. discriminate.
Qed.

(** C1, amended: for every provider the scope exposed in [clientMetadata] is
    the first tier, in the fixed priority order, that passes its guard: the
    static override, the challenge scope and the registration scope count when
    non-empty after trimming; the two metadata tiers count when their array
    has at least one entry and yield its space-joined entries; otherwise the
    default. A static scope configured as the empty string resolves exactly
    as an absent one, and with every tier absent the result is
    ["openid email profile"]. *)
Theorem effective_scope_is_first_guarded_tier :
  (forall p : NodeOAuthClientProvider,
     clientMetadata p !! "scope" = Some (VString (first_guarded_tier p))
     /\ getEffectiveScope p = first_guarded_tier p)
  /\ (forall p : NodeOAuthClientProvider,
        getEffectiveScope (with_static_scope (Some []) p)
        = getEffectiveScope (with_static_scope None p))
  /\ (forall p : NodeOAuthClientProvider,
        guarded_tiers p = [None; None; None; None; None] ->
        clientMetadata p !! "scope" = Some (VString (js "openid email profile"))).
Proof.
  split; [|split].
  - intros p. rewrite clientMetadata_scope, getEffectiveScope_tiers. done.
  - intros p. rewrite !getEffectiveScope_tiers.
    unfold first_guarded_tier, guarded_tiers, with_static_scope; simpl.
    rewrite lookup_insert_eq, lookup_delete_eq. reflexivity.
  - intros p H. rewrite clientMetadata_scope, getEffectiveScope_tiers.
    unfold first_guarded_tier. rewrite H. reflexivity.
Qed.

Lemma effective_scope_is_first_guarded_tier_witness :
  guarded_tiers plain_provider = [None; None; None; None; None]
  /\ clientMetadata plain_provider !! "scope" = Some (VString (js "openid email profile")).
Proof.
  split; [reflexivity|].
  apply (proj2 (proj2 effective_scope_is_first_guarded_tier) plain_provider).
  reflexivity.
Defined.

End ScopeFacts.

(** ** Persisted client registration and credential invalidation *)

Module CredentialFacts.

Import Provider ScopeResolver CredentialSpec Samples.

(** Writing the registration and reading it back, without an override. *)
Lemma save_then_read (w : World) (X : OAuthClientInformationFull) :
  staticOAuthClientInfo (this w) = None ->
  (saveClientInformation X ;;; clientInformation) w
  = (Returns (Some X),
     {| this := set_clientInfo (Some X) (this w);
        files := <[client_file w := ClientInfoJson X]> (files w);
        accesses := accesses w ++ [WriteFile (client_file w)] ++ [ReadFile (client_file w)] |}).
Proof.
  intros Hnone.
  unfold saveClientInformation, clientInformation, bind, self, assign_clientInfo,
    writeJsonFile, readJsonFile, modify, ret, client_file; simpl.
  rewrite Hnone; simpl.
  rewrite lookup_insert_eq; simpl.
  rewrite <- app_assoc. reflexivity.
Qed.

(** With an override, [clientInformation] answers from memory. *)
Lemma read_with_override (w : World) (O : OAuthClientInformationFull) :
  staticOAuthClientInfo (this w) = Some O ->
  clientInformation w
  = (Returns (Some O),
     {| this := set_clientInfo (Some O) (this w); files := files w;
        accesses := accesses w |}).
Proof.
  intros Hsome.
  unfold clientInformation, bind, self, assign_clientInfo, modify, ret; simpl.
  rewrite Hsome. reflexivity.
Qed.

(** C6, as worded, fails: with a static client-information override
    configured, [saveClientInformation] still writes the registration file,
    so persistence is not bypassed entirely: the sequence save-then-read
    returns the override and leaves a write of [client_info.json] behind. *)
Lemma save_with_override_still_writes :
  staticOAuthClientInfo (this (empty_world override_provider)) = Some static_client
  /\ fst ((saveClientInformation sample_client ;;; clientInformation)
            (empty_world override_provider)) = Returns (Some static_client)
  /\ accesses (snd ((saveClientInformation sample_client ;;; clientInformation)
                      (empty_world override_provider)))
     = [WriteFile (js "test-hash", js "client_info.json")]
  /\ files (snd ((saveClientInformation sample_client ;;; clientInformation)
                   (empty_world override_provider)))
       !! (js "test-hash", js "client_info.json")
     = Some (ClientInfoJson sample_client).
Proof.
  split; [reflexivity|]. split; [reflexivity|]. split; [reflexivity|].
  unfold saveClientInformation, clientInformation, bind, self, assign_clientInfo,
    writeJsonFile, modify, ret; simpl.
  apply lookup_insert_eq.
Qed.

(** C6, amended: without a static override, [saveClientInformation X]
    followed by [clientInformation()] returns [X], for every [X]; with a
    static override, [clientInformation()] always returns the override and
    itself reads and writes no persisted file (also right after a save, which
    still writes the registration file). *)
Theorem client_information_roundtrip_or_override :
  (forall (w : World) (X : OAuthClientInformationFull),
     staticOAuthClientInfo (this w) = None ->
     fst ((saveClientInformation X ;;; clientInformation) w) = Returns (Some X))
  /\ (forall (w : World) (O : OAuthClientInformationFull),
        staticOAuthClientInfo (this w) = Some O ->
        fst (clientInformation w) = Returns (Some O)
        /\ files (snd (clientInformation w)) = files w
        /\ accesses (snd (clientInformation w)) = accesses w)
  /\ (forall (w : World) (O X : OAuthClientInformationFull),
        staticOAuthClientInfo (this w) = Some O ->
        fst ((saveClientInformation X ;;; clientInformation) w) = Returns (Some O)).
Proof.
  split; [|split].
  - intros w X H. rewrite (save_then_read w X H). reflexivity.
  - intros w O H. rewrite (read_with_override w O H). auto.
  - intros w O X H.
    unfold saveClientInformation, bind, self, assign_clientInfo, writeJsonFile,
      modify; simpl.
    rewrite (read_with_override _ O); [reflexivity | exact H].
Qed.

Lemma client_information_roundtrip_or_override_witness :
  (staticOAuthClientInfo (this (empty_world plain_provider)) = None
   /\ fst ((saveClientInformation sample_client ;;; clientInformation)
             (empty_world plain_provider)) = Returns (Some sample_client))
  /\ (staticOAuthClientInfo (this (empty_world override_provider)) = Some static_client
      /\ fst (clientInformation (empty_world override_provider)) = Returns (Some static_client)
      /\ accesses (snd (clientInformation (empty_world override_provider))) = []).
Proof.
  split.
  - split; [reflexivity|].
    apply (proj1 client_information_roundtrip_or_override
             (empty_world plain_provider) sample_client).
    reflexivity.
  - split; [reflexivity|].
    destruct (proj1 (proj2 client_information_roundtrip_or_override)
                (empty_world override_provider) static_client eq_refl)
      as (Hret & _ & Hacc).
    split; [exact Hret | exact Hacc].
Defined.

(** What [invalidateCredentials] does for each of the four known arguments. *)
Lemma invalidateCredentials_known (w : World) (scope : jsstring) :
  scope ∈ known_scopes ->
  invalidateCredentials scope w
  = (Returns tt,
     {| this := if bool_decide (scope = js "all") || bool_decide (scope = js "client")
                then set_clientInfo None (this w) else this w;
        files := foldl (fun m name => delete (serverUrlHash (this w), name) m)
                   (files w) (named_files scope);
        accesses := accesses w
                    ++ ((fun name => DeleteFile (serverUrlHash (this w), name))
                          <$> named_files scope) |}).
Proof.
  intros Hin. unfold known_scopes in Hin.
  destruct w as [p fs acc].
  repeat (apply elem_of_cons in Hin as [-> | Hin]);
    [ | | | | by apply elem_of_nil in Hin ];
    unfold invalidateCredentials, promise_all3, bind, self, deleteConfigFile,
      assign_clientInfo, modify, named_files; simpl;
    rewrite <- ?app_assoc; reflexivity.
Qed.

Lemma lookup_foldl_delete (fs : gmap path blob) (hash : jsstring) (names : list jsstring)
    (k : path) :
  foldl (fun m name => delete (hash, name) m) fs names !! k
  = if bool_decide (k.1 = hash /\ k.2 ∈ names) then None else fs !! k.
Proof.
  revert fs. induction names as [|n names IH]; intros fs; simpl.
  - rewrite bool_decide_eq_false_2; [reflexivity|].
    intros [_ H]. by apply elem_of_nil in H.
  - rewrite IH. destruct k as [h nm]; simpl.
    destruct (bool_decide (h = hash /\ nm ∈ names)) eqn:E.
    + apply bool_decide_eq_true in E as [-> E].
      rewrite bool_decide_eq_true_2; [reflexivity|]. split; [done|]. by right.
    + apply bool_decide_eq_false in E.
      destruct (decide ((hash, n) = (h, nm))) as [Heq|Hne].
      * injection Heq as <- <-. rewrite lookup_delete_eq.
        rewrite bool_decide_eq_true_2; [reflexivity|]. split; [done|]. by left.
      * rewrite lookup_delete_ne by done.
        rewrite bool_decide_eq_false_2; [reflexivity|].
        intros [-> [->|Hin]%elem_of_cons]; [by apply Hne | by apply E].
Qed.

(** C7: for each of the four known arguments [invalidateCredentials] returns
    normally, deletes exactly the files its argument names (['client'] the
    registration file, ['tokens'] the token file, ['verifier'] the verifier
    file, ['all'] the three of them) and leaves every other file as it was;
    after [invalidateCredentials('client')], with no other scope source
    configured, the scope of [clientMetadata] is the default whatever
    registration scope was cached; any other argument throws at once, the
    world untouched. *)
Theorem invalidateCredentials_deletes_exactly_named :
  (forall (w : World) (scope : jsstring),
     scope ∈ known_scopes ->
     fst (invalidateCredentials scope w) = Returns tt
     /\ (forall k : path,
           files (snd (invalidateCredentials scope w)) !! k
           = if bool_decide (k.1 = serverUrlHash (this w) /\ k.2 ∈ named_files scope)
             then None else files w !! k)
     /\ accesses (snd (invalidateCredentials scope w))
        = accesses w ++ ((fun name => DeleteFile (serverUrlHash (this w), name))
                           <$> named_files scope))
  /\ (named_files (js "client") = [js "client_info.json"]
      /\ named_files (js "tokens") = [js "tokens.json"]
      /\ named_files (js "verifier") = [js "code_verifier.txt"]
      /\ named_files (js "all")
         = [js "client_info.json"; js "tokens.json"; js "code_verifier.txt"])
  /\ (forall w : World,
        only_registration_scope (this w) ->
        clientMetadata (this (snd (invalidateCredentials (js "client") w))) !! "scope"
        = Some (VString (js "openid email profile")))
  /\ (forall (w : World) (scope : jsstring),
        scope ∉ known_scopes ->
        invalidateCredentials scope w
        = (Throws (mkError (js "Unknown credential scope: " ++ scope)), w)).
Proof.
  split; [|split; [|split]].
  - intros w scope Hin. rewrite (invalidateCredentials_known w scope Hin); simpl.
    split; [reflexivity|]. split; [|reflexivity].
    intros k. apply lookup_foldl_delete.
  - repeat split; reflexivity.
  - intros w (H1 & H2 & H3 & H5).
    rewrite invalidateCredentials_known by (unfold known_scopes; set_solver).
    simpl. rewrite ScopeFacts.clientMetadata_scope, ScopeFacts.getEffectiveScope_tiers.
    unfold first_guarded_tier, guarded_tiers; simpl.
    rewrite H1, H2, H3, H5. reflexivity.
  - intros w scope Hnot. unfold known_scopes in Hnot.
    unfold invalidateCredentials, bind, self, throw; simpl.
    rewrite !bool_decide_eq_false_2; [reflexivity | | | |];
      intros ->; apply Hnot; set_solver.
Qed.

Lemma invalidateCredentials_deletes_exactly_named_witness :
  (js "client" ∈ known_scopes
   /\ fst (invalidateCredentials (js "client") registered_world) = Returns tt
   /\ accesses (snd (invalidateCredentials (js "client") registered_world))
      = [DeleteFile (js "test-hash", js "client_info.json")])
  /\ (only_registration_scope (this registered_world)
      /\ clientMetadata (this registered_world) !! "scope"
         = Some (VString (js "extracted custom scopes"))
      /\ clientMetadata (this (snd (invalidateCredentials (js "client") registered_world)))
           !! "scope" = Some (VString (js "openid email profile")))
  /\ ((js "everything" ∉ known_scopes)
      /\ invalidateCredentials (js "everything") registered_world
         = (Throws (mkError (js "Unknown credential scope: everything")), registered_world)).
Proof.
  assert (Hin : js "client" ∈ known_scopes) by (unfold known_scopes; set_solver).
  assert (Honly : only_registration_scope (this registered_world))
    by (repeat split; reflexivity).
  assert (Hout : js "everything" ∉ known_scopes).
  { unfold known_scopes. intros H.
    repeat (apply elem_of_cons in H as [H|H]; [discriminate H|]).
    by apply elem_of_nil in H. }
  split; [|split].
  - split; [exact Hin|].
    destruct (proj1 invalidateCredentials_deletes_exactly_named
                registered_world (js "client") Hin) as (Hret & _ & Hacc).
    split; [exact Hret | exact Hacc].
  - split; [exact Honly|]. split; [apply ScopeFacts.clientMetadata_scope|].
    exact (proj1 (proj2 (proj2 invalidateCredentials_deletes_exactly_named))
             registered_world Honly).
  - split; [exact Hout|].
    exact (proj2 (proj2 (proj2 invalidateCredentials_deletes_exactly_named))
             registered_world (js "everything") Hout).
Defined.

End CredentialFacts.

(** ** Equations of the primitive effects *)

Module Steps.

Import Coordination CoordinationSpec.

Local Open Scope Z_scope.

Lemma fetch_eq (env : Env) (url : jsstring) (sg : signal) (s : State) :
  fetch env url sg s
  = let x := network env (requests s) url in
    match abort_limit sg with
    | Some limit =>
        if limit <=? Z.of_N (latency x)
        then (Throws (abort_error sg), tick limit (requested url s))
        else (settled x, tick (Z.of_N (latency x)) (requested url s))
    | None => (settled x, tick (Z.of_N (latency x)) (requested url s))
    end.
Proof.
  unfold fetch, next_request, bind, modify, throw, ret, settled; cbn beta iota zeta.
  destruct (abort_limit sg) as [limit|].
  - destruct (limit <=? _); [reflexivity|].
    destruct (answer _); reflexivity.
  - destruct (answer _); reflexivity.
Qed.

Lemma sleep_eq (env : Env) (ms : Z) (s : State) :
  sleep env ms s = (Returns tt, slept env ms s).
Proof. reflexivity. Qed.

Lemma isPidRunning_eq (env : Env) (p : Z) (s : State) :
  isPidRunning env p s = (Returns (signal_delivered env p), record (Kill p 0) s).
Proof.
  unfold isPidRunning, process_kill, try_catch, bind, modify, throw, ret; cbn beta iota.
  destruct (signal_delivered env p); reflexivity.
Qed.

(** One [bind] step, when the first computation is known. *)
Lemma bind_eq {St A B} (m : M St A) (k : A -> M St B) (s : St) (r : result A) (s' : St) :
  m s = (r, s') ->
  bind m k s = match r with
               | Returns a => k a s'
               | Throws e => (Throws e, s')
               | NeverSettles => (NeverSettles, s')
               | OutOfFuel => (OutOfFuel, s')
               end.
Proof. intros E. unfold bind. rewrite E. reflexivity. Qed.

Lemma try_catch_eq {St A} (m : M St A) (h : Error -> M St A) (s : St) (r : result A) (s' : St) :
  m s = (r, s') ->
  try_catch m h s = match r with
                    | Throws e => h e s'
                    | _ => (r, s')
                    end.
Proof. intros E. unfold try_catch. rewrite E. destruct r; reflexivity. Qed.

Lemma clock_requested url s : clock (requested url s) = clock s.
Proof. reflexivity. Qed.

Lemma clock_tick d s : clock (tick d s) = clock s + d.
Proof. reflexivity. Qed.

Lemma slept_monotone (env : Env) (ms : Z) (s : State) :
  clock s <= clock (slept env ms s).
Proof. unfold slept; cbn [clock]. lia. Qed.

Lemma setTimeout_delay_positive (ms : Z) : 1 <= setTimeout_delay ms.
Proof.
  unfold setTimeout_delay.
  destruct ((ms <? 1) || (2147483647 <? ms)) eqn:E; [lia|].
  apply orb_false_iff in E as [E _]. apply Z.ltb_ge in E. lia.
Qed.

End Steps.

(** ** Lock validity *)

Module LockFacts.

Import Coordination CoordinationSpec CoordinationSamples Steps.

Local Open Scope Z_scope.

(** [isLockValid], step by step. *)
Lemma isLockValid_eq (env : Env) (l : LockfileData) (s : State) :
  isLockValid env l s
  = if 1800000 <? clock s - timestamp l then (Returns false, s)
    else if signal_delivered env (pid l) then
      let s1 := requested (probe_url (port l)) (record (Kill (pid l) 0) s) in
      if 1000 <=? Z.of_N (latency (probe_exchange env s l))
      then (Returns false, tick 1000 s1)
      else (Returns (probe_status_ok (probe_exchange env s l)),
            tick (Z.of_N (latency (probe_exchange env s l))) s1)
    else (Returns false, record (Kill (pid l) 0) s).
Proof.
  unfold isLockValid.
  rewrite (bind_eq Date_now _ s _ _ eq_refl).
  change MAX_LOCK_AGE with 1800000.
  destruct (1800000 <? clock s - timestamp l); [reflexivity|].
  rewrite (bind_eq _ _ _ _ _ (isPidRunning_eq env (pid l) s)).
  destruct (signal_delivered env (pid l)); [|reflexivity].
  cbn [negb].
  unfold try_catch, bind. rewrite fetch_eq.
  cbn [abort_limit]. change (setTimeout_delay 1000) with 1000.
  change (network env (requests (record (Kill (pid l) 0) s)) (probe_url (port l)))
    with (probe_exchange env s l).
  cbn zeta.
  destruct (1000 <=? Z.of_N (latency (probe_exchange env s l))); [reflexivity|].
  unfold settled, probe_status_ok.
  destruct (answer (probe_exchange env s l)); reflexivity.
Qed.

Lemma probe_status_ok_true (x : exchange) :
  probe_status_ok x = true
  <-> exists r, answer x = Responds r /\ (status r = 200 \/ status r = 202).
Proof.
  unfold probe_status_ok. destruct (answer x) as [r|].
  - rewrite orb_true_iff, !Z.eqb_eq. split.
    + intros H. exists r. auto.
    + intros (r' & [= <-] & H). exact H.
  - split; [discriminate | intros (r & [=] & _)].
Qed.

Lemma isLockValid_valid (env : Env) (l : LockfileData) (s : State) :
  valid_lock env s l ->
  isLockValid env l s
  = (Returns true,
     tick (Z.of_N (latency (probe_exchange env s l)))
       (requested (probe_url (port l)) (record (Kill (pid l) 0) s))).
Proof.
  intros (Hage & Halive & r & Hr & Hst & Hlat).
  unfold fresh_enough in Hage. unfold owner_alive in Halive.
  rewrite isLockValid_eq.
  destruct (Z.ltb_spec0 1800000 (clock s - timestamp l)); [lia|].
  rewrite Halive. cbn zeta.
  destruct (Z.leb_spec0 1000 (Z.of_N (latency (probe_exchange env s l)))); [lia|].
  replace (probe_status_ok (probe_exchange env s l)) with true; [reflexivity|].
  symmetry. apply probe_status_ok_true. eauto.
Qed.

Lemma isLockValid_true_inv (env : Env) (l : LockfileData) (s : State) :
  fst (isLockValid env l s) = Returns true -> valid_lock env s l.
Proof.
  rewrite isLockValid_eq.
  unfold valid_lock, fresh_enough, owner_alive, probe_answers.
  destruct (Z.ltb_spec0 1800000 (clock s - timestamp l)); [discriminate|].
  destruct (signal_delivered env (pid l)); [|discriminate].
  cbn zeta.
  destruct (Z.leb_spec0 1000 (Z.of_N (latency (probe_exchange env s l)))); [discriminate|].
  cbn [fst]. intros [= H]. apply probe_status_ok_true in H as (r & Hr & Hst).
  split; [lia|]. split; [reflexivity|]. exists r. split; [exact Hr|]. split; [exact Hst | lia].
Qed.

Lemma isLockValid_total (env : Env) (l : LockfileData) (s : State) :
  exists b, fst (isLockValid env l s) = Returns b.
Proof.
  rewrite isLockValid_eq.
  destruct (1800000 <? _); [eauto|].
  destruct (signal_delivered env (pid l)); [|eauto].
  cbn zeta. destruct (1000 <=? _); eauto.
Qed.

(** C2: [isLockValid] always returns, and it returns [true] exactly when the
    three checks pass: the record is at most 30 minutes (1 800 000 ms) old,
    the signal-existence check on the owning process succeeds, and the GET
    probe of [http://127.0.0.1:{port}/wait-for-auth?poll=false] is answered
    with status 200 or 202 within one second. The checks run in that order:
    a record older than 30 minutes is invalid with no liveness check and no
    probe made, whatever they would have said; a dead owner is invalid with
    no probe made; otherwise the probe is the only request. *)
Theorem isLockValid_iff_three_checks (env : Env) (l : LockfileData) (s : State) :
  (exists b, fst (isLockValid env l s) = Returns b /\ (b = true <-> valid_lock env s l))
  /\ (1800000 < clock s - timestamp l ->
      isLockValid env l s = (Returns false, s))
  /\ (clock s - timestamp l <= 1800000 -> signal_delivered env (pid l) = false ->
      isLockValid env l s = (Returns false, record (Kill (pid l) 0) s))
  /\ (clock s - timestamp l <= 1800000 -> signal_delivered env (pid l) = true ->
      trace (snd (isLockValid env l s))
      = trace s ++ [Kill (pid l) 0;
                    Fetch (js "http://127.0.0.1:" ++ show_Z (port l)
                             ++ js "/wait-for-auth?poll=false")]).
Proof.
  split; [|split; [|split]].
  - destruct (isLockValid_total env l s) as (b & E).
    exists b. split; [exact E|]. split.
    + intros ->. apply isLockValid_true_inv. exact E.
    + intros Hv. rewrite (isLockValid_valid env l s Hv) in E. cbn in E. congruence.
  - intros H. rewrite isLockValid_eq.
    destruct (Z.ltb_spec0 1800000 (clock s - timestamp l)); [reflexivity | lia].
  - intros Hage Hdead. rewrite isLockValid_eq.
    destruct (Z.ltb_spec0 1800000 (clock s - timestamp l)); [lia|].
    rewrite Hdead. reflexivity.
  - intros Hage Halive. rewrite isLockValid_eq.
    destruct (Z.ltb_spec0 1800000 (clock s - timestamp l)); [lia|].
    rewrite Halive. cbn zeta.
    destruct (1000 <=? _); cbn [snd tick requested record trace];
      rewrite <- app_assoc; reflexivity.
Qed.

Lemma isLockValid_iff_three_checks_witness :
  (valid_lock (sample_env (js "linux") (always 202 [])) locked_state sample_lock
   /\ fst (isLockValid (sample_env (js "linux") (always 202 [])) sample_lock locked_state)
      = Returns true
   /\ trace (snd (isLockValid (sample_env (js "linux") (always 202 [])) sample_lock locked_state))
      = [Kill 777 0; Fetch (js "http://127.0.0.1:3334/wait-for-auth?poll=false")])
  /\ (1800000 < clock locked_state - timestamp stale_lock
      /\ isLockValid (sample_env (js "linux") (always 202 [])) stale_lock locked_state
         = (Returns false, locked_state)).
Proof.
  assert (Hv : valid_lock (sample_env (js "linux") (always 202 [])) locked_state sample_lock).
  { split; [unfold fresh_enough; simpl; lia|]. split; [reflexivity|].
    eexists. split; [reflexivity|]. split; [right; reflexivity | simpl; lia]. }
  assert (Hold : 1800000 < clock locked_state - timestamp stale_lock) by (simpl; lia).
  pose proof (isLockValid_iff_three_checks
                (sample_env (js "linux") (always 202 [])) sample_lock locked_state)
    as ((b & Hb & Hiff) & _ & _ & Htrace).
  pose proof (isLockValid_iff_three_checks
                (sample_env (js "linux") (always 202 [])) stale_lock locked_state)
    as (_ & Hstale & _).
  split.
  - split; [exact Hv|]. split.
    + rewrite Hb. f_equal. apply Hiff. exact Hv.
    + apply Htrace; [simpl; lia | reflexivity].
  - split; [exact Hold | exact (Hstale Hold)].
Defined.

End LockFacts.

(** ** Bridge polling *)

Module BridgeFacts.

Import Coordination CoordinationSpec CoordinationSamples Steps.

Local Open Scope Z_scope.

Lemma timeout_error_not_expired :
  bool_decide (message (abort_error (AbortSignal_timeout 10000)) = expired) = false.
Proof. vm_compute. reflexivity. Qed.

Lemma fetch_failed_not_expired :
  bool_decide (message (mkError (js "fetch failed")) = expired) = false.
Proof. vm_compute. reflexivity. Qed.

Lemma terminated_not_expired :
  bool_decide (message (mkError (js "terminated")) = expired) = false.
Proof. vm_compute. reflexivity. Qed.

Lemma expired_is_expired :
  bool_decide (message (mkError expired) = expired) = true.
Proof. apply bool_decide_eq_true_2. reflexivity. Qed.

(** One round of the loop, as an equation. *)
Lemma pollBridge_eq (env : Env) (url : jsstring) (s : State) :
  pollBridge env url s
  = (poll_verdict env (network env (requests s) url),
     tick (poll_duration (network env (requests s) url)) (requested url s)).
Proof.
  unfold pollBridge, try_catch, bind. rewrite fetch_eq.
  unfold poll_verdict, poll_duration. cbn [abort_limit]. cbn zeta.
  destruct (10000 <=? Z.of_N (latency (network env (requests s) url))).
  { rewrite timeout_error_not_expired. reflexivity. }
  unfold settled.
  destruct (answer (network env (requests s) url)) as [r|].
  2:{ rewrite fetch_failed_not_expired. reflexivity. }
  destruct (status r =? 200).
  { unfold response_text. destruct (body r) as [t|].
    - unfold ret. destruct (truthy (extractAuthCode env t)); reflexivity.
    - unfold throw. rewrite terminated_not_expired. reflexivity. }
  destruct ((status r =? 202) || (status r =? 204) || (status r =? 404)); [reflexivity|].
  destruct (status r =? 410); [|reflexivity].
  unfold throw. rewrite expired_is_expired. reflexivity.
Qed.

Lemma keeps_polling_verdict (env : Env) (x : exchange) :
  keeps_polling env x = true -> poll_verdict env x = Returns None.
Proof.
  unfold keeps_polling, poll_verdict.
  destruct (10000 <=? Z.of_N (latency x)); [reflexivity|]. cbn [orb].
  destruct (answer x) as [r|]; [|reflexivity].
  destruct (status r =? 200).
  - destruct (body r) as [t|]; [|reflexivity].
    destruct (truthy (extractAuthCode env t)); [discriminate | reflexivity].
  - destruct ((status r =? 202) || (status r =? 204) || (status r =? 404)); [reflexivity|].
    destruct (status r =? 410); [discriminate | reflexivity].
Qed.

Lemma poll_duration_nonneg (x : exchange) : 0 <= poll_duration x.
Proof. unfold poll_duration. destruct (10000 <=? _); lia. Qed.

(** The loop, one round unfolded. *)
Lemma loop_round (env : Env) (fuel : nat) (url : jsstring) (interval timeout start : Z)
    (s : State) :
  waitForBridgeAuthCode_loop env (S fuel) url interval timeout start s
  = if clock s - start <? timeout then
      let s1 := tick (poll_duration (network env (requests s) url)) (requested url s) in
      match poll_verdict env (network env (requests s) url) with
      | Returns (Some code) => (Returns code, s1)
      | Returns None =>
          waitForBridgeAuthCode_loop env fuel url interval timeout start
            (slept env interval s1)
      | Throws e => (Throws e, s1)
      | NeverSettles => (NeverSettles, s1)
      | OutOfFuel => (OutOfFuel, s1)
      end
    else (Throws (timed_out timeout), s).
Proof.
  cbn [waitForBridgeAuthCode_loop].
  rewrite (bind_eq Date_now _ s _ _ eq_refl).
  destruct (clock s - start <? timeout); [|reflexivity].
  rewrite (bind_eq _ _ _ _ _ (pollBridge_eq env url s)). cbn zeta.
  destruct (poll_verdict env (network env (requests s) url)) as [[code|]| | |];
    try reflexivity.
Qed.

(** The classes of answers the specification lists all keep the loop
    polling. *)
Lemma keep_polling_classes (env : Env) (x : exchange) (r : Response) :
  (answer x = Unreachable -> keeps_polling env x = true)
  /\ (answer x = Responds r -> status r = 202 \/ status r = 204 \/ status r = 404 ->
      keeps_polling env x = true)
  /\ (answer x = Responds r -> status r <> 200 -> status r <> 410 ->
      keeps_polling env x = true)
  /\ (answer x = Responds r -> status r = 200 -> body r = None ->
      keeps_polling env x = true)
  /\ (forall t, answer x = Responds r -> status r = 200 -> body r = Some t ->
        trim t = [] \/ JSON_parse env (trim t) = None ->
        keeps_polling env x = true)
  /\ (forall t parsed, answer x = Responds r -> status r = 200 -> body r = Some t ->
        JSON_parse env (trim t) = Some parsed ->
        absent_or_empty (field_of parsed (js "code")) ->
        absent_or_empty (field_of parsed (js "authorization_code")) ->
        keeps_polling env x = true).
Proof.
  unfold keeps_polling.
  repeat split.
  - intros ->. apply orb_true_r.
  - intros -> Hst. apply orb_true_iff. right.
    destruct Hst as [-> | [-> | ->]]; reflexivity.
  - intros -> H1 H2. apply orb_true_iff. right.
    destruct (Z.eqb_spec (status r) 200); [contradiction|].
    destruct (Z.eqb_spec (status r) 410); [contradiction | reflexivity].
  - intros -> -> ->. apply orb_true_r.
  - intros t -> -> -> H. apply orb_true_iff. right. cbn.
    unfold extractAuthCode. destruct H as [-> | ->]; [reflexivity|].
    destruct (truthy_string (trim t)); reflexivity.
  - intros t parsed -> -> -> Hp Hc Ha. apply orb_true_iff. right. cbn.
    unfold extractAuthCode. destruct (truthy_string (trim t)); [|reflexivity].
    cbn [negb]. rewrite Hp.
    destruct parsed; cbn in *;
      destruct Hc as [Hc|Hc], Ha as [Ha|Ha]; try discriminate;
      try rewrite Hc; try rewrite Ha; reflexivity.
Qed.

Lemma after_rounds_counts (env : Env) (url : jsstring) (interval : Z) (k : nat) :
  forall s,
    requests (after_rounds env url interval k s) = (requests s + k)%nat
    /\ timers (after_rounds env url interval k s) = (timers s + k)%nat.
Proof.
  induction k as [|k IH]; intros s; cbn [after_rounds]; [lia|].
  destruct (IH (after_round env url interval s)) as [-> ->].
  cbn [after_round slept tick requested requests timers]. lia.
Qed.

(** In an environment where no timer is seen to fire early, every round
    takes at least a millisecond, so the clock reaches any deadline. *)
Lemma rounds_take_time (env : Env) (url : jsstring) (interval : Z) :
  (forall i, 0 <= timer_lag env i) ->
  forall (k : nat) (s : State),
    clock s + Z.of_nat k <= clock (after_rounds env url interval k s).
Proof.
  intros Hlag k. induction k as [|k IH]; intros s; cbn [after_rounds]; [lia|].
  specialize (IH (after_round env url interval s)).
  pose proof (poll_duration_nonneg (network env (requests s) url)) as Hdur.
  pose proof (setTimeout_delay_positive interval) as Hd.
  pose proof (Hlag (timers s)) as Hl.
  assert (Hstep : clock s + 1 <= clock (after_round env url interval s)).
  { cbn [after_round slept tick requested clock timers]. lia. }
  lia.
Qed.

(** With every answer in the keep-polling class, the loop ends at the first
    round boundary at which the clock has reached the deadline: if that
    happens within [k] rounds, fuel for [k + 1] checks is enough. *)
Lemma loop_times_out (env : Env) (url : jsstring) (interval timeout start : Z) :
  (forall n, keeps_polling env (network env n url) = true) ->
  forall (k fuel : nat) (s : State),
    (k < fuel)%nat ->
    timeout <= clock (after_rounds env url interval k s) - start ->
    exists j,
      (j <= k)%nat
      /\ waitForBridgeAuthCode_loop env fuel url interval timeout start s
         = (Throws (timed_out timeout), after_rounds env url interval j s)
      /\ timeout <= clock (after_rounds env url interval j s) - start
      /\ (forall i, (i < j)%nat ->
            clock (after_rounds env url interval i s) - start < timeout).
Proof.
  intros Hkeep k. induction k as [|k IH]; intros fuel s Hfuel Hreach.
  - destruct fuel as [|fuel]; [lia|]. rewrite loop_round. cbn [after_rounds] in Hreach.
    destruct (Z.ltb_spec0 (clock s - start) timeout) as [Hlt|Hge]; [lia|].
    exists 0%nat. cbn [after_rounds]. repeat split; [lia | lia |].
    intros i Hi. lia.
  - destruct fuel as [|fuel]; [lia|]. rewrite loop_round.
    destruct (Z.ltb_spec0 (clock s - start) timeout) as [Hlt|Hge].
    + rewrite (keeps_polling_verdict _ _ (Hkeep (requests s))). cbn zeta.
      change (slept env interval
                (tick (poll_duration (network env (requests s) url)) (requested url s)))
        with (after_round env url interval s).
      cbn [after_rounds] in Hreach.
      destruct (IH fuel (after_round env url interval s) ltac:(lia) Hreach)
        as (j & Hj & E & Hel & Hbefore).
      exists (S j). cbn [after_rounds]. split; [lia|]. split; [exact E|].
      split; [exact Hel|].
      intros [|i] Hi; cbn [after_rounds]; [exact Hlt|]. apply Hbefore. lia.
    + exists 0%nat. cbn [after_rounds]. repeat split; [lia | lia |].
      intros i Hi. lia.
Qed.

(** C5: if every answer of the bridge is in the keep-polling class (a
    pending status 202/204/404, a 200 whose body is empty, not JSON or without
    a code, an unexpected status, a failed or timed-out request), then for
    every overall timeout, in particular every positive one, the poll loop
    terminates once the elapsed time has reached the timeout: if the clock
    reaches the deadline within [k] rounds of request and wait, then with
    fuel for [k + 1] checks the call throws the timeout error, whose message
    reports [floor(timeoutMs / 1000)] seconds. It does so at the first round
    boundary [j <= k] at which the elapsed time is no longer below the
    timeout, after exactly [j] requests and [j] waits. How far the clock
    moves across a wait is up to the environment, so the number of rounds is
    not bounded by the timeout alone. *)
Theorem bridge_polling_times_out (env : Env) (url : jsstring) (interval timeout : Z)
    (s : State) (fuel k : nat) :
  (forall n, keeps_polling env (network env n url) = true) ->
  timeout <= clock (after_rounds env url interval k s) - clock s ->
  (k < fuel)%nat ->
  exists j,
    (j <= k)%nat
    /\ waitForBridgeAuthCode env fuel url interval timeout s
       = (Throws (mkError (js "Timed out waiting for auth code from bridge after "
                             ++ show_Z (timeout / 1000) ++ js " seconds.")),
          after_rounds env url interval j s)
    /\ timeout <= clock (after_rounds env url interval j s) - clock s
    /\ (forall i, (i < j)%nat ->
          clock (after_rounds env url interval i s) - clock s < timeout)
    /\ requests (after_rounds env url interval j s) = (requests s + j)%nat
    /\ timers (after_rounds env url interval j s) = (timers s + j)%nat
    /\ 1000 * (timeout / 1000) <= timeout < 1000 * (timeout / 1000) + 1000.
Proof.
  intros Hkeep Hreach Hfuel.
  unfold waitForBridgeAuthCode. rewrite (bind_eq Date_now _ s _ _ eq_refl).
  destruct (loop_times_out env url interval timeout (clock s) Hkeep k fuel s Hfuel Hreach)
    as (j & Hj & E & Hel & Hbefore).
  exists j. split; [exact Hj|]. split; [exact E|]. split; [exact Hel|].
  split; [exact Hbefore|].
  destruct (after_rounds_counts env url interval j s) as [Hq Ht].
  split; [exact Hq|]. split; [exact Ht|].
  pose proof (Z.mul_div_le timeout 1000 ltac:(lia)).
  pose proof (Z.mul_succ_div_gt timeout 1000 ltac:(lia)). lia.
Qed.

Lemma bridge_polling_times_out_witness :
  (forall n, keeps_polling (sample_env (js "linux") (always 202 []))
               (network (sample_env (js "linux") (always 202 [])) n
                  (js "https://bridge.example.com/poll")) = true)
  /\ exists s',
       waitForBridgeAuthCode (sample_env (js "linux") (always 202 [])) 11
         (js "https://bridge.example.com/poll") 1 10 start_state
       = (Throws (mkError (js "Timed out waiting for auth code from bridge after 0 seconds.")),
          s')
       /\ 10 <= clock s' - clock start_state.
Proof.
  assert (Hkeep : forall n, keeps_polling (sample_env (js "linux") (always 202 []))
               (network (sample_env (js "linux") (always 202 [])) n
                  (js "https://bridge.example.com/poll")) = true)
    by (intros n; reflexivity).
  split; [exact Hkeep|].
  destruct (bridge_polling_times_out (sample_env (js "linux") (always 202 []))
              (js "https://bridge.example.com/poll") 1 10 start_state 11 10 Hkeep
              ltac:(vm_compute; discriminate) ltac:(lia)) as (j & _ & E & Hel & _).
  exists (after_rounds (sample_env (js "linux") (always 202 []))
            (js "https://bridge.example.com/poll") 1 j start_state).
  split; [exact E | exact Hel].
Defined.

(** The first round when the loop is entered and the bridge answers at
    once. *)
Lemma first_round (env : Env) (fuel : nat) (url : jsstring) (interval timeout : Z)
    (s : State) :
  0 < timeout ->
  waitForBridgeAuthCode env (S fuel) url interval timeout s
  = let s1 := tick (poll_duration (network env (requests s) url)) (requested url s) in
    match poll_verdict env (network env (requests s) url) with
    | Returns (Some code) => (Returns code, s1)
    | Returns None =>
        waitForBridgeAuthCode_loop env fuel url interval timeout (clock s)
          (slept env interval s1)
    | Throws e => (Throws e, s1)
    | NeverSettles => (NeverSettles, s1)
    | OutOfFuel => (OutOfFuel, s1)
    end.
Proof.
  intros Hpos. unfold waitForBridgeAuthCode.
  rewrite (bind_eq Date_now _ s _ _ eq_refl). rewrite loop_round.
  destruct (Z.ltb_spec0 (clock s - clock s) timeout); [reflexivity | lia].
Qed.

(** A first poll is issued exactly when the timeout is positive (and the
    model has fuel for a round). *)
Lemma first_poll_issued (env : Env) (fuel : nat) (url : jsstring) (interval timeout : Z)
    (s : State) :
  (requests s < requests (snd (waitForBridgeAuthCode env fuel url interval timeout s)))%nat ->
  0 < timeout /\ exists fuel', fuel = S fuel'.
Proof.
  unfold waitForBridgeAuthCode. rewrite (bind_eq Date_now _ s _ _ eq_refl).
  destruct fuel as [|fuel']; [cbn; lia|].
  rewrite loop_round.
  destruct (Z.ltb_spec0 (clock s - clock s) timeout); [|cbn; lia].
  intros _. split; [lia | eauto].
Qed.

Lemma loop_requests_monotone (env : Env) (url : jsstring) (interval timeout start : Z) :
  forall (fuel : nat) (s : State),
    (requests s
     <= requests (snd (waitForBridgeAuthCode_loop env fuel url interval timeout start s)))%nat.
Proof.
  induction fuel as [|fuel IH]; intros s; [cbn; lia|].
  rewrite loop_round.
  destruct (clock s - start <? timeout); [|cbn; lia]. cbn zeta.
  destruct (poll_verdict env (network env (requests s) url)) as [[code|]| | |];
    try (cbn; lia).
  etransitivity; [|apply IH]. cbn. lia.
Qed.

(** Conversely, with a positive timeout the first poll is always issued. *)
Lemma first_poll_is_issued (env : Env) (fuel : nat) (url : jsstring) (interval timeout : Z)
    (s : State) :
  0 < timeout ->
  (requests s
   < requests (snd (waitForBridgeAuthCode env (S fuel) url interval timeout s)))%nat.
Proof.
  intros Hpos. rewrite (first_round env fuel url interval timeout s Hpos). cbn zeta.
  destruct (poll_verdict env (network env (requests s) url)) as [[code|]| | |];
    try (cbn; lia).
  eapply Nat.lt_le_trans; [|apply loop_requests_monotone]. cbn. lia.
Qed.

(** C4: for every overall timeout and poll interval, if a first poll of the
    bridge is issued and it is answered (within the 10 s allowed to a
    request) with status 410, [waitForBridgeAuthCode] fails at once with the
    message ["Auth bridge session expired"]: that poll is the only request,
    no wait follows it, and the call ends when the answer arrives. *)
Theorem bridge_410_fails_at_once (env : Env) (fuel : nat) (url : jsstring)
    (interval timeout : Z) (s : State) (r : Response) :
  (requests s < requests (snd (waitForBridgeAuthCode env fuel url interval timeout s)))%nat ->
  answer (network env (requests s) url) = Responds r ->
  Z.of_N (latency (network env (requests s) url)) < 10000 ->
  status r = 410 ->
  fst (waitForBridgeAuthCode env fuel url interval timeout s)
  = Throws (mkError (js "Auth bridge session expired"))
  /\ requests (snd (waitForBridgeAuthCode env fuel url interval timeout s)) = S (requests s)
  /\ trace (snd (waitForBridgeAuthCode env fuel url interval timeout s))
     = trace s ++ [Fetch url]
  /\ timers (snd (waitForBridgeAuthCode env fuel url interval timeout s)) = timers s
  /\ clock (snd (waitForBridgeAuthCode env fuel url interval timeout s))
     = clock s + Z.of_N (latency (network env (requests s) url)).
Proof.
  intros Hissued Hr Hlat Hst.
  destruct (first_poll_issued env fuel url interval timeout s Hissued) as (Hpos & fuel' & ->).
  rewrite (first_round env fuel' url interval timeout s Hpos).
  unfold poll_verdict, poll_duration. cbn zeta.
  destruct (Z.leb_spec0 10000 (Z.of_N (latency (network env (requests s) url)))); [lia|].
  rewrite Hr, Hst. cbn. auto.
Qed.

Lemma bridge_410_fails_at_once_witness :
  fst (waitForBridgeAuthCode (sample_env (js "linux") (always 410 [])) 5
         (js "https://bridge.example.com/poll") 1 40 start_state)
  = Throws (mkError (js "Auth bridge session expired"))
  /\ requests (snd (waitForBridgeAuthCode (sample_env (js "linux") (always 410 [])) 5
                      (js "https://bridge.example.com/poll") 1 40 start_state)) = 1%nat.
Proof.
  destruct (bridge_410_fails_at_once (sample_env (js "linux") (always 410 [])) 5
              (js "https://bridge.example.com/poll") 1 40 start_state
              {| status := 410; body := Some [] |})
    as (Hres & Hreq & _).
  - vm_compute. lia.
  - reflexivity.
  - vm_compute. reflexivity.
  - reflexivity.
  - split; [exact Hres | exact Hreq].
Defined.

(** What [extractAuthCode] makes of a body that parses. *)
Lemma extractAuthCode_parsed (env : Env) (t : jsstring) (parsed : json) :
  trim t <> [] ->
  JSON_parse env (trim t) = Some parsed ->
  extractAuthCode env t
  = or_value (field_of parsed (js "code")) (field_of parsed (js "authorization_code")).
Proof.
  intros Hne Hp. unfold extractAuthCode.
  destruct (trim t) as [|c rest] eqn:E; [contradiction|].
  cbn [truthy_string negb]. rewrite Hp.
  destruct parsed; reflexivity.
Qed.

Lemma absent_or_empty_falsy (v : jsvalue) : absent_or_empty v -> truthy v = false.
Proof. intros [-> | ->]; reflexivity. Qed.

(** C10: take a first poll answered in time with status 200 and a body that
    parses as JSON. If [code] is a non-empty string, the call returns it
    (whether or not [authorization_code] is present too). If [code] is absent
    or the empty string, [extractAuthCode] yields the [authorization_code]
    value, which the call returns when it is a non-empty string. If both are
    absent or empty, the response counts as not ready: the call waits the
    poll interval and goes on polling. *)
Theorem bridge_200_code_fields (env : Env) (fuel : nat) (url : jsstring)
    (interval timeout : Z) (s : State) (r : Response) (t : jsstring) (parsed : json) :
  0 < timeout ->
  answer (network env (requests s) url) = Responds r ->
  Z.of_N (latency (network env (requests s) url)) < 10000 ->
  status r = 200 ->
  body r = Some t ->
  trim t <> [] ->
  JSON_parse env (trim t) = Some parsed ->
  (forall c, field_of parsed (js "code") = Some (JString c) -> c <> [] ->
     extractAuthCode env t = Some (JString c)
     /\ waitForBridgeAuthCode env (S fuel) url interval timeout s
        = (Returns (Some (JString c)),
           tick (Z.of_N (latency (network env (requests s) url))) (requested url s)))
  /\ (absent_or_empty (field_of parsed (js "code")) ->
      extractAuthCode env t = field_of parsed (js "authorization_code")
      /\ forall a, field_of parsed (js "authorization_code") = Some (JString a) -> a <> [] ->
           waitForBridgeAuthCode env (S fuel) url interval timeout s
           = (Returns (Some (JString a)),
              tick (Z.of_N (latency (network env (requests s) url))) (requested url s)))
  /\ (absent_or_empty (field_of parsed (js "code")) ->
      absent_or_empty (field_of parsed (js "authorization_code")) ->
      truthy (extractAuthCode env t) = false
      /\ waitForBridgeAuthCode env (S fuel) url interval timeout s
         = waitForBridgeAuthCode_loop env fuel url interval timeout (clock s)
             (slept env interval
                (tick (Z.of_N (latency (network env (requests s) url)))
                   (requested url s)))).
Proof.
  intros Hpos Hr Hlat Hst Hbody Hne Hp.
  pose proof (extractAuthCode_parsed env t parsed Hne Hp) as Hex.
  assert (Hround : forall v,
            extractAuthCode env t = v ->
            waitForBridgeAuthCode env (S fuel) url interval timeout s
            = if truthy v
              then (Returns v,
                    tick (Z.of_N (latency (network env (requests s) url))) (requested url s))
              else waitForBridgeAuthCode_loop env fuel url interval timeout (clock s)
                     (slept env interval
                        (tick (Z.of_N (latency (network env (requests s) url)))
                           (requested url s)))).
  { intros v Hv. rewrite (first_round env fuel url interval timeout s Hpos).
    unfold poll_verdict, poll_duration. cbn zeta.
    destruct (Z.leb_spec0 10000 (Z.of_N (latency (network env (requests s) url)))); [lia|].
    rewrite Hr, Hst, Hbody, Hv. cbn.
    destruct (truthy v); reflexivity. }
  split; [|split].
  - intros c Hc Hcne.
    assert (E : extractAuthCode env t = Some (JString c)).
    { rewrite Hex, Hc. unfold or_value. destruct c; [contradiction | reflexivity]. }
    split; [exact E|]. rewrite (Hround _ E). destruct c; [contradiction | reflexivity].
  - intros Hc.
    assert (E : extractAuthCode env t = field_of parsed (js "authorization_code")).
    { rewrite Hex. unfold or_value. rewrite (absent_or_empty_falsy _ Hc). reflexivity. }
    split; [exact E|]. intros a Ha Hane. rewrite Ha in E.
    rewrite (Hround _ E). destruct a; [contradiction | reflexivity].
  - intros Hc Ha.
    assert (E : extractAuthCode env t = field_of parsed (js "authorization_code")).
    { rewrite Hex. unfold or_value. rewrite (absent_or_empty_falsy _ Hc). reflexivity. }
    split.
    + rewrite E. apply absent_or_empty_falsy, Ha.
    + rewrite (Hround _ E), (absent_or_empty_falsy _ Ha). reflexivity.
Qed.

Lemma bridge_200_code_fields_witness :
  waitForBridgeAuthCode (sample_env (js "linux") (always 200 both_codes_body)) 1
    (js "https://bridge.example.com/poll") 1 40 start_state
  = (Returns (Some (JString (js "auth-code-1"))),
     tick 5 (requested (js "https://bridge.example.com/poll") start_state)).
Proof.
  destruct (bridge_200_code_fields (sample_env (js "linux") (always 200 both_codes_body)) 0
              (js "https://bridge.example.com/poll") 1 40 start_state
              {| status := 200; body := Some both_codes_body |} both_codes_body
              (JObject {[ js "code" := JString (js "auth-code-1");
                          js "authorization_code" := JString (js "auth-code-2") ]}))
    as (Hcode & _).
  - lia.
  - reflexivity.
  - vm_compute. reflexivity.
  - reflexivity.
  - reflexivity.
  - vm_compute. discriminate.
  - vm_compute. reflexivity.
  - destruct (Hcode (js "auth-code-1")) as (_ & Hrun).
    + vm_compute. reflexivity.
    + vm_compute. discriminate.
    + exact Hrun.
Defined.

End BridgeFacts.

(** ** Adoption, the win32 path and the memoised coordinator *)

Module CoordinatorFacts.

Import Coordination CoordinationSpec CoordinationSamples Steps LockFacts BridgeFacts.

Local Open Scope Z_scope.

Lemma becomePrimary_eq (env : Env) (hash : jsstring) (cp : Z) (ev : nat) (t : Z) (s : State) :
  becomePrimary env hash cp ev t s
  = match callback_listen env cp with
    | Bound p | BoundLater p =>
        (Returns (primary_handlers env cp t (objects s)), primary_state env hash cp p s)
    | NoAddress =>
        (Throws (mkError (js "Failed to get server address after listening event")),
         record (Listen cp) s)
    | NeverListening => (NeverSettles, record (Listen cp) s)
    end.
Proof.
  unfold becomePrimary, setupOAuthCallbackServerWithLongPoll, createLockfile,
    process_once, new_object, address_now, address_after, await_listening,
    bind, modify, ret, throw, Date_now, primary_handlers, primary_state,
    set_lockfiles, record.
  cbn [fst snd comes_up trace clock requests timers lockfiles objects].
  destruct (callback_listen env cp);
    cbn [fst snd comes_up trace clock requests timers lockfiles objects];
    rewrite <- ?app_assoc; reflexivity.
Qed.

Lemma coordinateAuth_win32 (env : Env) (fuel : nat) (hash : jsstring) (cp : Z) (ev : nat)
    (t : Z) (s : State) :
  process_platform env = js "win32" ->
  coordinateAuth env fuel hash cp ev t s = becomePrimary env hash cp ev t s.
Proof.
  intros Hwin. unfold coordinateAuth.
  rewrite (bool_decide_eq_true_2 _ Hwin).
  reflexivity.
Qed.

(** C9: on win32 [coordinateAuth] is the primary path and nothing else, for
    every world it starts in and so for every lock record on disk, valid or
    not: it reads no lock record, signals no process, sends no request and
    deletes no lock; a state it returns never has [skipBrowserAuth] set; and
    whenever the callback server it starts comes up with an address it
    creates its own lock record (its pid, that port, the current time) and
    returns the primary handlers. *)
Theorem win32_always_becomes_primary (env : Env) (fuel : nat) (hash : jsstring)
    (callbackPort : Z) (events : nat) (timeoutMs : Z) (s : State) :
  process_platform env = js "win32" ->
  (exists evs,
     trace (snd (coordinateAuth env fuel hash callbackPort events timeoutMs s))
     = trace s ++ Listen callbackPort :: evs
     /\ forallb (fun e => negb (touches_lock e)) evs = true)
  /\ (forall st,
        fst (coordinateAuth env fuel hash callbackPort events timeoutMs s) = Returns st ->
        skipBrowserAuth st = false)
  /\ (forall actualPort,
        callback_listen env callbackPort = Bound actualPort
        \/ callback_listen env callbackPort = BoundLater actualPort ->
        coordinateAuth env fuel hash callbackPort events timeoutMs s
        = (Returns (primary_handlers env callbackPort timeoutMs (objects s)),
           primary_state env hash callbackPort actualPort s)).
Proof.
  intros Hwin. rewrite (coordinateAuth_win32 env fuel hash _ _ _ s Hwin).
  rewrite becomePrimary_eq.
  split; [|split].
  - destruct (callback_listen env callbackPort); cbn [snd primary_state record trace];
      eexists; (split; [reflexivity | reflexivity]).
  - intros st. destruct (callback_listen env callbackPort); cbn [fst];
      intros [= <-]; reflexivity.
  - intros p [-> | ->]; reflexivity.
Qed.

Lemma win32_always_becomes_primary_witness :
  process_platform (sample_env (js "win32") (always 200 [])) = js "win32"
  /\ valid_lock (sample_env (js "win32") (always 200 [])) locked_state sample_lock
  /\ coordinateAuth (sample_env (js "win32") (always 200 [])) 10 (js "server-hash")
       3333 0 30000 locked_state
     = (Returns (primary_handlers (sample_env (js "win32") (always 200 [])) 3333 30000 0),
        primary_state (sample_env (js "win32") (always 200 [])) (js "server-hash")
          3333 3333 locked_state).
Proof.
  split; [reflexivity|]. split.
  - split; [unfold fresh_enough; simpl; lia|]. split; [reflexivity|].
    eexists. split; [reflexivity|]. split; [left; reflexivity | simpl; lia].
  - apply (win32_always_becomes_primary (sample_env (js "win32") (always 200 [])) 10
             (js "server-hash") 3333 0 30000 locked_state eq_refl).
    right. reflexivity.
Defined.

Lemma long_poll_round (env : Env) (fuel : nat) (p : Z) (s : State) :
  waitForAuthentication_loop env (S fuel) p s
  = let x := network env (requests s) (poll_url p) in
    let s1 := tick (Z.of_N (latency x)) (requested (poll_url p) s) in
    match answer x with
    | Responds r =>
        if status r =? 200 then (Returns true, s1)
        else if status r =? 202 then
          waitForAuthentication_loop env fuel p (slept env 1000 s1)
        else (Returns false, s1)
    | Unreachable => waitForAuthentication_loop env fuel p (slept env 2000 s1)
    end.
Proof.
  cbn [waitForAuthentication_loop].
  unfold bind at 1. unfold try_catch, bind. rewrite fetch_eq.
  cbn [abort_limit]. cbn zeta. unfold settled.
  destruct (answer (network env (requests s) (poll_url p))) as [r|].
  - destruct (status r =? 200); [reflexivity|].
    destruct (status r =? 202); reflexivity.
  - reflexivity.
Qed.

Lemma long_poll_returns (env : Env) (p : Z) (k : nat) :
  forall (fuel : nat) (s : State),
    (k < fuel)%nat ->
    long_poll_completes env p (requests s) k ->
    exists s',
      waitForAuthentication_loop env fuel p s = (Returns true, s')
      /\ lockfiles s' = lockfiles s /\ objects s' = objects s.
Proof.
  induction k as [|k IH]; intros fuel s Hfuel (Hretry & Hdone).
  - destruct fuel as [|fuel]; [lia|].
    rewrite long_poll_round. cbn zeta.
    rewrite Nat.add_0_r in Hdone. unfold says_done in Hdone.
    destruct (answer (network env (requests s) (poll_url p))) as [r|]; [|discriminate].
    rewrite Hdone. eauto.
  - destruct fuel as [|fuel]; [lia|].
    rewrite long_poll_round. cbn zeta.
    pose proof (Hretry 0%nat ltac:(lia)) as H0.
    rewrite Nat.add_0_r in H0. unfold asks_to_retry in H0.
    assert (Hnext : forall ms,
              long_poll_completes env p
                (requests (slept env ms
                             (tick (Z.of_N (latency (network env (requests s) (poll_url p))))
                                (requested (poll_url p) s)))) k).
    { intros ms. cbn [slept tick requested requests]. split.
      - intros j Hj. specialize (Hretry (S j) ltac:(lia)).
        replace (S (requests s) + j)%nat with (requests s + S j)%nat by lia. exact Hretry.
      - replace (S (requests s) + k)%nat with (requests s + S k)%nat by lia. exact Hdone. }
    destruct (answer (network env (requests s) (poll_url p))) as [r|].
    + apply Z.eqb_eq in H0. rewrite H0. cbn.
      destruct (IH fuel _ ltac:(lia) (Hnext 1000)) as (s' & E & Hl & Ho).
      exists s'. auto.
    + destruct (IH fuel _ ltac:(lia) (Hnext 2000)) as (s' & E & Hl & Ho).
      exists s'. auto.
Qed.

(** C3: off win32, with a valid lock record on disk for the server identity
    and a long poll of the owning instance that eventually answers 200 (after
    any number of 202 answers and failed connections), [coordinateAuth]
    returns a state with [skipBrowserAuth = true] whose [waitForAuthCode],
    whenever and however often it is called, gives a promise that never
    settles: it neither resolves nor rejects. The lock record stays. *)
Theorem adoption_skips_browser_and_wait_never_settles (env : Env) (fuel : nat)
    (hash : jsstring) (callbackPort : Z) (events : nat) (timeoutMs : Z) (s : State)
    (l : LockfileData) (k : nat) :
  process_platform env <> js "win32" ->
  lockfiles s !! hash = Some l ->
  valid_lock env s l ->
  long_poll_completes env (port l) (S (requests s)) k ->
  (k < fuel)%nat ->
  exists st s',
    coordinateAuth env fuel hash callbackPort events timeoutMs s = (Returns st, s')
    /\ skipBrowserAuth st = true
    /\ (forall fuel' w, waitForAuthCode st fuel' w = (NeverSettles, w))
    /\ (forall fuel' w a, fst (waitForAuthCode st fuel' w) <> Returns a)
    /\ (forall fuel' w e, fst (waitForAuthCode st fuel' w) <> Throws e)
    /\ lockfiles s' = lockfiles s.
Proof.
  intros Hplat Hlock Hvalid Hpoll Hfuel.
  unfold coordinateAuth.
  rewrite (bool_decide_eq_false_2 _ Hplat).
  assert (Hcheck : checkLockfile hash s = (Returns (Some l), record (CheckLockfile hash) s)).
  { unfold checkLockfile, bind, modify, get, ret. cbn. rewrite Hlock. reflexivity. }
  rewrite (bind_eq _ _ _ _ _ Hcheck).
  assert (Hvalid' : valid_lock env (record (CheckLockfile hash) s) l) by exact Hvalid.
  rewrite (bind_eq _ _ _ _ _ (isLockValid_valid env l _ Hvalid')).
  set (s1 := tick _ (requested _ _)).
  destruct (long_poll_returns env (port l) k fuel s1 Hfuel Hpoll) as (s2 & E & Hl & Ho).
  assert (Hwait : waitForAuthentication env fuel (port l) s1 = (Returns true, s2)).
  { unfold waitForAuthentication. rewrite (try_catch_eq _ _ _ _ _ E). reflexivity. }
  unfold bind at 1.
  unfold bind at 1.
  rewrite (try_catch_eq _ _ s1 (Returns (Some (secondary_handlers env (objects s2))))
             {| clock := clock s2; requests := requests s2; timers := timers s2;
                lockfiles := lockfiles s2; trace := trace s2 ++ [Listen 0];
                objects := S (objects s2) |}).
  2:{ rewrite (bind_eq _ _ _ _ _ Hwait). reflexivity. }
  cbn. eexists _, _. split; [reflexivity|].
  split; [reflexivity|]. split; [reflexivity|].
  split; [intros; discriminate|]. split; [intros; discriminate|].
  cbn. rewrite Hl. reflexivity.
Qed.

Lemma adoption_skips_browser_and_wait_never_settles_witness :
  exists st s',
    coordinateAuth (sample_env (js "linux") (pending_then_done 2)) 5 (js "server-hash")
      3333 0 30000 locked_state = (Returns st, s')
    /\ skipBrowserAuth st = true
    /\ (forall fuel' w, waitForAuthCode st fuel' w = (NeverSettles, w)).
Proof.
  destruct (adoption_skips_browser_and_wait_never_settles
              (sample_env (js "linux") (pending_then_done 2)) 5 (js "server-hash")
              3333 0 30000 locked_state sample_lock 2)
    as (st & s' & E & Hskip & Hnever & _).
  - vm_compute. discriminate.
  - vm_compute. reflexivity.
  - split; [unfold fresh_enough; simpl; lia|]. split; [reflexivity|].
    eexists. split; [reflexivity|]. split; [right; reflexivity | simpl; lia].
  - split.
    + intros j Hj. destruct j as [|[|j]]; [reflexivity | reflexivity | lia].
    + reflexivity.
  - lia.
  - exists st, s'. split; [exact E|]. split; [exact Hskip | exact Hnever].
Defined.

(** Strategy selection on a coordinator that has no state yet allocates the
    state object it returns. *)
Lemma first_initializeAuth_allocates (env : Env) (fuel : nat) (hash : jsstring)
    (events : nat) (options : AuthCoordinatorOptions) (s s' : State)
    (st : AuthCoordinatorState) (c' : AuthCoordinator) :
  authMode options = bridge ->
  initializeAuth env fuel (createLazyAuthCoordinator hash events options) s
  = (Returns (st, c'), s') ->
  identity st = objects s /\ objects s' = S (objects s).
Proof.
  intros Hmode. unfold initializeAuth, createLazyAuthCoordinator.
  cbn [authState co_options co_serverUrlHash]. rewrite Hmode.
  unfold coordinateBridgeAuth, resolveBridgePollUrl, new_object, bind, ret, throw.
  destruct (authBridgePollUrl options) as [template|]; [|discriminate].
  destruct (truthy_string template); [|discriminate].
  destruct (encodeURIComponent env _); [|discriminate].
  destruct (encodeURIComponent env hash); [|discriminate].
  destruct (negb _).
  - destruct (default false _); intros [= <- <- <-]; auto.
  - destruct (URL_with_searchParams env _ _); [|discriminate].
    destruct (default false _); intros [= <- <- <-]; auto.
Qed.

(** C8: if a call of [initializeAuth()] returns a state, leaving the
    coordinator as [c'], then the next call on [c'] returns that very state
    object (same identity, same handlers) and changes nothing: the world and
    the coordinator are as the first call left them, so no strategy is
    selected, nothing is allocated and no effect happens the second time.
    This holds in particular for a coordinator fresh from
    [createLazyAuthCoordinator]. *)
Theorem initializeAuth_memoised (env : Env) (fuel fuel' : nat) (c c' : AuthCoordinator)
    (s s' : State) (st : AuthCoordinatorState) :
  initializeAuth env fuel c s = (Returns (st, c'), s') ->
  initializeAuth env fuel' c' s' = (Returns (st, c'), s')
  /\ authState c' = Some st.
Proof.
  unfold initializeAuth.
  destruct (authState c) as [st0|] eqn:Hc.
  - intros [= <- <- <-]. rewrite Hc. auto.
  - unfold bind.
    destruct (authMode (co_options c)).
    + destruct (coordinateAuth env fuel _ _ _ _ s) as [[st1| | |] s1]; try discriminate.
      intros [= <- <- <-]. cbn. auto.
    + destruct (coordinateBridgeAuth env _ _ s) as [[st1| | |] s1]; try discriminate.
      intros [= <- <- <-]. cbn. auto.
Qed.

Lemma initializeAuth_memoised_witness :
  initializeAuth (sample_env (js "linux") (always 202 [])) 5
    (createLazyAuthCoordinator (js "server-hash") 0 bridge_options) start_state
  = (Returns (sample_bridge_state, sample_memo), snd (new_object start_state))
  /\ initializeAuth (sample_env (js "linux") (always 202 [])) 7 sample_memo
       (snd (new_object start_state))
     = (Returns (sample_bridge_state, sample_memo), snd (new_object start_state)).
Proof.
  assert (E : initializeAuth (sample_env (js "linux") (always 202 [])) 5
                (createLazyAuthCoordinator (js "server-hash") 0 bridge_options) start_state
              = (Returns (sample_bridge_state, sample_memo),
                 snd (new_object start_state))) by reflexivity.
  split; [exact E|].
  exact (proj1 (initializeAuth_memoised _ 5 7 _ _ _ _ _ E)).
Defined.

End CoordinatorFacts.

(** ** Further properties of the provider *)

Module ProviderFacts.

Import Provider ScopeResolver CredentialSpec ProviderSpec Samples ProviderSamples.

Lemma default_fields_lookup (p : NodeOAuthClientProvider) (k : string) (v : field) :
  (k, v) ∈ default_fields p ->
  ({[ "redirect_uris" := VArray [redirectUrl p];
      "token_endpoint_auth_method" := VString (js "none");
      "grant_types" := VArray [js "authorization_code"; js "refresh_token"];
      "response_types" := VArray [js "code"];
      "client_name" := VString (clientName p);
      "client_uri" := VString (clientUri p);
      "software_id" := VString (softwareId p);
      "software_version" := VString (softwareVersion p) ]} : gmap string field) !! k
  = Some v /\ k <> "scope".
Proof.
  unfold default_fields. intros H.
  repeat (apply elem_of_cons in H as [[= -> ->] | H];
          [split; [by simplify_map_eq | discriminate]|]).
  by apply elem_of_nil in H.
Qed.

(** X1: in [clientMetadata] a property of the static metadata overrides the
    fixed field of the same name, every fixed field the static metadata
    leaves out is present with its fixed value, and [scope] is the exception:
    it is the effective scope whatever the static metadata holds under that
    name. *)
Theorem clientMetadata_merge (p : NodeOAuthClientProvider) :
  (forall k v, k <> "scope" -> static_fields p !! k = Some v ->
     clientMetadata p !! k = Some v)
  /\ (forall k v, (k, v) ∈ default_fields p -> static_fields p !! k = None ->
        clientMetadata p !! k = Some v)
  /\ (forall k, k <> "scope" -> static_fields p !! k = None ->
        (forall v, (k, v) ∉ default_fields p) ->
        clientMetadata p !! k = None)
  /\ clientMetadata p !! "scope" = Some (VString (getEffectiveScope p)).
Proof.
  unfold static_fields, clientMetadata.
  split; [|split; [|split]].
  - intros k v Hk Hs. rewrite lookup_insert_ne by done.
    by apply lookup_union_Some_l.
  - intros k v Hin Hs. destruct (default_fields_lookup p k v Hin) as [Hd Hk].
    rewrite lookup_insert_ne by done.
    rewrite lookup_union_r by exact Hs. exact Hd.
  - intros k Hk Hs Hnot. rewrite lookup_insert_ne by done.
    rewrite lookup_union_r by exact Hs.
    match goal with |- ?m !! k = None => destruct (m !! k) as [v|] eqn:E end;
      [|reflexivity].
    exfalso. apply (Hnot v). unfold default_fields.
    repeat (apply lookup_insert_Some in E as [[<- <-] | [_ E]]; [set_solver|]).
    apply lookup_singleton_Some in E as [<- <-]. set_solver.
  - apply lookup_insert_eq.
Qed.

Lemma clientMetadata_merge_witness :
  clientMetadata custom_provider !! "client_name" = Some (VString (js "My Custom Client"))
  /\ clientMetadata custom_provider !! "redirect_uris"
     = Some (VArray [js "http://localhost:8080/oauth/callback"])
  /\ clientMetadata custom_provider !! "scope" = Some (VString (js "user:email repo")).
Proof.
  destruct (clientMetadata_merge custom_provider) as (Hstatic & Hdefault & _ & Hscope).
  split; [|split].
  - apply Hstatic; [discriminate | reflexivity].
  - apply (Hdefault "redirect_uris" (VArray [js "http://localhost:8080/oauth/callback"])).
    + unfold default_fields. left.
    + reflexivity.
  - exact Hscope.
Defined.

(** X2: without a static override [clientInformation()] reads through to the
    registration file and only ever fills the in-memory copy: a file the
    schema accepts is returned and cached, while an absent or malformed file
    gives [undefined] and leaves the instance, cached registration included,
    exactly as it was, so the effective scope does not change. *)
Theorem clientInformation_read_through (w : World) :
  staticOAuthClientInfo (this w) = None ->
  (forall c, files w !! registration_file w = Some (ClientInfoJson c) ->
     clientInformation w
     = (Returns (Some c),
        {| this := set_clientInfo (Some c) (this w); files := files w;
           accesses := accesses w ++ [ReadFile (registration_file w)] |}))
  /\ (files w !! registration_file w ≫= OAuthClientInformationFullSchema = None ->
      clientInformation w = (Returns None, accessed (ReadFile (registration_file w)) w)
      /\ getEffectiveScope (this (snd (clientInformation w))) = getEffectiveScope (this w)).
Proof.
  intros Hnone.
  assert (Hrun : clientInformation w
                 = match files w !! registration_file w ≫= OAuthClientInformationFullSchema with
                   | Some c =>
                       (Returns (Some c),
                        {| this := set_clientInfo (Some c) (this w); files := files w;
                           accesses := accesses w ++ [ReadFile (registration_file w)] |})
                   | None => (Returns None, accessed (ReadFile (registration_file w)) w)
                   end).
  { unfold clientInformation, bind, self, readJsonFile, assign_clientInfo, modify, ret,
      registration_file, accessed.
    rewrite Hnone. cbn beta iota.
    destruct (files w !! _ ≫= OAuthClientInformationFullSchema); reflexivity. }
  split.
  - intros c Hc. rewrite Hrun, Hc. reflexivity.
  - intros Hmiss. rewrite Hrun, Hmiss. split; reflexivity.
Qed.

Lemma clientInformation_read_through_witness :
  fst (clientInformation garbled_world) = Returns None
  /\ getEffectiveScope (this (snd (clientInformation garbled_world)))
     = js "extracted custom scopes".
Proof.
  destruct (clientInformation_read_through garbled_world eq_refl) as (_ & Hmiss).
  destruct (Hmiss eq_refl) as (Hrun & Hscope).
  split.
  - rewrite Hrun. reflexivity.
  - rewrite Hscope. reflexivity.
Defined.

(** X3: once [saveClientInformation(X)] has run, the scope of
    [clientMetadata] is the scope of [X], as given and untrimmed, provided it
    is non-blank and no tier above the registration scope selects anything;
    this holds whether or not a static override is configured. *)
Theorem saved_registration_scope_takes_effect (w : World) (X : OAuthClientInformationFull)
    (scope : jsstring) :
  no_tier_above_registration (this w) ->
  ci_scope X = Some scope ->
  trim scope <> [] ->
  clientMetadata (this (snd (saveClientInformation X w))) !! "scope" = Some (VString scope).
Proof.
  intros (H1 & H2 & H3) Hs Hne.
  rewrite ScopeFacts.clientMetadata_scope, ScopeFacts.getEffectiveScope_tiers.
  unfold saveClientInformation, bind, self, assign_clientInfo, writeJsonFile, modify.
  cbn [snd this]. unfold first_guarded_tier, guarded_tiers.
  cbn [set_clientInfo staticOAuthClientMetadata wwwAuthenticateScope protectedResourceMetadata
         _clientInfo authorizationServerMetadata].
  rewrite H1, H2, H3. cbn [mbind option_bind]. rewrite Hs. unfold nonblank. cbn [mbind option_bind].
  rewrite bool_decide_eq_true_2 by exact Hne. reflexivity.
Qed.

Lemma saved_registration_scope_takes_effect_witness :
  clientMetadata (this (snd (saveClientInformation sample_client (empty_world plain_provider))))
    !! "scope" = Some (VString (js "extracted custom scopes")).
Proof.
  apply (saved_registration_scope_takes_effect (empty_world plain_provider) sample_client
           (js "extracted custom scopes")).
  - repeat split; reflexivity.
  - reflexivity.
  - vm_compute. discriminate.
Defined.

(** X4: the PKCE verifier round-trips: [saveCodeVerifier(v)] followed by
    [codeVerifier()] returns [v]; reading when no verifier text is stored
    throws ["No code verifier saved for session"], in particular right after
    [invalidateCredentials('verifier')] or [invalidateCredentials('all')]. *)
Theorem codeVerifier_roundtrip_and_missing (w : World) :
  (forall v, fst ((saveCodeVerifier v ;;; codeVerifier) w) = Returns v)
  /\ ((forall v, files w !! verifier_file w <> Some (Text v)) ->
      codeVerifier w
      = (Throws (mkError (js "No code verifier saved for session")),
         accessed (ReadFile (verifier_file w)) w))
  /\ (forall v scope, scope = js "verifier" \/ scope = js "all" ->
        fst ((saveCodeVerifier v ;;; invalidateCredentials scope ;;; codeVerifier) w)
        = Throws (mkError (js "No code verifier saved for session"))).
Proof.
  split; [|split].
  - intros v.
    unfold saveCodeVerifier, codeVerifier, writeTextFile, writeJsonFile, readTextFile,
      bind, self, modify. cbn [this files fst]. rewrite lookup_insert_eq. reflexivity.
  - intros Hmiss.
    unfold codeVerifier, readTextFile, bind, self, verifier_file, accessed in *.
    cbn beta iota.
    destruct (files w !! _) as [[c|t|v|raw]|] eqn:E; try reflexivity.
    exfalso. apply (Hmiss v). reflexivity.
  - intros v scope Hscope.
    unfold bind at 1. unfold saveCodeVerifier at 1.
    unfold bind at 1, self at 1, writeTextFile, writeJsonFile, modify. cbn beta iota.
    set (w1 := {| this := this w; files := _; accesses := _ |}).
    unfold bind at 1.
    rewrite (CredentialFacts.invalidateCredentials_known w1 scope)
      by (unfold known_scopes; destruct Hscope as [-> | ->]; set_solver).
    cbn beta iota.
    unfold codeVerifier, readTextFile, bind, self. cbn [this files fst].
    rewrite CredentialFacts.lookup_foldl_delete.
    rewrite bool_decide_eq_true_2; [reflexivity|].
    cbn [fst snd]. split.
    + destruct Hscope as [-> | ->]; reflexivity.
    + destruct Hscope as [-> | ->]; unfold named_files; cbn; set_solver.
Qed.

Lemma codeVerifier_roundtrip_and_missing_witness :
  (forall v, files (empty_world plain_provider) !! verifier_file (empty_world plain_provider)
             <> Some (Text v))
  /\ fst (codeVerifier (empty_world plain_provider))
     = Throws (mkError (js "No code verifier saved for session")).
Proof.
  assert (H : forall v, files (empty_world plain_provider)
                          !! verifier_file (empty_world plain_provider) <> Some (Text v))
    by (intros v; discriminate).
  split; [exact H|].
  rewrite (proj1 (proj2 (codeVerifier_roundtrip_and_missing (empty_world plain_provider))) H).
  reflexivity.
Defined.

(** X5: tokens round-trip whatever their [expires_in] (absent, zero or
    negative values are only logged): [saveTokens(t)] followed by [tokens()]
    returns [t]; the save writes the token file and nothing else: every other
    file and the instance stay as they were. *)
Theorem tokens_roundtrip_and_frame (w : World) (t : OAuthTokens) :
  fst ((saveTokens t ;;; tokens) w) = Returns (Some t)
  /\ this (snd (saveTokens t w)) = this w
  /\ (forall k, k <> token_file w -> files (snd (saveTokens t w)) !! k = files w !! k)
  /\ accesses (snd (saveTokens t w)) = accesses w ++ [WriteFile (token_file w)].
Proof.
  unfold saveTokens, tokens, writeJsonFile, readJsonFile, bind, self, modify, token_file.
  cbn [this files accesses fst snd].
  split; [|split; [|split]].
  - rewrite lookup_insert_eq. reflexivity.
  - reflexivity.
  - intros k Hk. by rewrite lookup_insert_ne.
  - reflexivity.
Qed.

(** X6: after [invalidateCredentials('all')] nothing persisted is left for
    this server identity: the cached registration is gone,
    [clientInformation()] returns [undefined] unless a static override is
    configured (the override survives), [tokens()] returns [undefined] and
    [codeVerifier()] throws. *)
Theorem invalidate_all_leaves_nothing (w : World) :
  _clientInfo (this (snd (invalidateCredentials (js "all") w))) = None
  /\ fst (clientInformation (snd (invalidateCredentials (js "all") w)))
     = Returns (staticOAuthClientInfo (this w))
  /\ fst (tokens (snd (invalidateCredentials (js "all") w))) = Returns None
  /\ fst (codeVerifier (snd (invalidateCredentials (js "all") w)))
     = Throws (mkError (js "No code verifier saved for session")).
Proof.
  rewrite (CredentialFacts.invalidateCredentials_known w (js "all"))
    by (unfold known_scopes; set_solver).
  cbn [snd]. change (bool_decide (js "all" = js "all") || _) with true. cbn iota.
  assert (Hgone : forall name, name ∈ named_files (js "all") ->
            foldl (fun m n => delete (serverUrlHash (this w), n) m) (files w)
              (named_files (js "all")) !! (serverUrlHash (this w), name) = None).
  { intros name Hin. rewrite CredentialFacts.lookup_foldl_delete.
    rewrite bool_decide_eq_true_2; [reflexivity | split; [reflexivity | exact Hin]]. }
  split; [reflexivity|]. split; [|split].
  - unfold clientInformation, bind, self, readJsonFile, assign_clientInfo, modify, ret.
    cbn [this files staticOAuthClientInfo set_clientInfo].
    destruct (staticOAuthClientInfo (this w)) as [O|]; [reflexivity|].
    cbn [files fst].
    rewrite Hgone by (unfold named_files; cbn; set_solver). reflexivity.
  - unfold tokens, bind, self, readJsonFile. cbn [this files fst set_clientInfo serverUrlHash].
    rewrite Hgone by (unfold named_files; cbn; set_solver). reflexivity.
  - unfold codeVerifier, bind, self, readTextFile. cbn [this files fst set_clientInfo serverUrlHash].
    rewrite Hgone by (unfold named_files; cbn; set_solver). reflexivity.
Qed.

End ProviderFacts.

(** ** Properties of the authorization redirect and metadata discovery *)

Module AuthorizationFacts.

Import Provider ScopeResolver Authorization AuthorizationSpec Samples AuthorizationSamples.

Local Open Scope Z_scope.

Lemma get_without_ne (n m : jsstring) (params : list (jsstring * jsstring)) :
  n <> m -> searchParams_get m (without_name n params) = searchParams_get m params.
Proof.
  intros Hne. induction params as [|[k v] rest IH]; [reflexivity|].
  cbn [without_name searchParams_get].
  destruct (bool_decide (k = n)) eqn:E.
  - apply bool_decide_eq_true in E as ->.
    rewrite (bool_decide_eq_false_2 (n = m)) by exact Hne. exact IH.
  - cbn [searchParams_get]. rewrite IH. reflexivity.
Qed.

Lemma get_set_eq (n v : jsstring) (params : list (jsstring * jsstring)) :
  searchParams_get n (searchParams_set n v params) = Some v.
Proof.
  induction params as [|[k w] rest IH]; cbn [searchParams_set searchParams_get].
  - rewrite bool_decide_eq_true_2; reflexivity.
  - destruct (bool_decide (k = n)) eqn:E; cbn [searchParams_get].
    + rewrite bool_decide_eq_true_2; reflexivity.
    + rewrite E. exact IH.
Qed.

Lemma get_set_ne (n m v : jsstring) (params : list (jsstring * jsstring)) :
  n <> m -> searchParams_get m (searchParams_set n v params) = searchParams_get m params.
Proof.
  intros Hne. induction params as [|[k w] rest IH]; cbn [searchParams_set searchParams_get].
  - rewrite bool_decide_eq_false_2 by exact Hne. reflexivity.
  - destruct (bool_decide (k = n)) eqn:E; cbn [searchParams_get].
    + apply bool_decide_eq_true in E as ->.
      rewrite (bool_decide_eq_false_2 (n = m)) by exact Hne.
      apply get_without_ne, Hne.
    + rewrite IH. reflexivity.
Qed.

Lemma count_without (n : jsstring) (params : list (jsstring * jsstring)) :
  count_named n (without_name n params) = 0%nat.
Proof.
  unfold count_named. induction params as [|[k w] rest IH]; [reflexivity|].
  cbn [without_name]. destruct (bool_decide (k = n)) eqn:E; [exact IH|].
  apply bool_decide_eq_false in E.
  rewrite filter_cons_False by exact E. exact IH.
Qed.

Lemma count_set (n v : jsstring) (params : list (jsstring * jsstring)) :
  count_named n (searchParams_set n v params) = 1%nat.
Proof.
  unfold count_named. induction params as [|[k w] rest IH]; cbn [searchParams_set].
  - rewrite filter_cons_True by reflexivity. reflexivity.
  - destruct (bool_decide (k = n)) eqn:E.
    + rewrite filter_cons_True by reflexivity. cbn [length].
      f_equal. apply count_without.
    + apply bool_decide_eq_false in E.
      rewrite filter_cons_False by exact E. exact IH.
Qed.

(** [redirectToAuthorization], run to its end. *)
Lemma redirectToAuthorization_eq (outside : Outside) (d : Desk) :
  redirectToAuthorization outside d
  = (Returns tt,
     {| instance := instance d;
        authorizationUrl := url_after (instance d) (authorizationUrl d);
        effects := effects d ++ redirect_effects outside (instance d) (authorizationUrl d) |}).
Proof.
  destruct d as [p u eff].
  unfold redirectToAuthorization, getAuthorizationServerMetadata_detached, redirect_effects,
    metadata_effects, notify_effects, open_effects, url_after, params_after,
    set_searchParam, open_sanitized, post, log, perform,
    bind, try_catch, modify, get, ret, throw.
  cbn [instance authorizationUrl effects location searchParams].
  destruct (authorizationServerMetadata p);
    cbn [instance authorizationUrl effects location searchParams];
    (destruct (authorizeResource p) as [r|]; [destruct (truthy_string r)|]);
    cbn [instance authorizationUrl effects location searchParams];
    (destruct (is_bridge p);
     [ destruct (opt_authBridgeNotifyUrl (options p)) as [n|];
       [ destruct (truthy_string n);
         [ cbn [instance authorizationUrl effects location searchParams];
           destruct (notify_answer outside n _) as [st|reason];
           [ destruct (response_ok st) |] |] |]
     | cbn [instance authorizationUrl effects location searchParams];
       destruct (sanitizeUrl outside _) as [e|clean];
       [| cbn [instance authorizationUrl effects location searchParams];
          destruct (open_answer outside clean)] ]);
    cbn [instance authorizationUrl effects location searchParams negb message app];
    rewrite <- ?app_assoc; cbn [app]; rewrite ?app_nil_r; reflexivity.
Qed.

(** X7: [redirectToAuthorization] never fails, whatever the metadata
    endpoint, the notify endpoint, the sanitizer and the browser launcher
    do. Afterwards the URL has exactly one [scope] parameter, the effective scope; its [resource] parameter is the
    configured resource when one is configured (and non-empty) and is
    untouched otherwise; every other parameter and the part before the query
    are as before. *)
Theorem redirect_sets_scope_and_resource (outside : Outside) (d : Desk) :
  fst (redirectToAuthorization outside d) = Returns tt
  /\ location (authorizationUrl (snd (redirectToAuthorization outside d)))
     = location (authorizationUrl d)
  /\ searchParams_get (js "scope")
       (searchParams (authorizationUrl (snd (redirectToAuthorization outside d))))
     = Some (getEffectiveScope (instance d))
  /\ count_named (js "scope")
       (searchParams (authorizationUrl (snd (redirectToAuthorization outside d)))) = 1%nat
  /\ (forall r, authorizeResource (instance d) = Some r -> r <> [] ->
        searchParams_get (js "resource")
          (searchParams (authorizationUrl (snd (redirectToAuthorization outside d))))
        = Some r)
  /\ (authorizeResource (instance d) = None \/ authorizeResource (instance d) = Some [] ->
      searchParams_get (js "resource")
        (searchParams (authorizationUrl (snd (redirectToAuthorization outside d))))
      = searchParams_get (js "resource") (searchParams (authorizationUrl d)))
  /\ (forall name, name <> js "scope" -> name <> js "resource" ->
        searchParams_get name
          (searchParams (authorizationUrl (snd (redirectToAuthorization outside d))))
        = searchParams_get name (searchParams (authorizationUrl d))).
Proof.
  rewrite redirectToAuthorization_eq. cbn [fst snd instance authorizationUrl].
  unfold url_after, params_after. cbn [location searchParams].
  assert (Hsr : js "scope" <> js "resource") by (vm_compute; discriminate).
  repeat split.
  - apply get_set_eq.
  - apply count_set.
  - intros r Hr Hne. rewrite Hr. destruct r; [contradiction|]. cbn [truthy_string].
    rewrite get_set_ne by exact Hsr. apply get_set_eq.
  - intros [Hr | Hr]; rewrite Hr; cbn [truthy_string]; apply get_set_ne, Hsr.
  - intros name Hs Hr. rewrite get_set_ne by (intros E; apply Hs; symmetry; exact E).
    destruct (authorizeResource (instance d)) as [r|]; [|reflexivity].
    destruct (truthy_string r); [|reflexivity].
    apply get_set_ne. intros E; apply Hr; symmetry; exact E.
Qed.

Lemma redirect_sets_scope_and_resource_witness :
  searchParams (authorizationUrl
                  (snd (redirectToAuthorization hostile_outside (desk_of bridge_provider))))
  = [(js "scope", js "openid email profile"); (js "state", js "xyz");
     (js "resource", js "https://api.example.com")]
  /\ searchParams_get (js "resource")
       (searchParams (authorizationUrl
                        (snd (redirectToAuthorization hostile_outside
                                (desk_of bridge_provider)))))
     = Some (js "https://api.example.com").
Proof.
  split; [reflexivity|].
  destruct (redirect_sets_scope_and_resource hostile_outside (desk_of bridge_provider))
    as (_ & _ & _ & _ & Hres & _).
  apply Hres; [reflexivity | discriminate].
Defined.

(** X8: in bridge mode [redirectToAuthorization] never launches a browser;
    it announces the URL and posts the event to the notify URL exactly once
    when one is configured (and non-empty) and not at all otherwise. Outside
    bridge mode it posts nothing and makes one attempt to open the browser,
    on the sanitized text of the URL as completed, unless the sanitizer
    rejects that text. *)
Theorem redirect_browser_and_notify (outside : Outside) (d : Desk) :
  effects (snd (redirectToAuthorization outside d))
  = effects d ++ redirect_effects outside (instance d) (authorizationUrl d)
  /\ (is_bridge (instance d) = true ->
      List.filter is_opened (redirect_effects outside (instance d) (authorizationUrl d)) = []
      /\ List.filter is_posted (redirect_effects outside (instance d) (authorizationUrl d))
         = match opt_authBridgeNotifyUrl (options (instance d)) with
           | Some notifyUrl =>
               if truthy_string notifyUrl then
                 [Posted notifyUrl
                    (JSON_stringify outside
                       (auth_url_event outside (instance d)
                          (url_after (instance d) (authorizationUrl d))))]
               else []
           | None => []
           end)
  /\ (is_bridge (instance d) = false ->
      List.filter is_posted (redirect_effects outside (instance d) (authorizationUrl d)) = []
      /\ List.filter is_opened (redirect_effects outside (instance d) (authorizationUrl d))
         = match sanitizeUrl outside
                   (URL_toString outside (url_after (instance d) (authorizationUrl d))) with
           | inr clean => [Opened clean]
           | inl _ => []
           end).
Proof.
  rewrite redirectToAuthorization_eq. cbn [snd effects].
  split; [reflexivity|].
  unfold redirect_effects, metadata_effects, notify_effects, open_effects. cbn zeta.
  split; intros Hb; rewrite Hb.
  - split.
    + destruct (authorizationServerMetadata (instance d));
        destruct (opt_authBridgeNotifyUrl (options (instance d))) as [n|];
        try destruct (truthy_string n);
        try destruct (notify_answer outside n _) as [st|reason];
        try destruct (response_ok st); reflexivity.
    + destruct (authorizationServerMetadata (instance d));
        destruct (opt_authBridgeNotifyUrl (options (instance d))) as [n|];
        try destruct (truthy_string n);
        try destruct (notify_answer outside n _) as [st|reason];
        try destruct (response_ok st); reflexivity.
  - split.
    + destruct (authorizationServerMetadata (instance d));
        destruct (sanitizeUrl outside _) as [e|clean];
        try destruct (open_answer outside clean); reflexivity.
    + destruct (authorizationServerMetadata (instance d));
        destruct (sanitizeUrl outside _) as [e|clean];
        try destruct (open_answer outside clean); reflexivity.
Qed.

Lemma redirect_browser_and_notify_witness :
  is_bridge (instance (desk_of bridge_provider)) = true
  /\ fst (redirectToAuthorization hostile_outside (desk_of bridge_provider)) = Returns tt
  /\ List.filter is_opened
       (effects (snd (redirectToAuthorization hostile_outside (desk_of bridge_provider)))) = []
  /\ (is_bridge (instance (desk_of plain_provider)) = false
      /\ List.filter is_opened
           (redirect_effects hostile_outside plain_provider sample_url)
         = [Opened (js "https://auth.example.com/authorize")]).
Proof.
  destruct (redirect_browser_and_notify hostile_outside (desk_of bridge_provider))
    as (Heff & Hbridge & _).
  destruct (redirect_browser_and_notify hostile_outside (desk_of plain_provider))
    as (_ & _ & Hlocal).
  split; [reflexivity|]. split; [reflexivity|]. split.
  - rewrite Heff. exact (proj1 (Hbridge eq_refl)).
  - split; [reflexivity|]. exact (proj2 (Hlocal eq_refl)).
Defined.

(** X9: for a provider built by the constructor, the bridge event always
    carries the same value as [session_id] and as [state], and that value is
    what [state()] returns: the configured session id when one is given (and
    non-empty), the generated identifier otherwise. *)
Theorem bridge_event_session_is_state (outside : Outside)
    (MCP_REMOTE_VERSION randomUUID : jsstring) (o : OAuthProviderOptions) (u : URL) :
  ev_session_id
    (auth_url_event outside (new_NodeOAuthClientProvider MCP_REMOTE_VERSION randomUUID o) u)
  = ev_state
      (auth_url_event outside (new_NodeOAuthClientProvider MCP_REMOTE_VERSION randomUUID o) u)
  /\ ev_state
       (auth_url_event outside (new_NodeOAuthClientProvider MCP_REMOTE_VERSION randomUUID o) u)
     = state (new_NodeOAuthClientProvider MCP_REMOTE_VERSION randomUUID o)
  /\ state (new_NodeOAuthClientProvider MCP_REMOTE_VERSION randomUUID o)
     = or_string (opt_authSessionId o) randomUUID.
Proof.
  unfold auth_url_event, state, new_NodeOAuthClientProvider.
  cbn [ev_session_id ev_state options _state].
  split; [|split; reflexivity].
  unfold or_string. destruct (opt_authSessionId o) as [sid|]; [|reflexivity].
  destruct (truthy_string sid); reflexivity.
Qed.

(** [getAuthorizationServerMetadata], run to its end. *)
Lemma getAuthorizationServerMetadata_eq (outside : Outside) (d : Desk) :
  getAuthorizationServerMetadata outside d
  = match authorizationServerMetadata (instance d) with
    | Some m => (Returns (Some m), d)
    | None =>
        match metadata_answer outside (opt_serverUrl (options (instance d))) with
        | inr m =>
            (Returns m,
             {| instance := set_authorizationServerMetadata m (instance d);
                authorizationUrl := authorizationUrl d;
                effects := effects d
                           ++ [MetadataRequested (opt_serverUrl (options (instance d)))] |})
        | inl _ =>
            (Returns None,
             {| instance := instance d; authorizationUrl := authorizationUrl d;
                effects := effects d
                           ++ [MetadataRequested (opt_serverUrl (options (instance d)))] |})
        end
    end.
Proof.
  unfold getAuthorizationServerMetadata, fetchAuthorizationServerMetadata, perform,
    bind, try_catch, modify, get, ret, throw.
  destruct (authorizationServerMetadata (instance d)); [reflexivity|].
  destruct (metadata_answer outside _); reflexivity.
Qed.

(** X10: [getAuthorizationServerMetadata()] never fails and asks the server
    at most once per call: metadata already held is returned without a
    request; otherwise one request is made, a failure gives [undefined] and
    leaves the instance as it was, and metadata that arrives is stored, so
    that every later call returns it without another request. *)
Theorem metadata_is_fetched_once (outside : Outside) (d : Desk) :
  (exists r, fst (getAuthorizationServerMetadata outside d) = Returns r)
  /\ (forall m, authorizationServerMetadata (instance d) = Some m ->
        getAuthorizationServerMetadata outside d = (Returns (Some m), d))
  /\ (forall e, authorizationServerMetadata (instance d) = None ->
        metadata_answer outside (opt_serverUrl (options (instance d))) = inl e ->
        fst (getAuthorizationServerMetadata outside d) = Returns None
        /\ instance (snd (getAuthorizationServerMetadata outside d)) = instance d)
  /\ (forall m, authorizationServerMetadata (instance d) = None ->
        metadata_answer outside (opt_serverUrl (options (instance d))) = inr (Some m) ->
        fst (getAuthorizationServerMetadata outside d) = Returns (Some m)
        /\ effects (snd (getAuthorizationServerMetadata outside d))
           = effects d ++ [MetadataRequested (opt_serverUrl (options (instance d)))]
        /\ getAuthorizationServerMetadata outside (snd (getAuthorizationServerMetadata outside d))
           = (Returns (Some m), snd (getAuthorizationServerMetadata outside d))).
Proof.
  split; [|split; [|split]].
  - rewrite getAuthorizationServerMetadata_eq.
    destruct (authorizationServerMetadata (instance d)); [eauto|].
    destruct (metadata_answer outside _); eauto.
  - intros m Hm. rewrite getAuthorizationServerMetadata_eq, Hm. reflexivity.
  - intros e Hnone He. rewrite getAuthorizationServerMetadata_eq, Hnone, He. auto.
  - intros m Hnone Hm. rewrite (getAuthorizationServerMetadata_eq outside d), Hnone, Hm.
    cbn [fst snd effects]. split; [reflexivity|]. split; [reflexivity|].
    rewrite getAuthorizationServerMetadata_eq. reflexivity.
Qed.

Lemma metadata_is_fetched_once_witness :
  fst (getAuthorizationServerMetadata discovering_outside (desk_of plain_provider))
  = Returns (Some advertised)
  /\ getAuthorizationServerMetadata discovering_outside
       (snd (getAuthorizationServerMetadata discovering_outside (desk_of plain_provider)))
     = (Returns (Some advertised),
        snd (getAuthorizationServerMetadata discovering_outside (desk_of plain_provider))).
Proof.
  destruct (metadata_is_fetched_once discovering_outside (desk_of plain_provider))
    as (_ & _ & _ & Hok).
  destruct (Hok advertised eq_refl eq_refl) as (Hret & _ & Hagain).
  split; [exact Hret | exact Hagain].
Defined.

(** X11: scopes that discovery brings in later take effect: when no tier
    above the authorization server's metadata selects anything and
    [getAuthorizationServerMetadata()] obtains metadata advertising at least
    one scope, the scope of [clientMetadata] changes from the default to the
    space-joined advertised scopes. *)
Theorem discovered_scopes_take_effect (outside : Outside) (d : Desk)
    (m : AuthorizationServerMetadata) (scopes : list jsstring) :
  nonblank (metadata_scope (staticOAuthClientMetadata (instance d))) = None ->
  nonblank (wwwAuthenticateScope (instance d)) = None ->
  nonempty_joined (protectedResourceMetadata (instance d) ≫= prm_scopes_supported) = None ->
  nonblank (_clientInfo (instance d) ≫= ci_scope) = None ->
  authorizationServerMetadata (instance d) = None ->
  metadata_answer outside (opt_serverUrl (options (instance d))) = inr (Some m) ->
  as_scopes_supported m = Some scopes ->
  scopes <> [] ->
  clientMetadata (instance d) !! "scope" = Some (VString (js "openid email profile"))
  /\ clientMetadata (instance (snd (getAuthorizationServerMetadata outside d))) !! "scope"
     = Some (VString (join (js " ") scopes)).
Proof.
  intros H1 H2 H3 H4 Hnone Hans Hsc Hne.
  rewrite !ScopeFacts.clientMetadata_scope, !ScopeFacts.getEffectiveScope_tiers.
  rewrite getAuthorizationServerMetadata_eq, Hnone, Hans. cbn [snd instance].
  unfold first_guarded_tier, guarded_tiers.
  cbn [set_authorizationServerMetadata staticOAuthClientMetadata wwwAuthenticateScope
         protectedResourceMetadata _clientInfo authorizationServerMetadata].
  rewrite H1, H2, H3, H4, Hnone. cbn [mbind option_bind]. rewrite Hsc.
  unfold nonempty_joined. cbn [mbind option_bind].
  rewrite bool_decide_eq_true_2 by exact Hne. split; reflexivity.
Qed.

Lemma discovered_scopes_take_effect_witness :
  clientMetadata (instance (desk_of plain_provider)) !! "scope"
  = Some (VString (js "openid email profile"))
  /\ clientMetadata
       (instance (snd (getAuthorizationServerMetadata discovering_outside
                         (desk_of plain_provider)))) !! "scope"
     = Some (VString (js "openid email")).
Proof.
  apply (discovered_scopes_take_effect discovering_outside (desk_of plain_provider)
           advertised [js "openid"; js "email"]);
    try reflexivity.
  discriminate.
Defined.

End AuthorizationFacts.

(** ** Further properties of bridge polling *)

Module PollingFacts.

Import Coordination CoordinationSpec TakeoverSpec CoordinationSamples
  TakeoverSamples Steps BridgeFacts.

Local Open Scope Z_scope.

Lemma poll_verdict_ok (env : Env) (x : exchange) :
  match poll_verdict env x with
  | Returns (Some code) => truthy code = true
  | Returns None => True
  | Throws e => e = mkError expired
  | _ => False
  end.
Proof.
  unfold poll_verdict.
  destruct (10000 <=? Z.of_N (latency x)); [exact I|].
  destruct (answer x) as [r|]; [|exact I].
  destruct (status r =? 200).
  - destruct (body r) as [t|]; [|exact I].
    destruct (truthy (extractAuthCode env t)) eqn:E; [exact E | exact I].
  - destruct ((status r =? 202) || (status r =? 204) || (status r =? 404)); [exact I|].
    destruct (status r =? 410); [reflexivity | exact I].
Qed.

Lemma loop_outcome_ok (env : Env) (url : jsstring) (interval timeout start : Z) :
  forall (fuel : nat) (s : State),
    bridge_outcome_ok timeout
      (fst (waitForBridgeAuthCode_loop env fuel url interval timeout start s)).
Proof.
  induction fuel as [|fuel IH]; intros s; [exact I|].
  rewrite loop_round.
  destruct (clock s - start <? timeout); [|right; reflexivity].
  cbn zeta. pose proof (poll_verdict_ok env (network env (requests s) url)) as Hv.
  destruct (poll_verdict env (network env (requests s) url)) as [[code|]|e| |];
    cbn [fst bridge_outcome_ok]; try contradiction.
  - exact Hv.
  - apply IH.
  - left. exact Hv.
Qed.

(** X12: however the bridge behaves, a call of [waitForBridgeAuthCode] that
    ends does so in one of three ways: it returns a truthy value (never an
    empty string or [undefined]), it throws ["Auth bridge session expired"],
    or it throws the timeout error; failed requests and unexpected answers
    never surface, and the call never waits on a promise that cannot
    settle. *)
Theorem bridge_wait_outcomes (env : Env) (fuel : nat) (url : jsstring)
    (interval timeout : Z) (s : State) :
  match fst (waitForBridgeAuthCode env fuel url interval timeout s) with
  | Returns v => truthy v = true
  | Throws e =>
      e = mkError (js "Auth bridge session expired")
      \/ e = mkError (js "Timed out waiting for auth code from bridge after "
                        ++ show_Z (timeout / 1000) ++ js " seconds.")
  | NeverSettles => False
  | OutOfFuel => True
  end.
Proof.
  unfold waitForBridgeAuthCode. rewrite (bind_eq Date_now _ s _ _ eq_refl).
  exact (loop_outcome_ok env url interval timeout (clock s) fuel s).
Qed.

Lemma slept_advances_by_delay (env : Env) (ms : Z) (s : State) :
  0 <= timer_lag env (timers s) ->
  clock s + setTimeout_delay ms <= clock (slept env ms s).
Proof. intros Hlag. unfold slept; cbn [clock]. lia. Qed.

(** Requests and waits alternate: the loop never sends two requests without
    a wait in between, and never waits twice in a row. *)
Lemma loop_alternates (env : Env) (url : jsstring) (interval timeout start : Z) :
  forall (fuel : nat) (s : State),
    (requests (snd (waitForBridgeAuthCode_loop env fuel url interval timeout start s))
     + timers s
     <= requests s
        + timers (snd (waitForBridgeAuthCode_loop env fuel url interval timeout start s))
        + 1)%nat
    /\ (timers (snd (waitForBridgeAuthCode_loop env fuel url interval timeout start s))
         + requests s
         <= timers s
            + requests (snd (waitForBridgeAuthCode_loop env fuel url interval timeout start s)))%nat.
Proof.
  induction fuel as [|fuel IH]; intros s; [cbn; lia|].
  rewrite loop_round.
  destruct (clock s - start <? timeout); [|cbn; lia].
  cbn zeta. set (s1 := tick _ (requested url s)).
  destruct (poll_verdict env (network env (requests s) url)) as [[code|]| | |];
    try (cbn [snd]; change (requests s1) with (S (requests s));
         change (timers s1) with (timers s); lia).
  destruct (IH (slept env interval s1)) as [H1 H2].
  change (requests (slept env interval s1)) with (S (requests s)) in *.
  change (timers (slept env interval s1)) with (S (timers s)) in *.
  lia.
Qed.

(** When no timer is seen to fire early, the clock has moved by the timer
    delay at each round, which bounds the rounds that fit in the timeout. *)
Lemma loop_request_budget (env : Env) (url : jsstring) (interval timeout start : Z) :
  (forall i, 0 <= timer_lag env i) ->
  forall (fuel : nat) (s : State),
    (requests (snd (waitForBridgeAuthCode_loop env fuel url interval timeout start s))
     <= requests s
        + Z.to_nat ((start + timeout - clock s + setTimeout_delay interval - 1)
                    / setTimeout_delay interval))%nat.
Proof.
  intros Hlag.
  pose proof (setTimeout_delay_positive interval) as Hd.
  induction fuel as [|fuel IH]; intros s; [cbn; lia|].
  rewrite loop_round.
  destruct (Z.ltb_spec0 (clock s - start) timeout) as [Hlt|Hge]; [|cbn; lia].
  cbn zeta.
  set (s1 := tick _ (requested url s)).
  assert (Hone : (1 <= Z.to_nat ((start + timeout - clock s + setTimeout_delay interval - 1)
                                 / setTimeout_delay interval))%nat).
  { apply (Z2Nat.inj_le 1); [lia | | ].
    - apply Z.div_pos; lia.
    - apply Z.div_le_lower_bound; lia. }
  destruct (poll_verdict env (network env (requests s) url)) as [[code|]| | |];
    try (cbn [snd]; change (requests s1) with (S (requests s)); lia).
  etransitivity; [apply IH|].
  change (requests (slept env interval s1)) with (S (requests s)).
  pose proof (slept_advances_by_delay env interval s1 (Hlag _)) as Hadv.
  pose proof (poll_duration_nonneg (network env (requests s) url)) as Hdur.
  assert (Hc1 : clock s1 = clock s + poll_duration (network env (requests s) url))
    by reflexivity.
  set (d := setTimeout_delay interval) in *.
  set (rem := start + timeout - clock s) in *.
  assert (Hle : (start + timeout - clock (slept env interval s1) + d - 1) / d
                <= (rem - 1) / d).
  { apply Z.div_le_mono; lia. }
  assert (Hsplit : (rem + d - 1) / d = (rem - 1) / d + 1).
  { replace (rem + d - 1) with (rem - 1 + 1 * d) by lia. apply Z.div_add. lia. }
  rewrite Hsplit.
  assert (0 <= (rem - 1) / d) by (apply Z.div_pos; lia).
  set (q' := (start + timeout - clock (slept env interval s1) + d - 1) / d) in *.
  set (q := (rem - 1) / d) in *.
  lia.
Qed.

(** A timer seen to fire early lets one more request through than the
    timer delays that fit in the timeout: six requests for a timeout of 5 ms
    polled every millisecond. *)
Lemma early_timer_exceeds_budget :
  request_budget 1 5 = 5%nat
  /\ requests (snd (waitForBridgeAuthCode early_timer_env 10
                      (js "https://bridge.example.com/poll") 1 5 start_state)) = 6%nat
  /\ fst (waitForBridgeAuthCode early_timer_env 10
            (js "https://bridge.example.com/poll") 1 5 start_state)
     = Throws (timed_out 5).
Proof. repeat split. Qed.

(** X13: the bridge poll loop paces itself by its timer. Whatever the bridge
    answers, one call of [waitForBridgeAuthCode] issues no request when the
    timeout is not positive, and requests and waits alternate: it has issued
    at most one request more than it has awaited timers, and never awaited
    more timers than it has issued requests. How many requests that makes
    depends on how the clock moves across the waits: in an environment where
    no timer is seen to fire early, it is at most one request per timer delay
    that fits in the timeout, rounded up (the delay being the poll interval,
    or 1 ms when the interval is below 1 or above 2^31 - 1). *)
Theorem bridge_requests_are_paced (env : Env) (fuel : nat) (url : jsstring)
    (interval timeout : Z) (s : State) :
  (timeout <= 0 ->
   requests (snd (waitForBridgeAuthCode env fuel url interval timeout s)) = requests s)
  /\ (requests (snd (waitForBridgeAuthCode env fuel url interval timeout s)) + timers s
      <= requests s + timers (snd (waitForBridgeAuthCode env fuel url interval timeout s))
         + 1)%nat
  /\ (timers (snd (waitForBridgeAuthCode env fuel url interval timeout s)) + requests s
      <= timers s + requests (snd (waitForBridgeAuthCode env fuel url interval timeout s)))%nat
  /\ ((forall i, 0 <= timer_lag env i) ->
      (requests (snd (waitForBridgeAuthCode env fuel url interval timeout s))
       <= requests s + request_budget interval timeout)%nat).
Proof.
  unfold waitForBridgeAuthCode. rewrite (bind_eq Date_now _ s _ _ eq_refl).
  split; [|split; [|split]].
  - intros Hle. destruct fuel as [|fuel]; [reflexivity|].
    rewrite loop_round.
    destruct (Z.ltb_spec0 (clock s - clock s) timeout); [lia | reflexivity].
  - exact (proj1 (loop_alternates env url interval timeout (clock s) fuel s)).
  - exact (proj2 (loop_alternates env url interval timeout (clock s) fuel s)).
  - intros Hlag.
    pose proof (loop_request_budget env url interval timeout (clock s) Hlag fuel s) as H.
    unfold request_budget.
    replace (clock s + timeout - clock s + setTimeout_delay interval - 1)
      with (timeout + setTimeout_delay interval - 1) in H by lia.
    exact H.
Qed.

Lemma bridge_requests_are_paced_witness :
  request_budget 2000 30000 = 15%nat
  /\ (requests (snd (waitForBridgeAuthCode (sample_env (js "linux") (always 202 [])) 100
                       (js "https://bridge.example.com/poll") 2000 30000 start_state))
      <= 15)%nat
  /\ requests (snd (waitForBridgeAuthCode (sample_env (js "linux") (always 202 [])) 100
                      (js "https://bridge.example.com/poll") 2000 0 start_state)) = 0%nat.
Proof.
  destruct (bridge_requests_are_paced (sample_env (js "linux") (always 202 [])) 100
              (js "https://bridge.example.com/poll") 2000 30000 start_state)
    as (_ & _ & _ & Hb).
  destruct (bridge_requests_are_paced (sample_env (js "linux") (always 202 [])) 100
              (js "https://bridge.example.com/poll") 2000 0 start_state) as (Hz & _).
  split; [reflexivity|]. split.
  - apply Hb. intros i. cbn [sample_env timer_lag]. lia.
  - apply Hz. lia.
Defined.

Lemma after_round_clock (env : Env) (url : jsstring) (interval : Z) (s : State) :
  clock s <= clock (after_round env url interval s).
Proof.
  unfold after_round.
  pose proof (slept_monotone env interval
                (tick (poll_duration (network env (requests s) url)) (requested url s))).
  pose proof (poll_duration_nonneg (network env (requests s) url)).
  cbn [clock tick requested] in *. lia.
Qed.

Lemma after_rounds_clock (env : Env) (url : jsstring) (interval : Z) (k : nat) :
  forall s, clock s <= clock (after_rounds env url interval k s).
Proof.
  induction k as [|k IH]; intros s; cbn [after_rounds]; [lia|].
  pose proof (after_round_clock env url interval s). specialize (IH (after_round env url interval s)).
  lia.
Qed.

Lemma loop_eventually_returns (env : Env) (url : jsstring) (interval timeout start : Z)
    (code : jsvalue) (k : nat) :
  forall (fuel : nat) (s : State),
    (k < fuel)%nat ->
    (forall j, (j < k)%nat -> keeps_polling env (network env (requests s + j) url) = true) ->
    poll_verdict env (network env (requests s + k) url) = Returns (Some code) ->
    clock (after_rounds env url interval k s) - start < timeout ->
    waitForBridgeAuthCode_loop env fuel url interval timeout start s
    = (Returns code,
       tick (poll_duration (network env (requests s + k) url))
         (requested url (after_rounds env url interval k s))).
Proof.
  induction k as [|k IH]; intros fuel s Hfuel Hkeep Hcode Htime.
  - destruct fuel as [|fuel]; [lia|]. rewrite loop_round.
    cbn [after_rounds] in *. rewrite Nat.add_0_r in *.
    destruct (Z.ltb_spec0 (clock s - start) timeout); [|lia].
    cbn zeta. rewrite Hcode. reflexivity.
  - destruct fuel as [|fuel]; [lia|]. rewrite loop_round.
    cbn [after_rounds] in *.
    pose proof (after_rounds_clock env url interval k (after_round env url interval s)).
    pose proof (after_round_clock env url interval s).
    destruct (Z.ltb_spec0 (clock s - start) timeout); [|lia].
    cbn zeta.
    pose proof (Hkeep 0%nat ltac:(lia)) as Hfirst. rewrite Nat.add_0_r in Hfirst.
    rewrite (keeps_polling_verdict _ _ Hfirst).
    change (slept env interval
              (tick (poll_duration (network env (requests s) url)) (requested url s)))
      with (after_round env url interval s).
    assert (Hreq : requests (after_round env url interval s) = S (requests s)) by reflexivity.
    rewrite (IH fuel (after_round env url interval s)); try lia.
    + rewrite Hreq. replace (S (requests s) + k)%nat with (requests s + S k)%nat by lia.
      reflexivity.
    + intros j Hj. rewrite Hreq.
      replace (S (requests s) + j)%nat with (requests s + S j)%nat by lia.
      apply Hkeep. lia.
    + rewrite Hreq. replace (S (requests s) + k)%nat with (requests s + S k)%nat by lia.
      exact Hcode.
Qed.

(** X14: the bridge poll loop returns the first code it is offered while
    time remains: if the first [k] answers keep it polling, the next answer
    is a 200 in time whose body yields a truthy code, and the [k] rounds of
    request and wait before it took less than the timeout, then
    [waitForBridgeAuthCode] returns that code after exactly [k + 1] requests
    and [k] waits. *)
Theorem bridge_returns_first_code (env : Env) (fuel : nat) (url : jsstring)
    (interval timeout : Z) (s : State) (k : nat) (r : Response) (text : jsstring) :
  (k < fuel)%nat ->
  (forall j, (j < k)%nat -> keeps_polling env (network env (requests s + j) url) = true) ->
  answer (network env (requests s + k) url) = Responds r ->
  Z.of_N (latency (network env (requests s + k) url)) < 10000 ->
  status r = 200 ->
  body r = Some text ->
  truthy (extractAuthCode env text) = true ->
  clock (after_rounds env url interval k s) - clock s < timeout ->
  fst (waitForBridgeAuthCode env fuel url interval timeout s)
  = Returns (extractAuthCode env text)
  /\ requests (snd (waitForBridgeAuthCode env fuel url interval timeout s))
     = (requests s + k + 1)%nat
  /\ timers (snd (waitForBridgeAuthCode env fuel url interval timeout s))
     = (timers s + k)%nat.
Proof.
  intros Hfuel Hkeep Hans Hlat Hst Hbody Htruthy Htime.
  assert (Hverdict : poll_verdict env (network env (requests s + k) url)
                     = Returns (Some (extractAuthCode env text))).
  { unfold poll_verdict.
    destruct (Z.leb_spec0 10000 (Z.of_N (latency (network env (requests s + k) url))));
      [lia|].
    rewrite Hans, Hst, Hbody, Htruthy. reflexivity. }
  unfold waitForBridgeAuthCode. rewrite (bind_eq Date_now _ s _ _ eq_refl).
  rewrite (loop_eventually_returns env url interval timeout (clock s) _ k fuel s
             Hfuel Hkeep Hverdict Htime).
  cbn [fst snd tick requested requests timers].
  split; [reflexivity|].
  assert (Hcount : forall n s0,
            requests (after_rounds env url interval n s0) = (requests s0 + n)%nat
            /\ timers (after_rounds env url interval n s0) = (timers s0 + n)%nat).
  { induction n as [|n IHn]; intros s0; cbn [after_rounds]; [lia|].
    destruct (IHn (after_round env url interval s0)) as [-> ->].
    cbn [after_round slept tick requested requests timers]. lia. }
  destruct (Hcount k s) as [-> ->]. lia.
Qed.

Lemma bridge_returns_first_code_witness :
  fst (waitForBridgeAuthCode (sample_env (js "linux") (pending_then_code 2)) 3
         (js "https://bridge.example.com/poll") 1 40 start_state)
  = Returns (Some (JString (js "auth-code-1")))
  /\ requests (snd (waitForBridgeAuthCode (sample_env (js "linux") (pending_then_code 2)) 3
                      (js "https://bridge.example.com/poll") 1 40 start_state)) = 3%nat.
Proof.
  destruct (bridge_returns_first_code (sample_env (js "linux") (pending_then_code 2)) 3
              (js "https://bridge.example.com/poll") 1 40 start_state 2
              {| status := 200; body := Some both_codes_body |} both_codes_body)
    as (Hret & Hreq & _).
  - lia.
  - intros j Hj. destruct j as [|[|j]]; [reflexivity | reflexivity | lia].
  - reflexivity.
  - vm_compute. reflexivity.
  - reflexivity.
  - reflexivity.
  - vm_compute. reflexivity.
  - vm_compute. reflexivity.
  - split; [exact Hret | exact Hreq].
Defined.

Lemma replaceAll_absent (pat rep s : jsstring) :
  occurs pat s = false -> replaceAll pat rep s = s.
Proof.
  unfold replaceAll. induction s as [|c s IH]; intros H; [reflexivity|].
  cbn [occurs] in H. apply orb_false_iff in H as [Hhere Hrest].
  cbn [replaceAll_from]. rewrite Hhere. rewrite (IH Hrest). reflexivity.
Qed.

(** X15: for a template that contains neither placeholder,
    [resolveBridgePollUrl] leaves the template as it is and has the URL
    machinery set [session_id] and [server_url_hash], in that order and with
    the raw (unencoded) values: the result is what that yields, or an error
    when the template is no valid URL. Both values are still encoded first,
    so a value that cannot be encoded makes the call fail even though its
    encoding is not used. *)
Theorem resolveBridgePollUrl_without_placeholders (env : Env)
    (template authSessionId serverUrlHash : jsstring) (s : State) :
  occurs (js "{session_id}") template = false ->
  occurs (js "{server_url_hash}") template = false ->
  (forall sid hash,
     encodeURIComponent env authSessionId = Some sid ->
     encodeURIComponent env serverUrlHash = Some hash ->
     resolveBridgePollUrl env template authSessionId serverUrlHash s
     = (match URL_with_searchParams env template
                [(js "session_id", authSessionId); (js "server_url_hash", serverUrlHash)] with
        | Some u => Returns u
        | None => Throws (mkError (js "Invalid URL"))
        end, s))
  /\ (encodeURIComponent env authSessionId = None
      \/ encodeURIComponent env serverUrlHash = None ->
      resolveBridgePollUrl env template authSessionId serverUrlHash s
      = (Throws (mkError (js "URI malformed")), s)).
Proof.
  intros H1 H2. split.
  - intros sid hash Hs Hh. unfold resolveBridgePollUrl. rewrite Hs, Hh.
    rewrite (replaceAll_absent _ sid template H1).
    rewrite (replaceAll_absent _ hash template H2).
    rewrite bool_decide_eq_true_2 by reflexivity. cbn [negb].
    destruct (URL_with_searchParams env template _); reflexivity.
  - intros [Hs | Hh]; unfold resolveBridgePollUrl.
    + rewrite Hs. reflexivity.
    + rewrite Hh. destruct (encodeURIComponent env authSessionId); reflexivity.
Qed.

Lemma resolveBridgePollUrl_without_placeholders_witness :
  resolveBridgePollUrl (sample_env (js "linux") (always 202 []))
    (js "https://bridge.example.com/poll") (js "s 1") (js "server-hash") start_state
  = (Returns (js "https://bridge.example.com/poll?session_id=s 1&server_url_hash=server-hash"),
     start_state).
Proof.
  destruct (resolveBridgePollUrl_without_placeholders (sample_env (js "linux") (always 202 []))
              (js "https://bridge.example.com/poll") (js "s 1") (js "server-hash") start_state)
    as (Hok & _).
  - vm_compute. reflexivity.
  - vm_compute. reflexivity.
  - exact (Hok (js "s 1") (js "server-hash") eq_refl eq_refl).
Defined.

Lemma nothing_contacted_refl (s : State) : nothing_contacted s s.
Proof. repeat split. Qed.

Lemma coordinateBridgeAuth_contacts_nothing (env : Env) (hash : jsstring)
    (options : AuthCoordinatorOptions) (s : State) :
  nothing_contacted s (snd (coordinateBridgeAuth env hash options s)).
Proof.
  unfold coordinateBridgeAuth, resolveBridgePollUrl, new_object, bind, ret, throw.
  destruct (authBridgePollUrl options) as [template|]; [|apply nothing_contacted_refl].
  destruct (truthy_string template); [|apply nothing_contacted_refl].
  destruct (encodeURIComponent env _); [|apply nothing_contacted_refl].
  destruct (encodeURIComponent env hash); [|apply nothing_contacted_refl].
  destruct (negb _).
  - destruct (default false (authBridgeExitAfterAuthorizeUrl options)); repeat split.
  - destruct (URL_with_searchParams env _ _); [|apply nothing_contacted_refl].
    destruct (default false (authBridgeExitAfterAuthorizeUrl options)); repeat split.
Qed.

(** X16: apart from the lines it logs, which the model does not record,
    setting up bridge coordination contacts nothing: whatever its outcome,
    [coordinateBridgeAuth] sends no request, awaits no timer, reads or
    changes no lock record, signals no process and starts no server. With no
    poll URL (absent or empty) it throws
    ["authBridgePollUrl is required for bridge auth mode"], and so does
    [initializeAuth()] of a fresh bridge coordinator, again without
    contacting anything. The state it returns has [skipBrowserAuth = false]
    and no server; and in emit-only mode its [waitForAuthCode] rejects at
    once, without a request or a timer, on every call. *)
Theorem bridge_setup_contacts_nothing (env : Env) (hash : jsstring)
    (options : AuthCoordinatorOptions) (s : State) :
  nothing_contacted s (snd (coordinateBridgeAuth env hash options s))
  /\ (authBridgePollUrl options = None \/ authBridgePollUrl options = Some [] ->
      fst (coordinateBridgeAuth env hash options s)
      = Throws (mkError (js "authBridgePollUrl is required for bridge auth mode"))
      /\ (authMode options = bridge ->
          forall fuel events,
            fst (initializeAuth env fuel (createLazyAuthCoordinator hash events options) s)
            = Throws (mkError (js "authBridgePollUrl is required for bridge auth mode"))
            /\ nothing_contacted s
                 (snd (initializeAuth env fuel
                         (createLazyAuthCoordinator hash events options) s))))
  /\ (forall st,
        fst (coordinateBridgeAuth env hash options s) = Returns st ->
        skipBrowserAuth st = false
        /\ server st = None
        /\ (authBridgeExitAfterAuthorizeUrl options = Some true ->
            forall fuel w,
              fst (waitForAuthCode st fuel w)
              = Throws (mkError (js "Bridge auth emit-only mode: authorization URL emitted."))
              /\ nothing_contacted w (snd (waitForAuthCode st fuel w)))).
Proof.
  split; [apply coordinateBridgeAuth_contacts_nothing|]. split.
  - intros Hurl.
    assert (E : coordinateBridgeAuth env hash options s
                = (Throws (mkError (js "authBridgePollUrl is required for bridge auth mode")), s)).
    { unfold coordinateBridgeAuth. destruct Hurl as [-> | ->]; reflexivity. }
    split; [rewrite E; reflexivity|].
    intros Hmode fuel events. unfold initializeAuth, createLazyAuthCoordinator.
    cbn [authState co_options co_serverUrlHash]. rewrite Hmode.
    rewrite (bind_eq _ _ _ _ _ E). split; [reflexivity | apply nothing_contacted_refl].
  - intros st. unfold coordinateBridgeAuth, resolveBridgePollUrl, new_object, bind, ret, throw.
    destruct (authBridgePollUrl options) as [template|]; [|discriminate].
    destruct (truthy_string template); [|discriminate].
    destruct (encodeURIComponent env _); [|discriminate].
    destruct (encodeURIComponent env hash); [|discriminate].
    destruct (negb _).
    + destruct (authBridgeExitAfterAuthorizeUrl options) as [[|]|]; cbn [default fst];
        intros [= <-]; repeat split; try discriminate.
    + destruct (URL_with_searchParams env _ _); [|discriminate].
      destruct (authBridgeExitAfterAuthorizeUrl options) as [[|]|]; cbn [default fst];
        intros [= <-]; repeat split; try discriminate.
Qed.

Lemma bridge_setup_contacts_nothing_witness :
  (authBridgePollUrl urlless_options = None
   /\ fst (initializeAuth (sample_env (js "linux") (always 202 [])) 5
             (createLazyAuthCoordinator (js "server-hash") 0 urlless_options) start_state)
      = Throws (mkError (js "authBridgePollUrl is required for bridge auth mode")))
  /\ (coordinateBridgeAuth (sample_env (js "linux") (always 202 [])) (js "server-hash")
        emit_only_options start_state
      = (Returns emit_only_state, snd (new_object start_state))
      /\ fst (waitForAuthCode emit_only_state 5 start_state)
         = Throws (mkError (js "Bridge auth emit-only mode: authorization URL emitted."))).
Proof.
  split.
  - split; [reflexivity|].
    destruct (bridge_setup_contacts_nothing (sample_env (js "linux") (always 202 []))
                (js "server-hash") urlless_options start_state) as (_ & Hthrow & _).
    destruct (Hthrow (or_introl eq_refl)) as (_ & Hinit).
    exact (proj1 (Hinit eq_refl 5%nat 0%nat)).
  - assert (E : coordinateBridgeAuth (sample_env (js "linux") (always 202 []))
                  (js "server-hash") emit_only_options start_state
                = (Returns emit_only_state, snd (new_object start_state)))
      by reflexivity.
    split; [exact E|].
    destruct (bridge_setup_contacts_nothing (sample_env (js "linux") (always 202 []))
                (js "server-hash") emit_only_options start_state) as (_ & _ & Hret).
    destruct (Hret emit_only_state ltac:(rewrite E; reflexivity)) as (_ & _ & Hemit).
    exact (proj1 (Hemit eq_refl 5%nat start_state)).
Defined.

End PollingFacts.

(** ** Further properties of lock coordination *)

Module TakeoverFacts.

Import Coordination CoordinationSpec TakeoverSpec CoordinationSamples
  TakeoverSamples Steps LockFacts BridgeFacts PollingFacts CoordinatorFacts.

Local Open Scope Z_scope.

(** The world a secondary instance leaves after adoption. *)
Lemma adopted_state_frame (s2 : State) :
  lockfiles {| clock := clock s2; requests := requests s2; timers := timers s2;
               lockfiles := lockfiles s2; trace := trace s2 ++ [Listen 0];
               objects := S (objects s2) |} = lockfiles s2.
Proof. reflexivity. Qed.

(** [coordinateAuth] off win32, branch by branch. *)
Lemma coordinateAuth_eq (env : Env) (fuel : nat) (hash : jsstring) (cp : Z) (ev : nat)
    (t : Z) (s : State) :
  process_platform env <> js "win32" ->
  coordinateAuth env fuel hash cp ev t s
  = match lockfiles s !! hash with
    | None => becomePrimary env hash cp ev t (record (CheckLockfile hash) s)
    | Some l =>
        match isLockValid env l (record (CheckLockfile hash) s) with
        | (Returns true, s1) =>
            match waitForAuthentication env fuel (port l) s1 with
            | (Returns true, s2) =>
                (Returns (secondary_handlers env (objects s2)),
                 {| clock := clock s2; requests := requests s2; timers := timers s2;
                    lockfiles := lockfiles s2; trace := trace s2 ++ [Listen 0];
                    objects := S (objects s2) |})
            | (Returns false, s2) | (Throws _, s2) =>
                becomePrimary env hash cp ev t (lock_removed hash s2)
            | (NeverSettles, s2) => (NeverSettles, s2)
            | (OutOfFuel, s2) => (OutOfFuel, s2)
            end
        | (Returns false, s1) => becomePrimary env hash cp ev t (lock_removed hash s1)
        | (Throws e, s1) => (Throws e, s1)
        | (NeverSettles, s1) => (NeverSettles, s1)
        | (OutOfFuel, s1) => (OutOfFuel, s1)
        end
    end.
Proof.
  intros Hplat. unfold coordinateAuth.
  rewrite (bool_decide_eq_false_2 _ Hplat).
  assert (Hcheck : checkLockfile hash s
                   = (Returns (lockfiles s !! hash), record (CheckLockfile hash) s))
    by reflexivity.
  rewrite (bind_eq _ _ _ _ _ Hcheck).
  destruct (lockfiles s !! hash) as [l|]; [|reflexivity].
  destruct (isLockValid env l (record (CheckLockfile hash) s)) as [rv s1] eqn:Ev.
  rewrite (bind_eq _ _ _ _ _ Ev).
  destruct rv as [[|]|e| |]; try reflexivity.
  destruct (waitForAuthentication env fuel (port l) s1) as [ra s2] eqn:Ew.
  unfold bind at 1. unfold bind at 1.
  rewrite (try_catch_eq _ _ s1
             match ra with
             | Returns true => Returns (Some (secondary_handlers env (objects s2)))
             | Returns false => Returns None
             | Throws e => Throws e
             | NeverSettles => NeverSettles
             | OutOfFuel => OutOfFuel
             end
             match ra with
             | Returns true =>
                 {| clock := clock s2; requests := requests s2; timers := timers s2;
                    lockfiles := lockfiles s2; trace := trace s2 ++ [Listen 0];
                    objects := S (objects s2) |}
             | _ => s2
             end).
  2:{ rewrite (bind_eq _ _ _ _ _ Ew). destruct ra as [[|]|e| |]; reflexivity. }
  destruct ra as [[|]|e| |]; reflexivity.
Qed.

Lemma long_poll_frame (env : Env) (p : Z) :
  forall (fuel : nat) (s : State),
    lockfiles (snd (waitForAuthentication_loop env fuel p s)) = lockfiles s
    /\ match fst (waitForAuthentication_loop env fuel p s) with
       | Throws _ | NeverSettles => False
       | _ => True
       end.
Proof.
  induction fuel as [|fuel IH]; intros s; [split; [reflexivity | exact I]|].
  rewrite long_poll_round. cbn zeta.
  destruct (answer (network env (requests s) (poll_url p))) as [r|].
  - destruct (status r =? 200); [split; [reflexivity | exact I]|].
    destruct (status r =? 202); [|split; [reflexivity | exact I]].
    destruct (IH (slept env 1000
                    (tick (Z.of_N (latency (network env (requests s) (poll_url p))))
                       (requested (poll_url p) s)))) as [Hl Hr].
    split; [rewrite Hl; reflexivity | exact Hr].
  - destruct (IH (slept env 2000
                    (tick (Z.of_N (latency (network env (requests s) (poll_url p))))
                       (requested (poll_url p) s)))) as [Hl Hr].
    split; [rewrite Hl; reflexivity | exact Hr].
Qed.

Lemma waitForAuthentication_frame (env : Env) (fuel : nat) (p : Z) (s : State) :
  lockfiles (snd (waitForAuthentication env fuel p s)) = lockfiles s
  /\ match fst (waitForAuthentication env fuel p s) with
     | Throws _ | NeverSettles => False
     | _ => True
     end.
Proof.
  unfold waitForAuthentication, try_catch.
  destruct (long_poll_frame env p fuel s) as [Hl Hr].
  destruct (waitForAuthentication_loop env fuel p s) as [[b|e| |] s'];
    cbn [fst snd] in *; try contradiction; auto.
Qed.

Lemma long_poll_abandons (env : Env) (p : Z) (k : nat) :
  forall (fuel : nat) (s : State),
    (k < fuel)%nat ->
    long_poll_gives_up env p (requests s) k ->
    exists s',
      waitForAuthentication_loop env fuel p s = (Returns false, s')
      /\ requests s' = (requests s + k + 1)%nat
      /\ timers s' = (timers s + k)%nat.
Proof.
  induction k as [|k IH]; intros fuel s Hfuel (Hretry & r & Hr & H200 & H202).
  - destruct fuel as [|fuel]; [lia|].
    rewrite long_poll_round. cbn zeta.
    rewrite Nat.add_0_r in Hr. rewrite Hr.
    destruct (Z.eqb_spec (status r) 200); [contradiction|].
    destruct (Z.eqb_spec (status r) 202); [contradiction|].
    eexists. split; [reflexivity|]. cbn [tick requested requests timers].
    split; lia.
  - destruct fuel as [|fuel]; [lia|].
    rewrite long_poll_round. cbn zeta.
    pose proof (Hretry 0%nat ltac:(lia)) as Hfirst.
    rewrite Nat.add_0_r in Hfirst. unfold asks_to_retry in Hfirst.
    set (s1 := tick (Z.of_N (latency (network env (requests s) (poll_url p))))
                 (requested (poll_url p) s)) in *.
    assert (Hnext : forall ms,
              long_poll_gives_up env p (requests (slept env ms s1)) k).
    { intros ms. change (requests (slept env ms s1)) with (S (requests s)). split.
      - intros j Hj. specialize (Hretry (S j) ltac:(lia)).
        replace (S (requests s) + j)%nat with (requests s + S j)%nat by lia. exact Hretry.
      - exists r. replace (S (requests s) + k)%nat with (requests s + S k)%nat by lia. auto. }
    assert (Hstep : forall ms,
              exists s',
                waitForAuthentication_loop env fuel p (slept env ms s1) = (Returns false, s')
                /\ requests s' = (requests s + S k + 1)%nat
                /\ timers s' = (timers s + S k)%nat).
    { intros ms.
      destruct (IH fuel (slept env ms s1) ltac:(lia) (Hnext ms)) as (s' & E & Hq & Ht).
      exists s'. split; [exact E|].
      change (requests (slept env ms s1)) with (S (requests s)) in Hq.
      change (timers (slept env ms s1)) with (S (timers s)) in Ht.
      split; lia. }
    destruct (answer (network env (requests s) (poll_url p))) as [r0|].
    + apply Z.eqb_eq in Hfirst. rewrite Hfirst.
      change (202 =? 200) with false. change (202 =? 202) with true. cbn iota.
      apply Hstep.
    + apply Hstep.
Qed.

Lemma waitForAuthentication_abandons (env : Env) (fuel : nat) (p : Z) (k : nat)
    (s : State) :
  (k < fuel)%nat ->
  long_poll_gives_up env p (requests s) k ->
  fst (waitForAuthentication env fuel p s) = Returns false
  /\ requests (snd (waitForAuthentication env fuel p s)) = (requests s + k + 1)%nat
  /\ timers (snd (waitForAuthentication env fuel p s)) = (timers s + k)%nat.
Proof.
  intros Hfuel Hgive.
  destruct (long_poll_abandons env p k fuel s Hfuel Hgive) as (s' & E & Hq & Ht).
  unfold waitForAuthentication. rewrite (try_catch_eq _ _ _ _ _ E). auto.
Qed.

(** X17: the long poll of another instance, [waitForAuthentication], never
    throws and never touches a lock record; and when, after [k] answers that
    ask to retry (202, or no connection), an answer arrives whose status is
    neither 200 nor 202, it returns [false] after exactly [k + 1] requests,
    having awaited exactly one timer per retry. *)
Theorem waitForAuthentication_gives_up (env : Env) (fuel : nat) (p : Z) (s : State) :
  match fst (waitForAuthentication env fuel p s) with
  | Throws _ | NeverSettles => False
  | _ => True
  end
  /\ lockfiles (snd (waitForAuthentication env fuel p s)) = lockfiles s
  /\ (forall k, (k < fuel)%nat ->
        long_poll_gives_up env p (requests s) k ->
        fst (waitForAuthentication env fuel p s) = Returns false
        /\ requests (snd (waitForAuthentication env fuel p s)) = (requests s + k + 1)%nat
        /\ timers (snd (waitForAuthentication env fuel p s)) = (timers s + k)%nat).
Proof.
  destruct (waitForAuthentication_frame env fuel p s) as [Hl Hr].
  split; [exact Hr|]. split; [exact Hl|].
  intros k Hfuel Hgive. exact (waitForAuthentication_abandons env fuel p k s Hfuel Hgive).
Qed.

Lemma waitForAuthentication_gives_up_witness :
  fst (waitForAuthentication (sample_env (js "linux") probe_then_error) 3 3334
         (snd (isLockValid (sample_env (js "linux") probe_then_error) sample_lock locked_state)))
  = Returns false.
Proof.
  destruct (waitForAuthentication_gives_up (sample_env (js "linux") probe_then_error) 3 3334
              (snd (isLockValid (sample_env (js "linux") probe_then_error) sample_lock
                      locked_state)))
    as (_ & _ & Hgive).
  apply (Hgive 0%nat); [lia|].
  split; [intros j Hj; lia|].
  exists {| status := 500; body := Some [] |}.
  split; [reflexivity|]. split; discriminate.
Defined.

Lemma isLockValid_frame (env : Env) (l : LockfileData) (s : State) :
  lockfiles (snd (isLockValid env l s)) = lockfiles s.
Proof.
  rewrite isLockValid_eq.
  destruct (1800000 <? _); [reflexivity|].
  destruct (signal_delivered env (pid l)); [|reflexivity].
  cbn zeta. destruct (1000 <=? _); reflexivity.
Qed.

Lemma isLockValid_invalid (env : Env) (l : LockfileData) (s : State) :
  ~ valid_lock env s l -> fst (isLockValid env l s) = Returns false.
Proof.
  intros Hnot. destruct (isLockValid_total env l s) as [[|] E]; [|exact E].
  exfalso. apply Hnot. apply isLockValid_true_inv. exact E.
Qed.

Lemma becomePrimary_bound (env : Env) (hash : jsstring) (cp : Z) (ev : nat) (t : Z)
    (s : State) (p : Z) :
  callback_listen env cp = Bound p \/ callback_listen env cp = BoundLater p ->
  becomePrimary env hash cp ev t s
  = (Returns (primary_handlers env cp t (objects s)), primary_state env hash cp p s).
Proof. intros [H | H]; rewrite becomePrimary_eq, H; reflexivity. Qed.

Lemma becomePrimary_returns (env : Env) (hash : jsstring) (cp : Z) (ev : nat) (t : Z)
    (s : State) (st : AuthCoordinatorState) (s' : State) :
  becomePrimary env hash cp ev t s = (Returns st, s') ->
  skipBrowserAuth st = false
  /\ exists p, lockfiles s' = <[hash := own_lock env p (clock s')]> (lockfiles s).
Proof.
  rewrite becomePrimary_eq.
  destruct (callback_listen env cp) as [p|p| |]; try discriminate;
    intros [= <- <-]; (split; [reflexivity | exists p; reflexivity]).
Qed.

(** X18: off win32, a process that finds no valid lock becomes the primary.
    With no lock record it reads once and goes straight on; with a record
    that fails validation (too old, owner gone, probe unanswered) it deletes
    the record first. Either way, once its callback server has an address the
    lock record of the identity is its own: its pid, the server's port and
    the time of writing. *)
Theorem missing_or_invalid_lock_becomes_primary (env : Env) (fuel : nat) (hash : jsstring)
    (callbackPort : Z) (events : nat) (timeoutMs : Z) (s : State) :
  process_platform env <> js "win32" ->
  (lockfiles s !! hash = None ->
   coordinateAuth env fuel hash callbackPort events timeoutMs s
   = becomePrimary env hash callbackPort events timeoutMs (record (CheckLockfile hash) s))
  /\ (forall l, lockfiles s !! hash = Some l -> ~ valid_lock env s l ->
        coordinateAuth env fuel hash callbackPort events timeoutMs s
        = becomePrimary env hash callbackPort events timeoutMs
            (lock_removed hash (snd (isLockValid env l (record (CheckLockfile hash) s)))))
  /\ (forall p,
        callback_listen env callbackPort = Bound p
        \/ callback_listen env callbackPort = BoundLater p ->
        (lockfiles s !! hash = None
         \/ exists l, lockfiles s !! hash = Some l /\ ~ valid_lock env s l) ->
        exists st s',
          coordinateAuth env fuel hash callbackPort events timeoutMs s = (Returns st, s')
          /\ skipBrowserAuth st = false
          /\ lockfiles s' !! hash = Some (own_lock env p (clock s'))).
Proof.
  intros Hplat.
  assert (Hnone : lockfiles s !! hash = None ->
            coordinateAuth env fuel hash callbackPort events timeoutMs s
            = becomePrimary env hash callbackPort events timeoutMs
                (record (CheckLockfile hash) s)).
  { intros H. rewrite (coordinateAuth_eq env fuel hash _ _ _ s Hplat), H. reflexivity. }
  assert (Hbad : forall l, lockfiles s !! hash = Some l -> ~ valid_lock env s l ->
            coordinateAuth env fuel hash callbackPort events timeoutMs s
            = becomePrimary env hash callbackPort events timeoutMs
                (lock_removed hash (snd (isLockValid env l (record (CheckLockfile hash) s))))).
  { intros l Hl Hnot. rewrite (coordinateAuth_eq env fuel hash _ _ _ s Hplat), Hl.
    pose proof (isLockValid_invalid env l (record (CheckLockfile hash) s) Hnot) as E.
    destruct (isLockValid env l (record (CheckLockfile hash) s)) as [rv s1].
    cbn [fst snd] in *. rewrite E. reflexivity. }
  split; [exact Hnone|]. split; [exact Hbad|].
  intros p Hbound [H | (l & Hl & Hnot)].
  - rewrite (Hnone H), (becomePrimary_bound _ _ _ _ _ _ p Hbound).
    eexists _, _. split; [reflexivity|]. split; [reflexivity|].
    cbn [primary_state lockfiles clock record]. apply lookup_insert_eq.
  - rewrite (Hbad l Hl Hnot), (becomePrimary_bound _ _ _ _ _ _ p Hbound).
    eexists _, _. split; [reflexivity|]. split; [reflexivity|].
    cbn [primary_state lockfiles clock]. apply lookup_insert_eq.
Qed.

Lemma missing_or_invalid_lock_becomes_primary_witness :
  ~ valid_lock lonely_env locked_state sample_lock
  /\ exists st s',
       coordinateAuth lonely_env 5 (js "server-hash") 3333 0 30000 locked_state
       = (Returns st, s')
       /\ skipBrowserAuth st = false
       /\ lockfiles s' !! js "server-hash" = Some (own_lock lonely_env 3333 (clock s')).
Proof.
  assert (Hnot : ~ valid_lock lonely_env locked_state sample_lock).
  { intros (_ & Halive & _). discriminate Halive. }
  split; [exact Hnot|].
  destruct (missing_or_invalid_lock_becomes_primary lonely_env 5 (js "server-hash")
              3333 0 30000 locked_state) as (_ & _ & H).
  - vm_compute. discriminate.
  - apply (H 3333).
    + left. reflexivity.
    + right. exists sample_lock. split; [reflexivity | exact Hnot].
Defined.

(** X19: when adoption fails, the process takes over: off win32, with a
    valid lock on disk whose owner's long poll ends on a status that is
    neither 200 nor 202 (after any number of retries), [coordinateAuth]
    deletes that lock record and becomes the primary itself; once its
    callback server has an address the lock record of the identity is its
    own and [skipBrowserAuth] is [false]. *)
Theorem failed_adoption_takes_over (env : Env) (fuel : nat) (hash : jsstring)
    (callbackPort : Z) (events : nat) (timeoutMs : Z) (s : State) (l : LockfileData)
    (k : nat) :
  process_platform env <> js "win32" ->
  lockfiles s !! hash = Some l ->
  valid_lock env s l ->
  long_poll_gives_up env (port l) (S (requests s)) k ->
  (k < fuel)%nat ->
  exists s2,
    coordinateAuth env fuel hash callbackPort events timeoutMs s
    = becomePrimary env hash callbackPort events timeoutMs (lock_removed hash s2)
    /\ lockfiles s2 = lockfiles s
    /\ requests s2 = (requests s + k + 2)%nat
    /\ (forall p,
          callback_listen env callbackPort = Bound p
          \/ callback_listen env callbackPort = BoundLater p ->
          exists st s',
            coordinateAuth env fuel hash callbackPort events timeoutMs s = (Returns st, s')
            /\ skipBrowserAuth st = false
            /\ lockfiles s' !! hash = Some (own_lock env p (clock s'))
            /\ DeleteLockfile hash ∈ trace s').
Proof.
  intros Hplat Hlock Hvalid Hgive Hfuel.
  assert (Hvalid' : valid_lock env (record (CheckLockfile hash) s) l) by exact Hvalid.
  pose proof (isLockValid_valid env l _ Hvalid') as Ev.
  set (s1 := tick _ (requested _ _)) in Ev.
  destruct (waitForAuthentication_frame env fuel (port l) s1) as [Hl _].
  destruct (waitForAuthentication_abandons env fuel (port l) k s1 Hfuel Hgive)
    as (Hret & Hq & _).
  assert (Hrun : coordinateAuth env fuel hash callbackPort events timeoutMs s
                 = becomePrimary env hash callbackPort events timeoutMs
                     (lock_removed hash (snd (waitForAuthentication env fuel (port l) s1)))).
  { rewrite (coordinateAuth_eq env fuel hash _ _ _ s Hplat), Hlock, Ev.
    destruct (waitForAuthentication env fuel (port l) s1) as [ra s2].
    cbn [fst snd] in *. rewrite Hret. reflexivity. }
  exists (snd (waitForAuthentication env fuel (port l) s1)).
  split; [exact Hrun|]. split; [rewrite Hl; reflexivity|].
  split; [rewrite Hq; cbn [s1 tick requested record requests]; lia|].
  intros p Hbound. rewrite Hrun, (becomePrimary_bound _ _ _ _ _ _ p Hbound).
  eexists _, _. split; [reflexivity|]. split; [reflexivity|]. split.
  - cbn [primary_state lockfiles clock]. apply lookup_insert_eq.
  - cbn [primary_state lock_removed set_lockfiles record trace].
    rewrite !elem_of_app. left. right. apply list_elem_of_singleton. reflexivity.
Qed.

Lemma failed_adoption_takes_over_witness :
  exists st s',
    coordinateAuth (sample_env (js "linux") probe_then_error) 5 (js "server-hash")
      3333 0 30000 locked_state = (Returns st, s')
    /\ skipBrowserAuth st = false
    /\ lockfiles s' !! js "server-hash"
       = Some (own_lock (sample_env (js "linux") probe_then_error) 3333 (clock s')).
Proof.
  destruct (failed_adoption_takes_over (sample_env (js "linux") probe_then_error) 5
              (js "server-hash") 3333 0 30000 locked_state sample_lock 0)
    as (s2 & _ & _ & _ & H).
  - vm_compute. discriminate.
  - reflexivity.
  - split; [unfold fresh_enough; simpl; lia|]. split; [reflexivity|].
    eexists. split; [reflexivity|]. split; [right; reflexivity | simpl; lia].
  - split; [intros j Hj; lia|].
    exists {| status := 500; body := Some [] |}.
    split; [reflexivity|]. split; discriminate.
  - lia.
  - destruct (H 3333 ltac:(right; reflexivity)) as (st & s' & E & Hskip & Hown & _).
    exists st, s'. auto.
Defined.

(** X20: whenever [coordinateAuth] returns, on any platform and whatever
    the network does, one of two things holds: it adopted (then
    [skipBrowserAuth] is set, a valid lock was on disk and no lock record was
    changed), or this process is the primary (then [skipBrowserAuth] is
    [false] and the lock record of the identity is its own, stamped with the
    current time). Lock records of other server identities are never
    changed. *)
Theorem coordinateAuth_lock_invariant (env : Env) (fuel : nat) (hash : jsstring)
    (callbackPort : Z) (events : nat) (timeoutMs : Z) (s s' : State)
    (st : AuthCoordinatorState) :
  coordinateAuth env fuel hash callbackPort events timeoutMs s = (Returns st, s') ->
  (forall h, h <> hash -> lockfiles s' !! h = lockfiles s !! h)
  /\ ((skipBrowserAuth st = true
       /\ lockfiles s' = lockfiles s
       /\ exists l, lockfiles s !! hash = Some l /\ valid_lock env s l)
      \/ (skipBrowserAuth st = false
          /\ exists p, lockfiles s' !! hash = Some (own_lock env p (clock s')))).
Proof.
  assert (Hprimary : forall s0,
            (forall h, h <> hash -> lockfiles s0 !! h = lockfiles s !! h) ->
            becomePrimary env hash callbackPort events timeoutMs s0 = (Returns st, s') ->
            (forall h, h <> hash -> lockfiles s' !! h = lockfiles s !! h)
            /\ ((skipBrowserAuth st = true
                 /\ lockfiles s' = lockfiles s
                 /\ exists l, lockfiles s !! hash = Some l /\ valid_lock env s l)
                \/ (skipBrowserAuth st = false
                    /\ exists p, lockfiles s' !! hash = Some (own_lock env p (clock s'))))).
  { intros s0 Hframe E.
    destruct (becomePrimary_returns _ _ _ _ _ _ _ _ E) as (Hskip & p & Hlocks).
    split.
    - intros h Hh. rewrite Hlocks, lookup_insert_ne by (intros Heq; apply Hh; symmetry; exact Heq).
      apply Hframe, Hh.
    - right. split; [exact Hskip|]. exists p. rewrite Hlocks. apply lookup_insert_eq. }
  assert (Hremoved : forall s0, lockfiles s0 = lockfiles s ->
            forall h, h <> hash -> lockfiles (lock_removed hash s0) !! h = lockfiles s !! h).
  { intros s0 H0 h Hh. cbn [lock_removed set_lockfiles lockfiles].
    rewrite lookup_delete_ne by (intros Heq; apply Hh; symmetry; exact Heq).
    rewrite H0. reflexivity. }
  destruct (decide (process_platform env = js "win32")) as [Hwin | Hplat].
  - rewrite (coordinateAuth_win32 env fuel hash _ _ _ s Hwin).
    apply Hprimary. reflexivity.
  - rewrite (coordinateAuth_eq env fuel hash _ _ _ s Hplat).
    destruct (lockfiles s !! hash) as [l|] eqn:Hl.
    2:{ apply Hprimary. reflexivity. }
    pose proof (isLockValid_frame env l (record (CheckLockfile hash) s)) as Hf1.
    pose proof (isLockValid_true_inv env l (record (CheckLockfile hash) s)) as Hinv.
    destruct (isLockValid env l (record (CheckLockfile hash) s)) as [rv s1].
    cbn [fst snd] in *.
    destruct rv as [[|]|e| |]; try discriminate.
    + pose proof (waitForAuthentication_frame env fuel (port l) s1) as [Hf2 _].
      destruct (waitForAuthentication env fuel (port l) s1) as [ra s2].
      cbn [fst snd] in *.
      assert (Hs2 : lockfiles s2 = lockfiles s) by (rewrite Hf2, Hf1; reflexivity).
      destruct ra as [[|]|e| |]; try discriminate.
      * intros [= <- <-]. cbn [lockfiles secondary_handlers skipBrowserAuth].
        split; [intros h _; rewrite Hs2; reflexivity|].
        left. split; [reflexivity|]. split; [exact Hs2|].
        exists l. split; [reflexivity|]. exact (Hinv eq_refl).
      * apply Hprimary. apply Hremoved, Hs2.
      * apply Hprimary. apply Hremoved, Hs2.
    + apply Hprimary. apply Hremoved, Hf1.
Qed.

Lemma coordinateAuth_lock_invariant_witness :
  match coordinateAuth lonely_env 5 (js "server-hash") 3333 0 30000 locked_state with
  | (Returns st, s') =>
      skipBrowserAuth st = false /\ lockfiles s' !! js "other-hash" = None
  | _ => False
  end.
Proof.
  destruct (coordinateAuth lonely_env 5 (js "server-hash") 3333 0 30000 locked_state)
    as [[st|e| |] s'] eqn:E.
  - destruct (coordinateAuth_lock_invariant lonely_env 5 (js "server-hash") 3333 0 30000
                locked_state s' st E)
      as (Hframe & [(_ & _ & l & Hl & (_ & Halive & _)) | (Hskip & _)]).
    + injection Hl as <-. discriminate Halive.
    + split; [exact Hskip|].
      rewrite (Hframe (js "other-hash")); [reflexivity|].
      vm_compute. discriminate.
  - vm_compute in E. discriminate E.
  - vm_compute in E. discriminate E.
  - vm_compute in E. discriminate E.
Defined.

End TakeoverFacts.

(** ** Properties of the proxy's auth initializer *)

Module ProxyFacts.

Import JS Run Types Coordination Proxy CoordinationSpec CoordinationSamples Steps.

Local Open Scope Z_scope.

Lemma initializeAuth_cached (env : Env) (fuel : nat) (c : AuthCoordinator)
    (st : AuthCoordinatorState) (s : State) :
  authState c = Some st -> initializeAuth env fuel c s = (Returns (st, c), s).
Proof. intros H. unfold initializeAuth. rewrite H. reflexivity. Qed.

Lemma initializeAuth_caches (env : Env) (fuel : nat) (c c' : AuthCoordinator)
    (s s' : State) (st : AuthCoordinatorState) :
  initializeAuth env fuel c s = (Returns (st, c'), s') -> authState c' = Some st.
Proof.
  unfold initializeAuth.
  destruct (authState c) as [st0|] eqn:Hc.
  - intros [= <- <- <-]. exact Hc.
  - unfold bind.
    destruct (authMode (co_options c)).
    + destruct (coordinateAuth env fuel _ _ _ _ s) as [[st1| | |] s1]; try discriminate.
      intros [= <- <- <-]. reflexivity.
    + destruct (coordinateBridgeAuth env _ _ s) as [[st1| | |] s1]; try discriminate.
      intros [= <- <- <-]. reflexivity.
Qed.

Lemma authInitializer_eq (env : Env) (fuel : nat) (sc : ProxyScope) (s s1 : State)
    (st : AuthCoordinatorState) (c1 : AuthCoordinator) :
  initializeAuth env fuel (authCoordinator sc) s = (Returns (st, c1), s1) ->
  authInitializer env fuel sc s
  = (Returns ({| h_waitForAuthCode := waitForAuthCode st;
                 h_skipBrowserAuth := skipBrowserAuth st |},
              {| authCoordinator := c1; server_var := server st |}),
     if skipBrowserAuth st then slept env 1000 s1 else s1).
Proof.
  intros E. unfold authInitializer.
  rewrite (bind_eq _ _ _ _ _ E). cbn [fst snd].
  destruct (skipBrowserAuth st).
  - rewrite (bind_eq _ _ _ _ _ (sleep_eq env 1000 s1)). reflexivity.
  - reflexivity.
Qed.

(** X21: [authInitializer] of [runProxy] hands on the coordinator's
    [waitForAuthCode] and [skipBrowserAuth] and stores its server in the
    outer variable; it waits one second after coordination exactly when
    another instance did the authentication. Called again, it returns the
    same handlers without coordinating again: the world is unchanged for a
    primary, and only one more one-second wait happens for a secondary. *)
Theorem authInitializer_waits_only_after_adoption (env : Env) (fuel : nat)
    (sc sc' : ProxyScope) (s s' : State) (h : AuthHandlers) :
  authInitializer env fuel sc s = (Returns (h, sc'), s') ->
  (exists st s1,
      initializeAuth env fuel (authCoordinator sc) s
      = (Returns (st, authCoordinator sc'), s1)
      /\ h_waitForAuthCode h = waitForAuthCode st
      /\ h_skipBrowserAuth h = skipBrowserAuth st
      /\ server_var sc' = server st
      /\ s' = if skipBrowserAuth st then slept env 1000 s1 else s1)
  /\ (forall fuel',
        authInitializer env fuel' sc' s'
        = (Returns (h, sc'), if h_skipBrowserAuth h then slept env 1000 s' else s')).
Proof.
  intros E.
  destruct (initializeAuth env fuel (authCoordinator sc) s) as [[[st c1]|e| |] s1] eqn:Ei.
  2-4: unfold authInitializer, bind in E; rewrite Ei in E; discriminate.
  rewrite (authInitializer_eq env fuel sc s s1 st c1 Ei) in E.
  injection E as <- <- <-.
  split.
  - exists st, s1. cbn [authCoordinator server_var h_waitForAuthCode h_skipBrowserAuth].
    auto.
  - intros fuel'.
    pose proof (initializeAuth_caches env fuel _ _ _ _ _ Ei) as Hc.
    apply (authInitializer_eq env fuel'). cbn [authCoordinator].
    apply initializeAuth_cached, Hc.
Qed.

Lemma authInitializer_waits_only_after_adoption_witness :
  authInitializer (sample_env (js "linux") (always 202 [])) 5
    {| authCoordinator := createLazyAuthCoordinator (js "server-hash") 0 bridge_options;
       server_var := None |} start_state
  = (Returns ({| h_waitForAuthCode := waitForAuthCode sample_bridge_state;
                 h_skipBrowserAuth := false |},
              {| authCoordinator := sample_memo; server_var := None |}),
     snd (new_object start_state))
  /\ authInitializer (sample_env (js "linux") (always 202 [])) 7
       {| authCoordinator := sample_memo; server_var := None |}
       (snd (new_object start_state))
     = (Returns ({| h_waitForAuthCode := waitForAuthCode sample_bridge_state;
                    h_skipBrowserAuth := false |},
                 {| authCoordinator := sample_memo; server_var := None |}),
        snd (new_object start_state)).
Proof.
  assert (E : authInitializer (sample_env (js "linux") (always 202 [])) 5
                {| authCoordinator :=
                     createLazyAuthCoordinator (js "server-hash") 0 bridge_options;
                   server_var := None |} start_state
              = (Returns ({| h_waitForAuthCode := waitForAuthCode sample_bridge_state;
                             h_skipBrowserAuth := false |},
                          {| authCoordinator := sample_memo; server_var := None |}),
                 snd (new_object start_state))) by reflexivity.
  split; [exact E|].
  exact (proj2 (authInitializer_waits_only_after_adoption _ 5 _ _ _ _ _ E) 7%nat).
Defined.

End ProxyFacts.
